(** * Military asset ledger: role-scoped queries, balance metrics, writes

    A shallow embedding of [backend/server.js] (the Express application)
    together with the columns, the CHECK and NOT NULL constraints and the
    foreign keys of [backend/schema.sql] that its statements touch.

    - JavaScript values of a parsed JSON body or query string are [jsval];
      numbers are the integer-valued ones (ids, quantities, counts).  The
      arithmetic of the dashboard is that of IEEE doubles: a sum is the
      double nearest to the exact sum, which is the exact sum only as far
      as 2^53.
    - The relational store is explicit state: one list of rows per table,
      the sequences, and the input functions of the engine for the types
      whose syntax is its own (dates, character data, decimal text).
    - A round trip can also fail for reasons that are not the statement's
      (a lost connection, a timeout); that is the fault schedule of the
      [world], one flag per round trip.
    - Handlers are written in a small state-and-exception monad [M].
    - The application is the whole middleware stack: the CORS filter, the
      body parsers, the request logger, the routes, and the global error
      handler.  What the body parsers make of the bytes of a request is
      part of the request as it is given here.
    - Outside the development: the login endpoint (password check and
      token issue) and the not-found fallback. *)

From Stdlib Require Import ZArith List String Ascii Bool Lia Permutation.
Import ListNotations.
Local Open Scope Z_scope.
Local Open Scope string_scope.

(* ------------------------------------------------------------------ *)
(** ** JavaScript values *)

Inductive jsval : Type :=
| JUndefined
| JNull
| JBool (b : bool)
| JNum (n : Z)
| JStr (s : string)
| JObj (text : string).
  (* an array or an object of a parsed body / query, with the text the
     driver sends for it when it is bound to a parameter *)

(** [!v] is [negb (truthy v)]. *)
Definition truthy (v : jsval) : bool :=
  match v with
  | JUndefined | JNull => false
  | JBool b => b
  | JNum n => negb (n =? 0)%Z
  | JStr s => negb (s =? "")%string
  | JObj _ => true
  end.

(** [a === b].  Two structured values read from two places of a parsed
    request are different references, hence never identical. *)
Definition strict_eq (a b : jsval) : bool :=
  match a, b with
  | JUndefined, JUndefined => true
  | JNull, JNull => true
  | JBool x, JBool y => Bool.eqb x y
  | JNum x, JNum y => (x =? y)%Z
  | JStr x, JStr y => (x =? y)%string
  | _, _ => false
  end.

(** A JavaScript object used as a record: [o.k] is [field o k]. *)
Definition jsobject := list (string * jsval).

Fixpoint field (o : jsobject) (k : string) : jsval :=
  match o with
  | [] => JUndefined
  | (k', v) :: o' => if (k' =? k)%string then v else field o' k
  end.

(* ------------------------------------------------------------------ *)
(** ** Binding a JavaScript value to an integer column or parameter *)

Definition is_space (c : ascii) : bool :=
  let n := nat_of_ascii c in
  (Nat.eqb n 32 || (Nat.leb 9 n && Nat.leb n 13))%bool.

Definition digit_of (c : ascii) : option Z :=
  let n := nat_of_ascii c in
  if (Nat.leb 48 n && Nat.leb n 57)%bool then Some (Z.of_nat n - 48) else None.

Fixpoint skip_spaces (s : string) : string :=
  match s with
  | String c r => if is_space c then skip_spaces r else s
  | EmptyString => s
  end.

(** Reads the longest prefix of decimal digits. *)
Fixpoint read_digits (s : string) (acc : Z) : Z * string :=
  match s with
  | String c r =>
      match digit_of c with
      | Some d => read_digits r (10 * acc + d)
      | None => (acc, s)
      end
  | EmptyString => (acc, s)
  end.

(** The engine's integer input: blanks, an optional sign, decimal digits,
    blanks. *)
Definition intin (s : string) : option Z :=
  let s1 := skip_spaces s in
  let '(neg, s2) :=
    match s1 with
    | String "-" r => (true, r)
    | String "+" r => (false, r)
    | _ => (false, s1)
    end in
  match s2 with
  | String c _ =>
      match digit_of c with
      | Some _ =>
          let '(n, rest) := read_digits s2 0 in
          match skip_spaces rest with
          | EmptyString => Some (if neg then - n else n)
          | _ => None
          end
      | None => None
      end
  | EmptyString => None
  end.

Inductive pg_int : Type :=
| PgErr                (* invalid input syntax / out of range *)
| PgNull
| PgInt (z : Z).

Definition in_range (bits : Z) (z : Z) : bool :=
  ((- 2 ^ (bits - 1) <=? z) && (z <? 2 ^ (bits - 1)))%Z.

(** The driver sends [null]/[undefined] as NULL and anything else as text
    (a number as its decimal digits, which read back as the same integer;
    a boolean as [true]/[false]; an array or object as a literal starting
    with a brace), and the engine reads the text as an integer of the
    given width. *)
Definition pg_bind (bits : Z) (v : jsval) : pg_int :=
  match v with
  | JUndefined | JNull => PgNull
  | JNum n => if in_range bits n then PgInt n else PgErr
  | JStr s =>
      match intin s with
      | Some n => if in_range bits n then PgInt n else PgErr
      | None => PgErr
      end
  | JBool _ | JObj _ => PgErr
  end.

Definition pg_int4 : jsval -> pg_int := pg_bind 32.
Definition pg_int8 : jsval -> pg_int := pg_bind 64.

(* ------------------------------------------------------------------ *)
(** ** JavaScript arithmetic on integers

    A Number is an IEEE double.  The doubles that arise here hold
    integers: an integer is a double when it has at most 53 significant
    bits, and the sum or difference of two doubles is the double nearest
    to the exact result, a tie going to the even significand.  The
    integers met are sums of a few 64-bit aggregates, far from where the
    doubles end. *)

(** The double nearest to an integer. *)
Definition double (n : Z) : Z :=
  let a := Z.abs n in
  let e := Z.log2 a - 52 in          (* the last place weighs 2^e *)
  if (e <=? 0)%Z then n
  else
    let ulp := 2 ^ e in
    let q := a / ulp in
    let r := a mod ulp in
    let q' := if (2 * r <? ulp)%Z then q
              else if (ulp <? 2 * r)%Z then q + 1
              else if Z.even q then q else q + 1 in
    Z.sgn n * (q' * ulp).

(** [a + b] and [a - b] *)
Definition js_add (a b : Z) : Z := double (a + b).
Definition js_sub (a b : Z) : Z := double (a - b).

(** [parseInt(total)] on the decimal digits of a 64-bit integer. *)
Definition parseInt (total : Z) : Z := double total.

(* ------------------------------------------------------------------ *)
(** ** Binding a JavaScript value to a date, text or decimal parameter

    The syntax of dates, of character data and of decimal text is the
    engine's own: its input functions are a component of the store. *)

Inductive sqltype : Type :=
| DATE
| TEXT
| VARCHAR (n : Z).

(** What a DECIMAL(p, 2) column holds: not-a-number, or so many
    hundredths. *)
Inductive decimal : Type :=
| NaN
| Dec (hundredths : Z).

Record typein := mkTypein {
  (* the engine reads the text the driver sends for the value as a value
     of the type; for VARCHAR(n), the text is no longer than n *)
  reads : sqltype -> jsval -> bool;
  (* the value of a decimal text, rounded to two places *)
  decimal_in : string -> option decimal }.

Definition is_null (v : jsval) : bool :=
  match v with JUndefined | JNull => true | _ => false end.

(** A parameter of a type of [sqltype]: NULL, or text the engine reads. *)
Definition accepts (t : typein) (ty : sqltype) (v : jsval) : bool :=
  (is_null v || reads t ty v)%bool.

Inductive pg_dec : Type :=
| DecErr               (* invalid input syntax *)
| DecNull
| DecVal (x : decimal).

(** A decimal parameter: a number is sent as its digits, which read back
    as the same number; a string is read by the engine; the text of a
    boolean, an array or an object is no decimal. *)
Definition pg_decimal (t : typein) (v : jsval) : pg_dec :=
  match v with
  | JUndefined | JNull => DecNull
  | JNum n => DecVal (Dec (100 * n))
  | JStr s =>
      match decimal_in t s with
      | Some x => DecVal x
      | None => DecErr
      end
  | JBool _ | JObj _ => DecErr
  end.

(** A value fits DECIMAL(12, 2): fewer than ten digits before the point. *)
Definition fits_12_2 (x : decimal) : bool :=
  match x with
  | NaN => true
  | Dec h => (Z.abs h <? 10 ^ 12)%Z
  end.

(** [x >= 0], as the engine orders decimals (not-a-number above all). *)
Definition nonnegative (x : decimal) : bool :=
  match x with
  | NaN => true
  | Dec h => (0 <=? h)%Z
  end.

(* ------------------------------------------------------------------ *)
(** ** The schema (schema.sql): rows, tables, sequences *)

Inductive Role : Type := admin | commander | logistics.

Definition role_eqb (a b : Role) : bool :=
  match a, b with
  | admin, admin | commander, commander | logistics, logistics => true
  | _, _ => false
  end.

Inductive assignment_status : Type := active | returned | lost | damaged.
Inductive transfer_status : Type := pending | in_transit | completed | cancelled.

Record base_row := mkBase {
  b_id : Z; b_name : string; b_location : option string;
  b_commander_name : option string }.

Record user_row := mkUserRow {
  u_id : Z; u_email : string; u_name : string; u_role : Role;
  u_base_id : option Z; u_is_active : bool }.

Record equipment_row := mkEquipment {
  e_id : Z; e_name : string; e_category : string;
  e_description : option string; e_unit_of_measure : option string }.

Record personnel_row := mkPersonnel {
  pe_id : Z; pe_name : string; pe_rank : option string;
  pe_unit : option string }.

Record asset_row := mkAsset {
  as_id : Z; as_base_id : Z; as_equipment_type_id : Z; as_quantity : Z }.

(** Columns that are not integers keep the value that was bound. *)
Record purchase_row := mkPurchase {
  p_id : Z; p_base_id : Z; p_equipment_type_id : Z; p_quantity : Z;
  p_cost : jsval; p_purchase_date : jsval; p_supplier : jsval;
  p_notes : jsval; p_created_by : option Z }.

Record transfer_row := mkTransfer {
  t_id : Z; t_from_base_id : Z; t_to_base_id : Z; t_equipment_type_id : Z;
  t_quantity : Z; t_transfer_date : jsval; t_status : transfer_status;
  t_notes : jsval; t_created_by : option Z }.

Record assignment_row := mkAssignment {
  a_id : Z; a_base_id : Z; a_equipment_type_id : Z; a_personnel_id : Z;
  a_serial_number : jsval; a_assignment_date : jsval;
  a_status : assignment_status; a_notes : jsval; a_created_by : option Z }.

Record expenditure_row := mkExpenditure {
  x_id : Z; x_base_id : Z; x_equipment_type_id : Z; x_quantity : Z }.

Record audit_row := mkAudit {
  al_id : Z; al_user_id : option Z; al_action : string;
  al_entity_type : string; al_entity_id : option Z;
  al_details : jsobject; al_timestamp : Z }.

Record db := mkDb {
  engine : typein;
  tbl_bases : list base_row;
  tbl_users : list user_row;
  tbl_equipment_types : list equipment_row;
  tbl_personnel : list personnel_row;
  tbl_assets : list asset_row;
  tbl_purchases : list purchase_row;
  tbl_transfers : list transfer_row;
  tbl_assignments : list assignment_row;
  tbl_expenditures : list expenditure_row;
  tbl_audit_logs : list audit_row;
  purchases_id_seq : Z;
  transfers_id_seq : Z;
  assignments_id_seq : Z;
  audit_logs_id_seq : Z }.

(* ------------------------------------------------------------------ *)
(** ** The world a request runs in *)

(** One tag per statement text of server.js. *)
Inductive stmt : Type :=
| SelectFrom (table : string)
| InsertInto (table : string).

Inductive level : Type := Info | Warn | Error.

(** The operational log (the winston logger), one entry per call. *)
Inductive log_msg : Type :=
| IncomingRequest
| AccessDenied (email : option string) (allowed : list Role)
| AuditLog (action entityType : string) (userId entityId : Z)
| AuditFailed
| NewRecord (what : string) (id : Z) (email : string)
| HandlerError (label : string).

(** The decoded token payload, [req.user]: what login signed from the
    user's row (whose role column is one of the three roles). *)
Record User := mkUser {
  user_id : Z; user_email : string; user_role : Role;
  user_base_id : option Z }.

Record world := mkWorld {
  jwt_verify : string -> option User;   (* jwt.verify with the secret *)
  store : db;
  faults : list bool;         (* true: the next round trip fails *)
  trace : list stmt;          (* the statements sent so far *)
  oplog : list (level * log_msg);
  clock : Z }.

Definition set_store (d : db) (w : world) : world :=
  mkWorld (jwt_verify w) d (faults w) (trace w) (oplog w) (clock w).

Definition sent (s : stmt) (w : world) : world :=
  mkWorld (jwt_verify w) (store w) (tl (faults w)) (trace w ++ [s])%list (oplog w) (clock w).

Definition logged (l : level) (m : log_msg) (w : world) : world :=
  mkWorld (jwt_verify w) (store w) (faults w) (trace w) (oplog w ++ [(l, m)])%list (clock w).

(* ------------------------------------------------------------------ *)
(** ** State and exceptions *)

Inductive outcome (A : Type) : Type :=
| Thrown
| Returned (a : A).
Arguments Thrown {A}.
Arguments Returned {A} a.

Definition M (A : Type) : Type := world -> outcome A * world.

Definition ret {A} (a : A) : M A := fun w => (Returned a, w).

Definition bind {A B} (m : M A) (k : A -> M B) : M B :=
  fun w =>
    match m w with
    | (Returned a, w') => k a w'
    | (Thrown, w') => (Thrown, w')
    end.

Definition throw {A} : M A := fun w => (Thrown, w).

(** [try { body } catch (error) { handler }] *)
Definition try_catch {A} (body : M A) (handler : M A) : M A :=
  fun w =>
    match body w with
    | (Returned a, w') => (Returned a, w')
    | (Thrown, w') => handler w'
    end.

Definition logger (l : level) (m : log_msg) : M unit :=
  fun w => (Returned tt, logged l m w).

Declare Scope m_scope.
Delimit Scope m_scope with M.
Notation "x <- m ;; k" := (bind m (fun x => k))
  (at level 61, m at next level, right associativity) : m_scope.
Notation "m ;; k" := (bind m (fun _ => k))
  (at level 61, right associativity) : m_scope.
Local Open Scope m_scope.

(** [await pool.query(text, params)]: the statement is sent; it fails when
    the fault schedule says so or when the engine rejects it ([None]),
    and otherwise yields its rows.  [run] is the engine's reading of the
    statement: the store after it and its result. *)
Definition pool_query {A} (s : stmt) (run : Z -> db -> db * option A) : M A :=
  fun w =>
    let w1 := sent s w in
    match faults w with
    | true :: _ => (Thrown, w1)
    | _ =>
        let '(d, r) := run (clock w) (store w) in
        match r with
        | Some a => (Returned a, set_store d w1)
        | None => (Thrown, set_store d w1)
        end
    end.

(* ------------------------------------------------------------------ *)
(** ** Requests and responses *)

Record request := mkRequest {
  origin : option string;            (* req.headers.origin *)
  authorization : option string;     (* req.headers['authorization'] *)
  query : jsobject;                  (* req.query *)
  unreadable : bool;                 (* the body parsers refuse the body *)
  body : jsobject;                   (* req.body, as the parsers read it *)
  user : option User }.              (* req.user *)

Definition set_user (u : User) (req : request) : request :=
  mkRequest (origin req) (authorization req) (query req) (unreadable req)
            (body req) (Some u).

Record metrics := mkMetrics {
  openingBalance : Z;
  closingBalance : Z;
  netMovement : Z;
  purchases : Z;
  transferIn : Z;
  transferOut : Z;
  assigned : Z;
  expended : Z }.

Inductive resp_data : Type :=
| NoData
| MetricsData (m : metrics)
| PurchaseRows (rows : list purchase_row)
| TransferRows (rows : list transfer_row)
| AssignmentRows (rows : list assignment_row)
| BaseRows (rows : list base_row)
| EquipmentRows (rows : list equipment_row)
| AuditRows (rows : list audit_row)
| PurchaseData (row : purchase_row)
| TransferData (row : transfer_row)
| AssignmentData (row : assignment_row)
| HealthData (timestamp : Z).

Record response := mkResponse {
  status : Z;
  success : bool;
  error : option string;
  message : option string;
  data : resp_data }.

(** [res.status(code).json({ success: false, error })] *)
Definition failure (code : Z) (msg : string) : response :=
  mkResponse code false (Some msg) None NoData.

(** [res.json({ success: true, data })] *)
Definition ok (d : resp_data) : response :=
  mkResponse 200 true None None d.

(** [res.status(201).json({ success: true, message, data })] *)
Definition created (msg : string) (d : resp_data) : response :=
  mkResponse 201 true None (Some msg) d.

(** What a middleware does: answer, or call [next()]. *)
Inductive step : Type :=
| Respond (r : response)
| Next (req : request).

Definition middleware : Type := request -> M step.

(* ------------------------------------------------------------------ *)
(** ** authenticateToken, checkRole, logAudit *)

(** [s.split(sep)] *)
Fixpoint split (sep : ascii) (s : string) : list string :=
  match s with
  | EmptyString => [EmptyString]
  | String c r =>
      if Ascii.eqb c sep then EmptyString :: split sep r
      else match split sep r with
           | x :: xs => String c x :: xs
           | [] => [String c EmptyString]
           end
  end.

(** [authHeader && authHeader.split(' ')[1]], as the token when it is a
    non-empty string. *)
Definition bearer (authHeader : option string) : option string :=
  match authHeader with
  | Some h =>
      match nth_error (split " " h) 1 with
      | Some EmptyString => None
      | t => t
      end
  | None => None
  end.

Definition authenticateToken : middleware := fun req =>
  match bearer (authorization req) with
  | None =>
      ret (Respond
             (failure 401 "Access token required. Please login to continue."))
  | Some token =>
      fun w =>
        match jwt_verify w token with
        | None =>
            (Returned
               (Respond
                  (failure 403 "Invalid or expired token. Please login again.")),
             w)
        | Some u => (Returned (Next (set_user u req)), w)
        end
  end.

Definition includes (allowedRoles : list Role) (r : Role) : bool :=
  existsb (role_eqb r) allowedRoles.

Definition checkRole (allowedRoles : list Role) : middleware := fun req =>
  if match user req with
     | Some u => includes allowedRoles (user_role u)
     | None => false
     end
  then ret (Next req)
  else
    logger Warn (AccessDenied (option_map user_email (user req)) allowedRoles) ;;
    ret (Respond
           (failure 403
              "Access denied. You do not have permission to perform this action.")).

Definition is_undefined (v : jsval) : bool :=
  match v with JUndefined => true | _ => false end.

(** [JSON.stringify(details)] of an object literal: properties whose value
    is undefined are left out. *)
Definition stringify (details : jsobject) : jsobject :=
  filter (fun kv => negb (is_undefined (snd kv))) details.

Definition set_audit_logs (l : list audit_row) (n : Z) (d : db) : db :=
  mkDb (engine d) (tbl_bases d) (tbl_users d) (tbl_equipment_types d) (tbl_personnel d)
       (tbl_assets d) (tbl_purchases d) (tbl_transfers d) (tbl_assignments d)
       (tbl_expenditures d) l
       (purchases_id_seq d) (transfers_id_seq d) (assignments_id_seq d) n.

(** [REFERENCES users(id)] *)
Definition has_account (d : db) (uid : Z) : bool :=
  existsb (fun u => (u_id u =? uid)%Z) (tbl_users d).

(** [INSERT INTO audit_logs (user_id, action, entity_type, entity_id,
    details, timestamp) VALUES ($1, $2, $3, $4, $5, NOW())].
    The user id is read as an integer; then the row takes the next id of
    the sequence, and its user must exist.  (The sequences are taken to
    be far from their ends, so that an id is an integer of the width of
    its column.) *)
Definition insert_audit_log (userId : Z) (action entityType : string)
    (entityId : Z) (details : jsobject) (now : Z) (d : db) : db * option unit :=
  let id := audit_logs_id_seq d in
  if negb (in_range 32 userId)
  then (d, None)
  else if has_account d userId
  then
    let row := mkAudit id (Some userId) action entityType (Some entityId)
                       details now in
    (set_audit_logs (tbl_audit_logs d ++ [row])%list (id + 1) d, Some tt)
  else (set_audit_logs (tbl_audit_logs d) (id + 1) d, None).

Definition logAudit (userId : Z) (action entityType : string) (entityId : Z)
    (details : jsobject) : M unit :=
  try_catch
    (pool_query (InsertInto "audit_logs")
       (insert_audit_log userId action entityType entityId (stringify details)) ;;
     logger Info (AuditLog action entityType userId entityId))
    (logger Error AuditFailed).

(* ------------------------------------------------------------------ *)
(** ** Reading the store *)

(** [req.user.base_id] as the JavaScript value it is. *)
Definition js_of_base (b : option Z) : jsval :=
  match b with
  | Some n => JNum n
  | None => JNull
  end.

(** The optional clause [WHERE col = $1] with its one parameter: every row
    without a clause, no row for a NULL parameter, an error when the
    parameter is no integer. *)
Definition where_eq {R} (col : R -> Z) (clause : option jsval)
  : option (R -> bool) :=
  match clause with
  | None => Some (fun _ => true)
  | Some v =>
      match pg_int4 v with
      | PgErr => None
      | PgNull => Some (fun _ => false)
      | PgInt b => Some (fun r => (col r =? b)%Z)
      end
  end.

Definition sum_of {R} (qty : R -> Z) (rows : list R) : Z :=
  fold_right (fun r acc => qty r + acc) 0 rows.

(** [SELECT COALESCE(SUM(quantity), 0) as total FROM t <clause>], and
    [parseInt(rows[0].total)]: the sum is a 64-bit integer (the statement
    fails when it is out of range), which comes back as its digits. *)
Definition select_sum {R} (qty col : R -> Z) (clause : option jsval)
    (rows : list R) : option Z :=
  match where_eq col clause with
  | Some keep =>
      let total := sum_of qty (filter keep rows) in
      if in_range 64 total then Some (parseInt total) else None
  | None => None
  end.

Definition is_active (a : assignment_row) : bool :=
  match a_status a with active => true | _ => false end.

(** [SELECT COALESCE(COUNT( * ), 0) as total FROM assignments <clause>
    AND|WHERE status = 'active'], and [parseInt(rows[0].total)]. *)
Definition select_count_active (clause : option jsval)
    (rows : list assignment_row) : option Z :=
  option_map
    (fun keep =>
       parseInt
         (Z.of_nat
            (List.length (filter (fun a => keep a && is_active a)%bool rows))))
    (where_eq a_base_id clause).

(** A statement that only reads. *)
Definition reading {A} (f : db -> option A) : Z -> db -> db * option A :=
  fun _ d => (d, f d).

(* ------------------------------------------------------------------ *)
(** ** GET /api/dashboard/metrics *)

(** The closing lines of the handler: net movement and closing balance
    from the aggregates, and the [data] object of the answer. *)
Definition computeMetrics (openingBalance purchases transferIn transferOut
    assigned expended : Z) : metrics :=
  let netMovement := js_sub (js_add purchases transferIn) transferOut in
  let closingBalance := js_add openingBalance netMovement in
  mkMetrics openingBalance closingBalance netMovement purchases transferIn
            transferOut assigned expended.

(** The clause of the assets, purchases, assignments and expenditures
    statements ([baseFilter] with its [params]). *)
Definition baseFilter (u : User) (base_id : jsval) : option jsval :=
  if role_eqb (user_role u) commander
  then Some (js_of_base (user_base_id u))
  else if (truthy base_id && role_eqb (user_role u) admin)%bool
       then Some base_id
       else None.

(** The clause of the transfers-in statement, on [to_base_id]. *)
Definition transfersInFilter (u : User) (base_id : jsval) : option jsval :=
  if role_eqb (user_role u) commander
  then Some (js_of_base (user_base_id u))
  else if truthy base_id then Some base_id else None.

(** The clause of the transfers-out statement, on [from_base_id]. *)
Definition transfersOutFilter (u : User) (base_id : jsval) : option jsval :=
  if role_eqb (user_role u) commander
  then Some (js_of_base (user_base_id u))
  else if truthy base_id then Some base_id else None.

Definition dashboard_metrics (req : request) : M response :=
  try_catch
    (match user req with
     | None => throw
     | Some u =>
         let base_id := field (query req) "base_id" in
         let date_from := field (query req) "date_from" in
         let date_to := field (query req) "date_to" in
         openingBalance <-
           pool_query (SelectFrom "assets")
             (reading (fun d =>
                select_sum as_quantity as_base_id (baseFilter u base_id)
                  (tbl_assets d))) ;;
         purchases <-
           pool_query (SelectFrom "purchases")
             (reading (fun d =>
                select_sum p_quantity p_base_id (baseFilter u base_id)
                  (tbl_purchases d))) ;;
         transferIn <-
           pool_query (SelectFrom "transfers")
             (reading (fun d =>
                select_sum t_quantity t_to_base_id
                  (transfersInFilter u base_id) (tbl_transfers d))) ;;
         transferOut <-
           pool_query (SelectFrom "transfers")
             (reading (fun d =>
                select_sum t_quantity t_from_base_id
                  (transfersOutFilter u base_id) (tbl_transfers d))) ;;
         assigned <-
           pool_query (SelectFrom "assignments")
             (reading (fun d =>
                select_count_active (baseFilter u base_id)
                  (tbl_assignments d))) ;;
         expended <-
           pool_query (SelectFrom "expenditures")
             (reading (fun d =>
                select_sum x_quantity x_base_id (baseFilter u base_id)
                  (tbl_expenditures d))) ;;
         ret (ok (MetricsData
                    (computeMetrics openingBalance purchases transferIn
                       transferOut assigned expended)))
     end)
    (logger Error (HandlerError "Dashboard metrics error:") ;;
     ret (failure 500 "Failed to fetch dashboard metrics")).

(* ------------------------------------------------------------------ *)
(** ** The list endpoints

    A listing is given as the rows of its table that satisfy the WHERE
    clause and have the parent rows the inner joins ask for, in table
    order: the joins only add display columns of those parents (ids are
    primary keys) and ORDER BY only permutes the rows. *)

Definition has_base (d : db) (b : Z) : bool :=
  existsb (fun r => (b_id r =? b)%Z) (tbl_bases d).

Definition has_equipment (d : db) (e : Z) : bool :=
  existsb (fun r => (e_id r =? e)%Z) (tbl_equipment_types d).

Definition has_personnel (d : db) (p : Z) : bool :=
  existsb (fun r => (pe_id r =? p)%Z) (tbl_personnel d).

(** The commander's clause of a listing; none for the other roles. *)
Definition commander_clause (u : User) : option jsval :=
  if role_eqb (user_role u) commander
  then Some (js_of_base (user_base_id u))
  else None.

Definition select_purchases (clause : option jsval) (d : db)
  : option (list purchase_row) :=
  option_map
    (fun keep =>
       filter (fun p => keep p && has_base d (p_base_id p)
                        && has_equipment d (p_equipment_type_id p))%bool
              (tbl_purchases d))
    (where_eq p_base_id clause).

(** [WHERE (t.from_base_id = $1 OR t.to_base_id = $1)] *)
Definition select_transfers (clause : option jsval) (d : db)
  : option (list transfer_row) :=
  match where_eq t_from_base_id clause, where_eq t_to_base_id clause with
  | Some from_is, Some to_is =>
      Some (filter (fun t => (from_is t || to_is t)
                             && has_base d (t_from_base_id t)
                             && has_base d (t_to_base_id t)
                             && has_equipment d (t_equipment_type_id t))%bool
                   (tbl_transfers d))
  | _, _ => None
  end.

Definition select_assignments (clause : option jsval) (d : db)
  : option (list assignment_row) :=
  option_map
    (fun keep =>
       filter (fun a => keep a && has_equipment d (a_equipment_type_id a)
                        && has_base d (a_base_id a)
                        && has_personnel d (a_personnel_id a))%bool
              (tbl_assignments d))
    (where_eq a_base_id clause).

(** The three listing handlers differ in their statement, their table
    and their messages only. *)
Definition listing {R} (table label msg : string)
    (select : option jsval -> db -> option (list R))
    (wrap : list R -> resp_data) (req : request) : M response :=
  try_catch
    (match user req with
     | None => throw
     | Some u =>
         rows <- pool_query (SelectFrom table)
                   (reading (select (commander_clause u))) ;;
         ret (ok (wrap rows))
     end)
    (logger Error (HandlerError label) ;; ret (failure 500 msg)).

Definition get_purchases : request -> M response :=
  listing "purchases" "Get purchases error:"
    "Failed to fetch purchase records" select_purchases PurchaseRows.

Definition get_transfers : request -> M response :=
  listing "transfers" "Get transfers error:"
    "Failed to fetch transfer records" select_transfers TransferRows.

Definition get_assignments : request -> M response :=
  listing "assignments" "Get assignments error:"
    "Failed to fetch assignment records" select_assignments AssignmentRows.

(* ------------------------------------------------------------------ *)
(** ** Writing the store *)

Definition set_purchases (l : list purchase_row) (n : Z) (d : db) : db :=
  mkDb (engine d) (tbl_bases d) (tbl_users d) (tbl_equipment_types d) (tbl_personnel d)
       (tbl_assets d) l (tbl_transfers d) (tbl_assignments d)
       (tbl_expenditures d) (tbl_audit_logs d)
       n (transfers_id_seq d) (assignments_id_seq d) (audit_logs_id_seq d).

Definition set_transfers (l : list transfer_row) (n : Z) (d : db) : db :=
  mkDb (engine d) (tbl_bases d) (tbl_users d) (tbl_equipment_types d) (tbl_personnel d)
       (tbl_assets d) (tbl_purchases d) l (tbl_assignments d)
       (tbl_expenditures d) (tbl_audit_logs d)
       (purchases_id_seq d) n (assignments_id_seq d) (audit_logs_id_seq d).

Definition set_assignments (l : list assignment_row) (n : Z) (d : db) : db :=
  mkDb (engine d) (tbl_bases d) (tbl_users d) (tbl_equipment_types d) (tbl_personnel d)
       (tbl_assets d) (tbl_purchases d) (tbl_transfers d) l
       (tbl_expenditures d) (tbl_audit_logs d)
       (purchases_id_seq d) (transfers_id_seq d) n (audit_logs_id_seq d).

(** The parameters of an insert are read when they are bound: an integer
    that is no integer, a date or a text the engine does not read, or a
    decimal that is none, fails the statement before it runs.  The row
    then takes the next id of its sequence and is checked: NOT NULL, the
    CHECKs, the width of the columns and the foreign keys.  A row that
    fails a check has used up its id. *)

Definition is_int (v : jsval) : bool :=
  match pg_int4 v with PgErr => false | _ => true end.

Definition is_decimal (t : typein) (v : jsval) : bool :=
  match pg_decimal t v with DecErr => false | _ => true end.

(** [cost DECIMAL(12, 2) CHECK (cost >= 0)], a column that may be NULL. *)
Definition cost_ok (t : typein) (cost : jsval) : bool :=
  match pg_decimal t cost with
  | DecErr => false
  | DecNull => true
  | DecVal x => (fits_12_2 x && nonnegative x)%bool
  end.

(** [INSERT INTO purchases (base_id, equipment_type_id, quantity, cost,
    purchase_date, supplier, notes, created_by) VALUES ($1, ..., $8)
    RETURNING *] *)
Definition purchase_params (t : typein) (base_id equipment_type_id quantity
    cost purchase_date supplier notes : jsval) (created_by : Z) : bool :=
  (is_int base_id && is_int equipment_type_id && is_int quantity
   && is_decimal t cost && accepts t DATE purchase_date
   && accepts t TEXT supplier && accepts t TEXT notes
   && in_range 32 created_by)%bool.

(** The row of a purchase, when it passes the checks of the table:
    [base_id], [equipment_type_id], [quantity] and [purchase_date] NOT
    NULL, [CHECK (quantity > 0)], [CHECK (cost >= 0)] within DECIMAL(12,
    2), [supplier] within VARCHAR(255), and the three foreign keys. *)
Definition purchase_checked (d : db) (base_id equipment_type_id quantity
    cost purchase_date supplier notes : jsval) (created_by : Z)
  : option (Z * Z * Z) :=
  match pg_int4 base_id, pg_int4 equipment_type_id, pg_int4 quantity with
  | PgInt b, PgInt e, PgInt q =>
      if ((0 <? q)%Z && cost_ok (engine d) cost
          && negb (is_null purchase_date)
          && accepts (engine d) (VARCHAR 255) supplier
          && has_base d b && has_equipment d e
          && has_account d created_by)%bool
      then Some (b, e, q)
      else None
  | _, _, _ => None
  end.

Definition insert_purchase (base_id equipment_type_id quantity cost
    purchase_date supplier notes : jsval) (created_by : Z)
    (now : Z) (d : db) : db * option purchase_row :=
  let id := purchases_id_seq d in
  if negb (purchase_params (engine d) base_id equipment_type_id quantity cost
             purchase_date supplier notes created_by)
  then (d, None)
  else
    match purchase_checked d base_id equipment_type_id quantity cost
            purchase_date supplier notes created_by with
    | Some (b, e, q) =>
        let row := mkPurchase id b e q cost purchase_date supplier notes
                              (Some created_by) in
        (set_purchases (tbl_purchases d ++ [row])%list (id + 1) d, Some row)
    | None => (set_purchases (tbl_purchases d) (id + 1) d, None)
    end.

(** [INSERT INTO transfers (from_base_id, to_base_id, equipment_type_id,
    quantity, transfer_date, status, notes, created_by) VALUES ($1, ...,
    $5, 'pending', $6, $7) RETURNING *] *)
Definition transfer_params (t : typein) (from_base_id to_base_id
    equipment_type_id quantity transfer_date notes : jsval) (created_by : Z)
  : bool :=
  (is_int from_base_id && is_int to_base_id && is_int equipment_type_id
   && is_int quantity && accepts t DATE transfer_date && accepts t TEXT notes
   && in_range 32 created_by)%bool.

(** The row of a transfer, when it passes the checks of the table: the
    four integers and [transfer_date] NOT NULL, [CHECK (quantity > 0)],
    [CHECK (from_base_id != to_base_id)], and the four foreign keys. *)
Definition transfer_checked (d : db) (from_base_id to_base_id
    equipment_type_id quantity transfer_date notes : jsval) (created_by : Z)
  : option (Z * Z * Z * Z) :=
  match pg_int4 from_base_id, pg_int4 to_base_id,
        pg_int4 equipment_type_id, pg_int4 quantity with
  | PgInt f, PgInt t, PgInt e, PgInt q =>
      if ((0 <? q)%Z && negb (f =? t)%Z
          && negb (is_null transfer_date)
          && has_base d f && has_base d t && has_equipment d e
          && has_account d created_by)%bool
      then Some (f, t, e, q)
      else None
  | _, _, _, _ => None
  end.

Definition insert_transfer (from_base_id to_base_id equipment_type_id quantity
    transfer_date notes : jsval) (created_by : Z)
    (now : Z) (d : db) : db * option transfer_row :=
  let id := transfers_id_seq d in
  if negb (transfer_params (engine d) from_base_id to_base_id
             equipment_type_id quantity transfer_date notes created_by)
  then (d, None)
  else
    match transfer_checked d from_base_id to_base_id equipment_type_id
            quantity transfer_date notes created_by with
    | Some (f, t, e, q) =>
        let row := mkTransfer id f t e q transfer_date pending notes
                              (Some created_by) in
        (set_transfers (tbl_transfers d ++ [row])%list (id + 1) d, Some row)
    | None => (set_transfers (tbl_transfers d) (id + 1) d, None)
    end.

(** [INSERT INTO assignments (base_id, equipment_type_id, personnel_id,
    serial_number, assignment_date, status, notes, created_by) VALUES
    ($1, ..., $5, 'active', $6, $7) RETURNING *] *)
Definition assignment_params (t : typein) (base_id equipment_type_id
    personnel_id serial_number assignment_date notes : jsval)
    (created_by : Z) : bool :=
  (is_int base_id && is_int equipment_type_id && is_int personnel_id
   && accepts t TEXT serial_number && accepts t DATE assignment_date
   && accepts t TEXT notes && in_range 32 created_by)%bool.

(** The row of an assignment, when it passes the checks of the table:
    the three integers and [assignment_date] NOT NULL, [serial_number]
    within VARCHAR(100), and the four foreign keys. *)
Definition assignment_checked (d : db) (base_id equipment_type_id
    personnel_id serial_number assignment_date notes : jsval)
    (created_by : Z) : option (Z * Z * Z) :=
  match pg_int4 base_id, pg_int4 equipment_type_id, pg_int4 personnel_id with
  | PgInt b, PgInt e, PgInt p =>
      if (negb (is_null assignment_date)
          && accepts (engine d) (VARCHAR 100) serial_number
          && has_base d b && has_equipment d e && has_personnel d p
          && has_account d created_by)%bool
      then Some (b, e, p)
      else None
  | _, _, _ => None
  end.

Definition insert_assignment (base_id equipment_type_id personnel_id
    serial_number assignment_date notes : jsval) (created_by : Z)
    (now : Z) (d : db) : db * option assignment_row :=
  let id := assignments_id_seq d in
  if negb (assignment_params (engine d) base_id equipment_type_id
             personnel_id serial_number assignment_date notes created_by)
  then (d, None)
  else
    match assignment_checked d base_id equipment_type_id personnel_id
            serial_number assignment_date notes created_by with
    | Some (b, e, p) =>
        let row := mkAssignment id b e p serial_number assignment_date active
                                notes (Some created_by) in
        (set_assignments (tbl_assignments d ++ [row])%list (id + 1) d,
         Some row)
    | None => (set_assignments (tbl_assignments d) (id + 1) d, None)
    end.

(* ------------------------------------------------------------------ *)
(** ** POST /api/purchases, /api/transfers, /api/assignments *)

Definition create_purchase (req : request) : M response :=
  try_catch
    (let base_id := field (body req) "base_id" in
     let equipment_type_id := field (body req) "equipment_type_id" in
     let quantity := field (body req) "quantity" in
     let cost := field (body req) "cost" in
     let purchase_date := field (body req) "purchase_date" in
     let supplier := field (body req) "supplier" in
     let notes := field (body req) "notes" in
     if (negb (truthy base_id) || negb (truthy equipment_type_id)
         || negb (truthy quantity) || negb (truthy purchase_date))%bool
     then ret (failure 400
       "Required fields: base_id, equipment_type_id, quantity, purchase_date")
     else
       match user req with
       | None => throw
       | Some u =>
           if (role_eqb (user_role u) commander
               && negb (strict_eq base_id (js_of_base (user_base_id u))))%bool
           then ret (failure 403
                  "You can only create purchases for your assigned base")
           else
             purchase <-
               pool_query (InsertInto "purchases")
                 (insert_purchase base_id equipment_type_id quantity cost
                    purchase_date supplier notes (user_id u)) ;;
             logAudit (user_id u) "CREATE" "PURCHASE" (p_id purchase)
               [("base_id", base_id);
                ("equipment_type_id", equipment_type_id);
                ("quantity", quantity); ("cost", cost)] ;;
             logger Info (NewRecord "purchase" (p_id purchase) (user_email u)) ;;
             ret (created "Purchase record created successfully"
                    (PurchaseData purchase))
       end)
    (logger Error (HandlerError "Create purchase error:") ;;
     ret (failure 500 "Failed to create purchase record")).

Definition create_transfer (req : request) : M response :=
  try_catch
    (let from_base_id := field (body req) "from_base_id" in
     let to_base_id := field (body req) "to_base_id" in
     let equipment_type_id := field (body req) "equipment_type_id" in
     let quantity := field (body req) "quantity" in
     let transfer_date := field (body req) "transfer_date" in
     let notes := field (body req) "notes" in
     if (negb (truthy from_base_id) || negb (truthy to_base_id)
         || negb (truthy equipment_type_id) || negb (truthy quantity)
         || negb (truthy transfer_date))%bool
     then ret (failure 400
       "Required fields: from_base_id, to_base_id, equipment_type_id, quantity, transfer_date")
     else if strict_eq from_base_id to_base_id
     then ret (failure 400 "Cannot transfer to the same base")
     else
       match user req with
       | None => throw
       | Some u =>
           if (role_eqb (user_role u) commander
               && (negb (strict_eq from_base_id (js_of_base (user_base_id u)))
                   && negb (strict_eq to_base_id (js_of_base (user_base_id u)))))%bool
           then ret (failure 403
                  "You can only create transfers involving your assigned base")
           else
             transfer <-
               pool_query (InsertInto "transfers")
                 (insert_transfer from_base_id to_base_id equipment_type_id
                    quantity transfer_date notes (user_id u)) ;;
             logAudit (user_id u) "CREATE" "TRANSFER" (t_id transfer)
               [("from_base_id", from_base_id); ("to_base_id", to_base_id);
                ("equipment_type_id", equipment_type_id);
                ("quantity", quantity)] ;;
             logger Info (NewRecord "transfer" (t_id transfer) (user_email u)) ;;
             ret (created "Transfer record created successfully"
                    (TransferData transfer))
       end)
    (logger Error (HandlerError "Create transfer error:") ;;
     ret (failure 500 "Failed to create transfer record")).

Definition create_assignment (req : request) : M response :=
  try_catch
    (let base_id := field (body req) "base_id" in
     let equipment_type_id := field (body req) "equipment_type_id" in
     let personnel_id := field (body req) "personnel_id" in
     let serial_number := field (body req) "serial_number" in
     let assignment_date := field (body req) "assignment_date" in
     let notes := field (body req) "notes" in
     if (negb (truthy base_id) || negb (truthy equipment_type_id)
         || negb (truthy personnel_id) || negb (truthy assignment_date))%bool
     then ret (failure 400
       "Required fields: base_id, equipment_type_id, personnel_id, assignment_date")
     else
       match user req with
       | None => throw
       | Some u =>
           if (role_eqb (user_role u) commander
               && negb (strict_eq base_id (js_of_base (user_base_id u))))%bool
           then ret (failure 403
                  "You can only create assignments for your assigned base")
           else
             assignment <-
               pool_query (InsertInto "assignments")
                 (insert_assignment base_id equipment_type_id personnel_id
                    serial_number assignment_date notes (user_id u)) ;;
             logAudit (user_id u) "CREATE" "ASSIGNMENT" (a_id assignment)
               [("base_id", base_id);
                ("equipment_type_id", equipment_type_id);
                ("personnel_id", personnel_id);
                ("serial_number", serial_number)] ;;
             logger Info
               (NewRecord "assignment" (a_id assignment) (user_email u)) ;;
             ret (created "Assignment record created successfully"
                    (AssignmentData assignment))
       end)
    (logger Error (HandlerError "Create assignment error:") ;;
     ret (failure 500 "Failed to create assignment record")).

(* ------------------------------------------------------------------ *)
(** ** GET /api/bases, /api/equipment-types, /api/audit-logs, /api/health *)

Definition get_bases (req : request) : M response :=
  try_catch
    (rows <- pool_query (SelectFrom "bases")
               (reading (fun d => Some (tbl_bases d))) ;;
     ret (ok (BaseRows rows)))
    (logger Error (HandlerError "Get bases error:") ;;
     ret (failure 500 "Failed to fetch bases")).

Definition get_equipment_types (req : request) : M response :=
  try_catch
    (rows <- pool_query (SelectFrom "equipment_types")
               (reading (fun d => Some (tbl_equipment_types d))) ;;
     ret (ok (EquipmentRows rows)))
    (logger Error (HandlerError "Get equipment types error:") ;;
     ret (failure 500 "Failed to fetch equipment types")).

(** [ORDER BY al.timestamp DESC], keeping table order among equal stamps. *)
Fixpoint insert_desc (a : audit_row) (l : list audit_row) : list audit_row :=
  match l with
  | [] => [a]
  | b :: l' =>
      if (al_timestamp b <=? al_timestamp a)%Z then a :: l
      else b :: insert_desc a l'
  end.

Definition order_by_timestamp_desc (l : list audit_row) : list audit_row :=
  fold_right insert_desc [] l.

(** [JOIN users u ON al.user_id = u.id] *)
Definition has_user (d : db) (a : audit_row) : bool :=
  match al_user_id a with
  | Some uid => existsb (fun u => (u_id u =? uid)%Z) (tbl_users d)
  | None => false
  end.

(** [... ORDER BY al.timestamp DESC LIMIT $1 OFFSET $2]: both parameters
    are read as 64-bit integers, a negative one is an error, and a NULL
    one means no limit, respectively no offset. *)
Definition select_audit_logs (limit offset : jsval) (d : db)
  : option (list audit_row) :=
  let rows := order_by_timestamp_desc (filter (has_user d) (tbl_audit_logs d)) in
  match pg_int8 limit, pg_int8 offset with
  | PgErr, _ | _, PgErr => None
  | l, o =>
      let skipped :=
        match o with
        | PgInt n => if (n <? 0)%Z then None else Some (skipn (Z.to_nat n) rows)
        | _ => Some rows
        end in
      match skipped, l with
      | None, _ => None
      | Some r, PgInt n => if (n <? 0)%Z then None else Some (firstn (Z.to_nat n) r)
      | Some r, _ => Some r
      end
  end.

(** [const { limit = 100, offset = 0 } = req.query] *)
Definition default (v d : jsval) : jsval :=
  if is_undefined v then d else v.

Definition get_audit_logs (req : request) : M response :=
  try_catch
    (let limit := default (field (query req) "limit") (JNum 100) in
     let offset := default (field (query req) "offset") (JNum 0) in
     rows <- pool_query (SelectFrom "audit_logs")
               (reading (select_audit_logs limit offset)) ;;
     ret (ok (AuditRows rows)))
    (logger Error (HandlerError "Get audit logs error:") ;;
     ret (failure 500 "Failed to fetch audit logs")).

(** The health answer carries the time of the answer (its [status] text is
    the [message] here; the process uptime is left out). *)
Definition get_health (req : request) : M response :=
  fun w =>
    (Returned
       (mkResponse 200 true None (Some "Server is running")
          (HealthData (clock w))),
     w).

(* ------------------------------------------------------------------ *)
(** ** The CORS origin function (server.js, the [origin] option) *)

Definition allowedOrigins : list string :=
  ["http://localhost:3000"; "https://military-database.vercel.app"].

(** [s.endsWith(suffix)]: some tail of [s] is [suffix]. *)
Fixpoint endsWith (s suffix : string) : bool :=
  ((s =? suffix)%string
   || match s with
      | String _ r => endsWith r suffix
      | EmptyString => false
      end)%bool.

(** [true] is [callback(null, true)], [false] is
    [callback(new Error('Not allowed by CORS'))]; the argument is the
    Origin header of the request, when it has one. *)
Definition cors_origin (origin : option string) : bool :=
  match origin with
  | None => true
  | Some o =>
      ((o =? "")%string
       || existsb (String.eqb o) allowedOrigins
       || endsWith o ".vercel.app")%bool
  end.

(* ------------------------------------------------------------------ *)
(** ** The routes and the application *)

Inductive endpoint : Type :=
| GetDashboardMetrics
| GetPurchases
| PostPurchases
| GetTransfers
| PostTransfers
| GetAssignments
| PostAssignments
| GetBases
| GetEquipmentTypes
| GetAuditLogs
| GetHealth.

(** [app.METHOD(path, m1, ..., mn, handler)] *)
Fixpoint chain (ms : list middleware) (handler : request -> M response)
    (req : request) : M response :=
  match ms with
  | [] => handler req
  | m :: ms' =>
      s <- m req ;;
      match s with
      | Respond r => ret r
      | Next req' => chain ms' handler req'
      end
  end.

Definition route (e : endpoint) : request -> M response :=
  match e with
  | GetDashboardMetrics => chain [authenticateToken] dashboard_metrics
  | GetPurchases => chain [authenticateToken] get_purchases
  | PostPurchases =>
      chain [authenticateToken; checkRole [admin; commander]] create_purchase
  | GetTransfers => chain [authenticateToken] get_transfers
  | PostTransfers =>
      chain [authenticateToken; checkRole [admin; commander; logistics]]
        create_transfer
  | GetAssignments => chain [authenticateToken] get_assignments
  | PostAssignments =>
      chain [authenticateToken; checkRole [admin; commander]] create_assignment
  | GetBases => chain [authenticateToken] get_bases
  | GetEquipmentTypes => chain [authenticateToken] get_equipment_types
  | GetAuditLogs => chain [authenticateToken; checkRole [admin]] get_audit_logs
  | GetHealth => get_health
  end.

(** A request as it arrives: nothing has set [req.user] yet. *)
Definition arriving (req : request) : request :=
  mkRequest (origin req) (authorization req) (query req) (unreadable req)
            (body req) None.

(** The global error handler, for what is passed to [next(err)]. *)
Definition error_handler (r : outcome response * world) : response * world :=
  match r with
  | (Returned r, w') => (r, w')
  | (Thrown, w') =>
      (failure 500 "Internal server error. Please try again later.",
       logged Error (HandlerError "Unhandled error:") w')
  end.

(** [app.use(cors({ origin, credentials: true }))] on the request of a
    route: the origin function decides, and its error goes to
    [next(err)]. *)
Definition cors : middleware := fun req =>
  if cors_origin (origin req) then ret (Next req) else throw.

(** [app.use(express.json())] and [app.use(express.urlencoded({ extended:
    true }))]: a body they cannot read (malformed JSON, a body over the
    limit) goes to [next(err)]. *)
Definition body_parsers : middleware := fun req =>
  if unreadable req then throw else ret (Next req).

(** The request logger. *)
Definition request_logger : middleware := fun req =>
  logger Info IncomingRequest ;; ret (Next req).

(** The application on one request: the CORS filter, the body parsers,
    the request logger, the route, and the global error handler. *)
Definition app (e : endpoint) (req : request) (w : world) : response * world :=
  error_handler
    (chain [cors; body_parsers; request_logger] (route e) (arriving req) w).

(** The endpoints behind the token check: all but the health probe (the
    login endpoint, which issues the tokens, is not part of this
    development). *)
Definition protected (e : endpoint) : bool :=
  match e with GetHealth => false | _ => true end.

(** A sequence of requests, handled one after the other. *)
Fixpoint serve (rs : list (endpoint * request)) (w : world) : world :=
  match rs with
  | [] => w
  | (e, req) :: rs' => serve rs' (snd (app e req w))
  end.

(* ------------------------------------------------------------------ *)
(** ** Vocabulary of the statements *)

(** The status codes the handlers answer with, by name. *)
Inductive error_kind : Type :=
| ValidationError      (* 400 *)
| Unauthorized         (* 401 *)
| Forbidden            (* 403 *)
| NotFound             (* 404 *)
| StoreFailure.        (* 500 *)

Definition kind (r : response) : option error_kind :=
  if (status r =? 400)%Z then Some ValidationError
  else if (status r =? 401)%Z then Some Unauthorized
  else if (status r =? 403)%Z then Some Forbidden
  else if (status r =? 404)%Z then Some NotFound
  else if (status r =? 500)%Z then Some StoreFailure
  else None.

(** The request passes the CORS filter and the body parsers. *)
Definition admitted (req : request) : bool :=
  (cors_origin (origin req) && negb (unreadable req))%bool.

(** The application from the request logger on: what it does with a
    request that is let through. *)
Definition routed (e : endpoint) (req : request) (w : world)
  : response * world :=
  error_handler ((logger Info IncomingRequest ;; route e (arriving req)) w).

(** The answer of the global error handler, and the world it leaves. *)
Definition internal_error : response :=
  failure 500 "Internal server error. Please try again later.".

Definition unhandled (w : world) : world :=
  logged Error (HandlerError "Unhandled error:") w.

(** What a route runs once [authenticateToken] has called [next()]. *)
Definition behind (e : endpoint) : request -> M response :=
  match e with
  | GetDashboardMetrics => dashboard_metrics
  | GetPurchases => get_purchases
  | PostPurchases => chain [checkRole [admin; commander]] create_purchase
  | GetTransfers => get_transfers
  | PostTransfers =>
      chain [checkRole [admin; commander; logistics]] create_transfer
  | GetAssignments => get_assignments
  | PostAssignments => chain [checkRole [admin; commander]] create_assignment
  | GetBases => get_bases
  | GetEquipmentTypes => get_equipment_types
  | GetAuditLogs => chain [checkRole [admin]] get_audit_logs
  | GetHealth => get_health
  end.

(** The world a route starts in: the request has been logged. *)
Definition entered (w : world) : world := logged Info IncomingRequest w.

(** The six aggregates of the dashboard over a store, for a user and the
    [base_id] of the query string, when every statement is accepted. *)
Definition aggregates (u : User) (base_id : jsval) (d : db) : option metrics :=
  match select_sum as_quantity as_base_id (baseFilter u base_id) (tbl_assets d),
        select_sum p_quantity p_base_id (baseFilter u base_id) (tbl_purchases d),
        select_sum t_quantity t_to_base_id (transfersInFilter u base_id)
          (tbl_transfers d),
        select_sum t_quantity t_from_base_id (transfersOutFilter u base_id)
          (tbl_transfers d),
        select_count_active (baseFilter u base_id) (tbl_assignments d),
        select_sum x_quantity x_base_id (baseFilter u base_id)
          (tbl_expenditures d)
  with
  | Some o, Some p, Some ti, Some to, Some a, Some x =>
      Some (computeMetrics o p ti to a x)
  | _, _, _, _, _, _ => None
  end.

(** Row [x] belongs to base [b] (no row belongs to a missing base). *)
Definition own (b : option Z) (x : Z) : bool :=
  match b with
  | Some n => (x =? n)%Z
  | None => false
  end.

(** The metrics of one base: every aggregate restricted to it, as the
    Number it is read as. *)
Definition metrics_of_base (b : option Z) (d : db) : metrics :=
  computeMetrics
    (parseInt
       (sum_of as_quantity
          (filter (fun r => own b (as_base_id r)) (tbl_assets d))))
    (parseInt
       (sum_of p_quantity
          (filter (fun r => own b (p_base_id r)) (tbl_purchases d))))
    (parseInt
       (sum_of t_quantity
          (filter (fun r => own b (t_to_base_id r)) (tbl_transfers d))))
    (parseInt
       (sum_of t_quantity
          (filter (fun r => own b (t_from_base_id r)) (tbl_transfers d))))
    (parseInt
       (Z.of_nat
          (List.length
             (filter (fun r => own b (a_base_id r) && is_active r)%bool
                (tbl_assignments d)))))
    (parseInt
       (sum_of x_quantity
          (filter (fun r => own b (x_base_id r)) (tbl_expenditures d)))).

(** None of the next [n] round trips fails. *)
Definition no_fault (n : nat) (fs : list bool) : bool :=
  forallb negb (firstn n fs).

(** The request carries a token that verifies, in world [w], as user [u]. *)
Definition authenticated (w : world) (req : request) (u : User) : Prop :=
  exists token,
    bearer (authorization req) = Some token /\ jwt_verify w token = Some u.

(** Two query strings that agree on every key but the date range. *)
Definition same_but_dates (q q' : jsobject) : Prop :=
  forall k, k <> "date_from" -> k <> "date_to" -> field q k = field q' k.

(** The three create operations, with what their routes and handlers fix:
    the roles let through by [checkRole], the fields asked for, the table
    written and the entity type audited. *)
Definition is_create (e : endpoint) : bool :=
  match e with
  | PostPurchases | PostTransfers | PostAssignments => true
  | _ => false
  end.

Definition allowed_roles (e : endpoint) : list Role :=
  match e with
  | PostPurchases | PostAssignments => [admin; commander]
  | PostTransfers => [admin; commander; logistics]
  | GetAuditLogs => [admin]
  | _ => [admin; commander; logistics]
  end.

Definition required_fields (e : endpoint) : list string :=
  match e with
  | PostPurchases =>
      ["base_id"; "equipment_type_id"; "quantity"; "purchase_date"]
  | PostTransfers =>
      ["from_base_id"; "to_base_id"; "equipment_type_id"; "quantity";
       "transfer_date"]
  | PostAssignments =>
      ["base_id"; "equipment_type_id"; "personnel_id"; "assignment_date"]
  | _ => []
  end.

Definition complete (e : endpoint) (payload : jsobject) : bool :=
  forallb (fun k => truthy (field payload k)) (required_fields e).

(** The message of the required-field check of each create handler. *)
Definition required_message (e : endpoint) : string :=
  match e with
  | PostPurchases =>
      "Required fields: base_id, equipment_type_id, quantity, purchase_date"
  | PostTransfers =>
      "Required fields: from_base_id, to_base_id, equipment_type_id, quantity, transfer_date"
  | PostAssignments =>
      "Required fields: base_id, equipment_type_id, personnel_id, assignment_date"
  | _ => ""
  end.

Definition table_of (e : endpoint) : string :=
  match e with
  | PostPurchases => "purchases"
  | PostTransfers => "transfers"
  | PostAssignments => "assignments"
  | _ => ""
  end.

Definition entity_of (e : endpoint) : string :=
  match e with
  | PostPurchases => "PURCHASE"
  | PostTransfers => "TRANSFER"
  | PostAssignments => "ASSIGNMENT"
  | _ => ""
  end.

Definition create_handler (e : endpoint) : request -> M response :=
  match e with
  | PostPurchases => create_purchase
  | PostTransfers => create_transfer
  | PostAssignments => create_assignment
  | _ => fun _ => throw
  end.

(** [from_base_id === to_base_id] on a payload. *)
Definition same_base (payload : jsobject) : bool :=
  strict_eq (field payload "from_base_id") (field payload "to_base_id").






(** The payload names no base that is identical to the user's own: the
    operand of the commander's check in each create handler. *)
Definition outside_base (e : endpoint) (u : User) (payload : jsobject) : bool :=
  let mine := js_of_base (user_base_id u) in
  match e with
  | PostPurchases | PostAssignments =>
      negb (strict_eq (field payload "base_id") mine)
  | PostTransfers =>
      negb (strict_eq (field payload "from_base_id") mine)
      && negb (strict_eq (field payload "to_base_id") mine)
  | _ => false
  end.

(** The tail every create handler shares once its checks have passed:
    insert the record, write the audit entry, log, answer 201. *)
Definition persist {R} (table entity what okmsg : string)
    (insert : Z -> db -> db * option R) (id_of : R -> Z)
    (wrap : R -> resp_data) (u : User) (details : jsobject) : M response :=
  row <- pool_query (InsertInto table) insert ;;
  logAudit (user_id u) "CREATE" entity (id_of row) details ;;
  logger Info (NewRecord what (id_of row) (user_email u)) ;;
  ret (created okmsg (wrap row)).

(** The insert statement of a create, on the payload, with the created
    record as the data of the answer. *)
Definition insert_of (e : endpoint) (u : User) (payload : jsobject)
    (now : Z) (d : db) : db * option resp_data :=
  match e with
  | PostPurchases =>
      let '(d', r) :=
        insert_purchase (field payload "base_id")
          (field payload "equipment_type_id") (field payload "quantity")
          (field payload "cost") (field payload "purchase_date")
          (field payload "supplier") (field payload "notes") (user_id u)
          now d in
      (d', option_map PurchaseData r)
  | PostTransfers =>
      let '(d', r) :=
        insert_transfer (field payload "from_base_id")
          (field payload "to_base_id") (field payload "equipment_type_id")
          (field payload "quantity") (field payload "transfer_date")
          (field payload "notes") (user_id u) now d in
      (d', option_map TransferData r)
  | PostAssignments =>
      let '(d', r) :=
        insert_assignment (field payload "base_id")
          (field payload "equipment_type_id") (field payload "personnel_id")
          (field payload "serial_number") (field payload "assignment_date")
          (field payload "notes") (user_id u) now d in
      (d', option_map AssignmentData r)
  | _ => (d, None)
  end.

(** The catch block of a handler. *)
Definition rescue (label msg : string) : M response :=
  logger Error (HandlerError label) ;; ret (failure 500 msg).

(** The world after [logAudit]: the entry is appended, or the failure is
    logged and no entry is. *)
Definition audited (userId : Z) (action entityType : string) (entityId : Z)
    (details : jsobject) (w : world) : world :=
  match faults w with
  | true :: _ =>
      logged Error AuditFailed (sent (InsertInto "audit_logs") w)
  | _ =>
      match insert_audit_log userId action entityType entityId
              (stringify details) (clock w) (store w) with
      | (d, Some _) =>
          logged Info (AuditLog action entityType userId entityId)
            (set_store d (sent (InsertInto "audit_logs") w))
      | (d, None) =>
          logged Error AuditFailed
            (set_store d (sent (InsertInto "audit_logs") w))
      end
  end.

(** A computation keeps a property of the store. *)
Definition preserves {A} (P : db -> Prop) (m : M A) : Prop :=
  forall w o w', m w = (o, w') -> P (store w) -> P (store w').

(** Every transfer on record joins two different bases. *)
Definition transfers_distinct (d : db) : Prop :=
  Forall (fun t => t_from_base_id t <> t_to_base_id t) (tbl_transfers d).

(** The id of the record a create answered with. *)
Definition created_id (d : resp_data) : option Z :=
  match d with
  | PurchaseData row => Some (p_id row)
  | TransferData row => Some (t_id row)
  | AssignmentData row => Some (a_id row)
  | _ => None
  end.

(** The created record is in its table. *)
Definition persisted (d : resp_data) (s : db) : Prop :=
  match d with
  | PurchaseData row => In row (tbl_purchases s)
  | TransferData row => In row (tbl_transfers s)
  | AssignmentData row => In row (tbl_assignments s)
  | _ => False
  end.

(** The business tables (what a create can persist into). *)
Definition business_rows (s : db)
  : list purchase_row * list transfer_row * list assignment_row :=
  (tbl_purchases s, tbl_transfers s, tbl_assignments s).

(* ------------------------------------------------------------------ *)
(** ** A sample installation (rows from the seed data of schema.sql) *)

Definition admin_user : User :=
  mkUser 1 "admin@military.gov" admin None.
Definition alpha_commander : User :=
  mkUser 2 "commander.alpha@military.gov" commander (Some 1).
Definition logistics_officer : User :=
  mkUser 4 "logistics@military.gov" logistics (Some 4).

(** The input functions of the sample installation: a date is a string
    of the form YYYY-MM-DD, character data is any string or number,
    within the width of the column, and a decimal text is an integer
    text, as a number of whole units. *)
Definition is_digit (c : ascii) : bool :=
  match digit_of c with Some _ => true | None => false end.

Definition iso_date (s : string) : bool :=
  match s with
  | String y1 (String y2 (String y3 (String y4 (String "-"
      (String m1 (String m2 (String "-"
      (String d1 (String d2 EmptyString))))))))) =>
      forallb is_digit [y1; y2; y3; y4; m1; m2; d1; d2]
  | _ => false
  end.

Definition sample_reads (ty : sqltype) (v : jsval) : bool :=
  match ty, v with
  | DATE, JStr s => iso_date s
  | TEXT, (JStr _ | JNum _) => true
  | VARCHAR n, JStr s => (Z.of_nat (String.length s) <=? n)%Z
  | VARCHAR n, JNum _ => true
  | _, _ => false
  end.

Definition sample_engine : typein :=
  mkTypein sample_reads
    (fun s => option_map (fun n => Dec (100 * n)) (intin s)).

Definition sample_db : db :=
  mkDb sample_engine
    [mkBase 1 "Base Alpha" None None; mkBase 2 "Base Beta" None None;
     mkBase 3 "Base Charlie" None None; mkBase 4 "Central Depot" None None]
    [mkUserRow 1 "admin@military.gov" "Admin User" admin None true;
     mkUserRow 2 "commander.alpha@military.gov" "James Mitchell" commander
       (Some 1) true;
     mkUserRow 4 "logistics@military.gov" "David Williams" logistics
       (Some 4) true]
    [mkEquipment 1 "M4 Rifle" "Weapons" None None;
     mkEquipment 2 "M9 Pistol" "Weapons" None None;
     mkEquipment 3 "Body Armor" "Protective Gear" None None;
     mkEquipment 5 "Humvee" "Vehicles" None None]
    [mkPersonnel 1 "John Smith" None None;
     mkPersonnel 3 "Michael Brown" None None]
    [mkAsset 1 1 1 250; mkAsset 2 1 2 100; mkAsset 3 1 3 300;
     mkAsset 4 1 5 15; mkAsset 5 2 1 200; mkAsset 6 4 1 500]
    [mkPurchase 1 1 1 50 (JNum 75000) (JStr "2024-01-15") JNull JNull (Some 1);
     mkPurchase 2 2 5 5 (JNum 350000) (JStr "2024-01-20") JNull JNull (Some 1)]
    [mkTransfer 1 1 2 1 30 (JStr "2024-01-25") completed JNull (Some 1);
     mkTransfer 2 4 1 1 100 (JStr "2024-02-05") completed JNull (Some 1);
     mkTransfer 3 2 3 5 3 (JStr "2024-02-20") in_transit JNull (Some 2)]
    [mkAssignment 1 1 1 1 (JStr "M4-2024-001") (JStr "2024-01-20") active
       JNull (Some 2);
     mkAssignment 2 2 1 3 (JStr "M4-2024-087") (JStr "2024-02-01") active
       JNull (Some 2)]
    [mkExpenditure 1 1 1 40; mkExpenditure 2 2 1 25]
    []
    3 4 3 1.

(** Tokens of the sample installation: one per user, anything else is
    rejected. *)
Definition sample_verify (token : string) : option User :=
  if (token =? "admin-token")%string then Some admin_user
  else if (token =? "alpha-token")%string then Some alpha_commander
  else if (token =? "logistics-token")%string then Some logistics_officer
  else None.

Definition sample_world : world :=
  mkWorld sample_verify sample_db [] [] [] 1000.

Definition with_faults (fs : list bool) (w : world) : world :=
  mkWorld (jwt_verify w) (store w) fs (trace w) (oplog w) (clock w).

(** A request with a token, no Origin header, and a body the parsers
    read as [payload]. *)
Definition request_of (token : string) (q payload : jsobject) : request :=
  mkRequest None (Some ("Bearer " ++ token)) q false payload None.

(* ------------------------------------------------------------------ *)
(** ** The client (services/apiService.js, components/Dashboard.js) *)

(** The service object: the token it keeps in memory, and the origin of
    the page it runs in, which the browser puts on its requests. *)
Record ApiService := mkApi {
  api_origin : option string;
  api_token : option string }.

Definition setToken (t : string) (c : ApiService) : ApiService :=
  mkApi (api_origin c) (Some t).

Definition clearToken (c : ApiService) : ApiService :=
  mkApi (api_origin c) None.

(** How the promise of a request settles. *)
Inductive settled : Type :=
| Resolved (answer : response)
| Rejected (message : string).

(** [response.ok] *)
Definition response_ok (r : response) : bool :=
  ((200 <=? status r) && (status r <=? 299))%Z.

(** [data.error || fallback] *)
Definition error_or (r : response) (fallback : string) : string :=
  match error r with
  | Some m => if (m =? "")%string then fallback else m
  | None => fallback
  end.

(** The Authorization header the service adds: [if (this.token)]. *)
Definition authorization_of (c : ApiService) : option string :=
  match api_token c with
  | Some t => if (t =? "")%string then None else Some ("Bearer " ++ t)
  | None => None
  end.

(** [request(endpoint, options)] against the application, for the
    endpoints other than login: the answer when it is [ok]; otherwise the
    promise is rejected, and on 401 and 403 the token is cleared first. *)
Definition api_request (e : endpoint) (q payload : jsobject)
    (c : ApiService) (w : world) : settled * ApiService * world :=
  let '(r, w') :=
    app e (mkRequest (api_origin c) (authorization_of c) q false payload None)
      w in
  if response_ok r then (Resolved r, c, w')
  else if ((status r =? 401) || (status r =? 403))%Z
       then (Rejected (error_or r "Session expired. Please login again."),
             clearToken c, w')
       else (Rejected (error_or r "Request failed"), c, w').

(** The filter state of the dashboard component. *)
Record filters := mkFilters {
  startDate : string;
  endDate : string;
  baseId : string;
  equipmentTypeId : string }.

Definition param (k v : string) : jsobject :=
  if (v =? "")%string then [] else [(k, JStr v)].

(** The [filterParams] object of [loadMetrics]: the non-empty filters,
    which [new URLSearchParams] sends as the query string. *)
Definition filterParams (f : filters) : jsobject :=
  (param "startDate" (startDate f) ++ param "endDate" (endDate f)
   ++ param "baseId" (baseId f)
   ++ param "equipmentTypeId" (equipmentTypeId f))%list.

(** [apiService.getDashboardMetrics(filters)] *)
Definition getDashboardMetrics (q : jsobject) (c : ApiService) (w : world)
  : settled * ApiService * world :=
  api_request GetDashboardMetrics q [] c w.

(** [loadMetrics] of the dashboard component: the metrics it shows, or
    its error text. *)
Definition loadMetrics (f : filters) (c : ApiService) (w : world)
  : (resp_data + string) * ApiService * world :=
  match getDashboardMetrics (filterParams f) c w with
  | (Resolved r, c', w') => (inl (data r), c', w')
  | (Rejected _, c', w') => (inr "Failed to load dashboard metrics", c', w')
  end.

(** [apiService.createPurchase(data)] *)
Definition createPurchase (payload : jsobject) (c : ApiService) (w : world)
  : settled * ApiService * world :=
  api_request PostPurchases [] payload c w.

(* ------------------------------------------------------------------ *)
(** ** More vocabulary *)

(** The integers every one of which a double holds exactly. *)
Definition safe (n : Z) : Prop := Z.abs n <= 2 ^ 53.

(** The endpoints that only read. *)
Definition is_read (e : endpoint) : bool := negb (is_create e).

(** The tables no statement of the application writes. *)
Definition reference_tables (d : db) :=
  (tbl_bases d, tbl_users d, tbl_equipment_types d, tbl_personnel d,
   tbl_assets d, tbl_expenditures d).

(** All rows of the store (what is left of it besides the sequences). *)
Definition tables (d : db) :=
  (reference_tables d, business_rows d, tbl_audit_logs d).

Definition quantities_positive (d : db) : Prop :=
  Forall (fun p => 0 < p_quantity p) (tbl_purchases d) /\
  Forall (fun t => 0 < t_quantity t) (tbl_transfers d).

(** Audit rows from the newest to the oldest. *)
Fixpoint newest_first (l : list audit_row) : Prop :=
  match l with
  | [] => True
  | a :: l' =>
      Forall (fun b => al_timestamp b <= al_timestamp a) l' /\ newest_first l'
  end.

Fixpoint no_blank (s : string) : bool :=
  match s with
  | EmptyString => true
  | String c r => (negb (Ascii.eqb c " ") && no_blank r)%bool
  end.


Definition moved_in (b : option Z) (d : db) : Z :=
  sum_of t_quantity
    (filter (fun r => own b (t_to_base_id r)) (tbl_transfers d)).

Definition moved_out (b : option Z) (d : db) : Z :=
  sum_of t_quantity
    (filter (fun r => own b (t_from_base_id r)) (tbl_transfers d)).

Definition on_assignment (b : option Z) (d : db) : Z :=
  Z.of_nat
    (List.length
       (filter (fun r => own b (a_base_id r) && is_active r)%bool
          (tbl_assignments d))).

(** The metrics over the whole store, no base singled out. *)
Definition metrics_of_all (d : db) : metrics :=
  computeMetrics
    (parseInt (sum_of as_quantity (tbl_assets d)))
    (parseInt (sum_of p_quantity (tbl_purchases d)))
    (parseInt (sum_of t_quantity (tbl_transfers d)))
    (parseInt (sum_of t_quantity (tbl_transfers d)))
    (parseInt (Z.of_nat (List.length (filter is_active (tbl_assignments d)))))
    (parseInt (sum_of x_quantity (tbl_expenditures d))).

(** A computation that returns answers all satisfy [Q]. *)
Definition answers {A} (Q : A -> Prop) (m : M A) : Prop :=
  forall w a w', m w = (Returned a, w') -> Q a.

(** A computation that never throws. *)
Definition returns {A} (m : M A) : Prop :=
  forall w, exists a w', m w = (Returned a, w').

(* ================================================================== *)
(** * Properties *)

(** ** The middleware in front of the routes *)

Lemma app_admitted (e : endpoint) (req : request) (w : world) :
  admitted req = true -> app e req w = routed e req w.
Proof.
  unfold admitted, app, routed. intros H.
  apply andb_prop in H. destruct H as (Ho & Hb).
  apply negb_true_iff in Hb.
  cbn [chain]. unfold bind at 1. unfold cors.
  change (origin (arriving req)) with (origin req). rewrite Ho.
  unfold ret at 1. unfold bind at 1. unfold body_parsers.
  change (unreadable (arriving req)) with (unreadable req). rewrite Hb.
  unfold ret at 1. unfold bind at 1. unfold request_logger.
  unfold bind, logger, ret. reflexivity.
Qed.

Lemma app_refused (e : endpoint) (req : request) (w : world) :
  admitted req = false -> app e req w = (internal_error, unhandled w).
Proof.
  unfold admitted, app. intros H. cbn [chain]. unfold bind at 1. unfold cors.
  change (origin (arriving req)) with (origin req).
  destruct (cors_origin (origin req)); [|reflexivity].
  cbn [andb] in H. apply negb_false_iff in H.
  unfold ret at 1. unfold bind at 1. unfold body_parsers.
  change (unreadable (arriving req)) with (unreadable req). rewrite H.
  reflexivity.
Qed.

(** ** Doubles that hold integers *)

(** The integers every one of which is a double. *)
Lemma double_exact (n : Z) : Z.abs n <= 2 ^ 53 -> double n = n.
Proof.
  intros H. unfold double.
  destruct (Z.leb_spec (Z.log2 (Z.abs n) - 52) 0) as [Hle|Hgt];
    [reflexivity|].
  assert (Hl : 53 <= Z.log2 (Z.abs n)) by lia.
  assert (Hp : 0 < Z.abs n).
  { destruct (Z.eq_dec (Z.abs n) 0) as [E|E]; [rewrite E in Hl; cbn in Hl; lia|].
    pose proof (Z.abs_nonneg n). lia. }
  assert (Hb : 2 ^ 53 <= Z.abs n).
  { apply Z.log2_le_pow2; [exact Hp | exact Hl]. }
  assert (E : Z.abs n = 2 ^ 53) by lia.
  rewrite E. change (Z.log2 (2 ^ 53) - 52) with 1.
  change (2 ^ 1) with 2. change (2 ^ 53 / 2) with (2 ^ 52).
  change (2 ^ 53 mod 2) with 0. cbn [Z.mul Z.ltb Z.compare].
  change (Z.even (2 ^ 52)) with true. cbv iota.
  change (2 ^ 52 * 2) with (2 ^ 53). rewrite <- E.
  rewrite Z.mul_comm. apply Z.abs_sgn.
Qed.

(** ** Running statements and routes *)

Lemma bind_reading {A B} (s : stmt) (f : db -> option A) (k : A -> M B)
    (w : world) :
  bind (pool_query s (reading f)) k w =
  match faults w with
  | true :: _ => (Thrown, sent s w)
  | _ =>
      match f (store w) with
      | Some a => k a (sent s w)
      | None => (Thrown, sent s w)
      end
  end.
Proof.
  unfold bind, pool_query, reading.
  destruct (faults w) as [|[|] fs]; try reflexivity;
    destruct (f (store w)); reflexivity.
Qed.

Lemma route_behind (e : endpoint) :
  protected e = true -> route e = chain [authenticateToken] (behind e).
Proof. destruct e; intros H; try discriminate H; reflexivity. Qed.

Lemma app_no_token (e : endpoint) (req : request) (w : world) :
  protected e = true ->
  bearer (authorization req) = None ->
  routed e req w =
  (failure 401 "Access token required. Please login to continue.", entered w).
Proof.
  intros He Hb. unfold routed. rewrite (route_behind e He).
  unfold chain, bind, logger, authenticateToken, arriving; cbn.
  rewrite Hb. reflexivity.
Qed.

Lemma app_bad_token (e : endpoint) (req : request) (w : world) (token : string) :
  protected e = true ->
  bearer (authorization req) = Some token ->
  jwt_verify w token = None ->
  routed e req w =
  (failure 403 "Invalid or expired token. Please login again.", entered w).
Proof.
  intros He Hb Hv. unfold routed. rewrite (route_behind e He).
  unfold chain, bind, logger, authenticateToken, arriving; cbn.
  rewrite Hb. cbn. rewrite Hv. reflexivity.
Qed.

Lemma app_authenticated (e : endpoint) (req : request) (w : world) (u : User) :
  protected e = true ->
  authenticated w req u ->
  routed e req w =
  error_handler (behind e (set_user u (arriving req)) (entered w)).
Proof.
  intros He (token & Hb & Hv). unfold routed. rewrite (route_behind e He).
  unfold chain, bind, logger, authenticateToken, arriving; cbn.
  rewrite Hb. cbn. rewrite Hv. cbn.
  destruct (behind e _ _) as [[|r] w']; reflexivity.
Qed.

(** ** The dashboard *)

Lemma dashboard_metrics_depends (req req' : request) :
  user req = user req' ->
  field (query req) "base_id" = field (query req') "base_id" ->
  dashboard_metrics req = dashboard_metrics req'.
Proof.
  intros Hu Hb. unfold dashboard_metrics. rewrite Hu, Hb. reflexivity.
Qed.

Lemma try_catch_returned {A} (body handler : M A) (w w' : world) (a : A) :
  try_catch body handler w = (Returned a, w') ->
  body w = (Returned a, w') \/
  exists w1, body w = (Thrown, w1) /\ handler w1 = (Returned a, w').
Proof.
  unfold try_catch. destruct (body w) as [[|x] w1]; intros H.
  - right. exists w1. split; [reflexivity | exact H].
  - left. exact H.
Qed.

Lemma bind_reading_returned {A B} (s : stmt) (f : db -> option A)
    (k : A -> M B) (w w' : world) (b : B) :
  bind (pool_query s (reading f)) k w = (Returned b, w') ->
  exists a, f (store w) = Some a /\ k a (sent s w) = (Returned b, w').
Proof.
  rewrite bind_reading. intros H.
  destruct (f (store w)) as [a|].
  - exists a. split; [reflexivity|].
    destruct (faults w) as [|[|] fs]; [exact H | discriminate H | exact H].
  - destruct (faults w) as [|[|] fs]; discriminate H.
Qed.

(** A dashboard answer that carries metrics carries the aggregates of the
    store the request started in. *)
Lemma dashboard_metrics_data (req : request) (w w' : world) (r : response)
    (m : metrics) :
  dashboard_metrics req w = (Returned r, w') ->
  data r = MetricsData m ->
  exists u, user req = Some u /\
            aggregates u (field (query req) "base_id") (store w) = Some m.
Proof.
  unfold dashboard_metrics. intros H Hd.
  apply try_catch_returned in H.
  destruct H as [H | (w1 & _ & H)].
  2:{ inversion H; subst. discriminate Hd. }
  destruct (user req) as [u|]; [|discriminate H].
  exists u. split; [reflexivity|]. cbn zeta in H.
  apply bind_reading_returned in H; destruct H as (o & Ho & H).
  apply bind_reading_returned in H; destruct H as (p & Hp & H).
  apply bind_reading_returned in H; destruct H as (ti & Hti & H).
  apply bind_reading_returned in H; destruct H as (to & Hto & H).
  apply bind_reading_returned in H; destruct H as (a & Ha & H).
  apply bind_reading_returned in H; destruct H as (x & Hx & H).
  cbn [store sent] in *.
  unfold aggregates. rewrite Ho, Hp, Hti, Hto, Ha, Hx.
  inversion H; subst. cbn in Hd. congruence.
Qed.

Lemma authenticated_same_header (w : world) (req req' : request) (u : User) :
  authorization req' = authorization req ->
  authenticated w req u -> authenticated w req' u.
Proof.
  intros Hh (token & Hb & Hv). exists token. rewrite Hh. split; assumption.
Qed.

(** What the token check leaves of a request. *)
Lemma app_header_cases (e : endpoint) (req : request) (w : world) :
  protected e = true ->
  bearer (authorization req) = None \/
  (exists token, bearer (authorization req) = Some token /\
                 jwt_verify w token = None) \/
  (exists u, authenticated w req u).
Proof.
  intros _. destruct (bearer (authorization req)) as [token|] eqn:Hb.
  - right. destruct (jwt_verify w token) as [u|] eqn:Hv.
    + right. exists u, token. split; assumption.
    + left. exists token. split; [reflexivity | assumption].
  - left. reflexivity.
Qed.

Lemma no_fault_step (n : nat) (fs : list bool) :
  no_fault (S n) fs = true ->
  hd false fs = false /\ no_fault n (tl fs) = true.
Proof.
  unfold no_fault. destruct fs as [|[|] fs]; cbn; intros H;
    try discriminate H; split; try reflexivity; try exact H.
  destruct n; reflexivity.
Qed.

Lemma bind_reading_ok {A B} (s : stmt) (f : db -> option A) (k : A -> M B)
    (w : world) (a : A) :
  hd false (faults w) = false ->
  f (store w) = Some a ->
  bind (pool_query s (reading f)) k w = k a (sent s w).
Proof.
  intros Hf Ha. rewrite bind_reading, Ha.
  destruct (faults w) as [|[|] fs]; [reflexivity | discriminate Hf | reflexivity].
Qed.

(** With six round trips that go through and clauses the engine accepts,
    the dashboard answers with the aggregates. *)
Lemma dashboard_metrics_ok (req : request) (u : User) (w : world)
    (m : metrics) :
  user req = Some u ->
  no_fault 6 (faults w) = true ->
  aggregates u (field (query req) "base_id") (store w) = Some m ->
  fst (dashboard_metrics req w) = Returned (ok (MetricsData m)).
Proof.
  intros Hu Hf Ha. unfold dashboard_metrics, try_catch. rewrite Hu. cbn zeta.
  unfold aggregates in Ha.
  destruct (select_sum as_quantity _ _ _) as [o|] eqn:Ho; [|discriminate Ha].
  destruct (select_sum p_quantity _ _ _) as [p|] eqn:Hp; [|discriminate Ha].
  destruct (select_sum t_quantity t_to_base_id _ _) as [ti|] eqn:Hti;
    [|discriminate Ha].
  destruct (select_sum t_quantity t_from_base_id _ _) as [to|] eqn:Hto;
    [|discriminate Ha].
  destruct (select_count_active _ _) as [a|] eqn:Hc; [|discriminate Ha].
  destruct (select_sum x_quantity _ _ _) as [x|] eqn:Hx; [|discriminate Ha].
  inversion Ha; subst m.
  apply no_fault_step in Hf; destruct Hf as (H1 & Hf).
  apply no_fault_step in Hf; destruct Hf as (H2 & Hf).
  apply no_fault_step in Hf; destruct Hf as (H3 & Hf).
  apply no_fault_step in Hf; destruct Hf as (H4 & Hf).
  apply no_fault_step in Hf; destruct Hf as (H5 & Hf).
  apply no_fault_step in Hf; destruct Hf as (H6 & _).
  set (w1 := sent (SelectFrom "assets") w).
  set (w2 := sent (SelectFrom "purchases") w1).
  set (w3 := sent (SelectFrom "transfers") w2).
  set (w4 := sent (SelectFrom "transfers") w3).
  set (w5 := sent (SelectFrom "assignments") w4).
  rewrite (bind_reading_ok _ _ _ w o H1 Ho). fold w1.
  rewrite (bind_reading_ok _ _ _ w1 p H2 Hp). fold w2.
  rewrite (bind_reading_ok _ _ _ w2 ti H3 Hti). fold w3.
  rewrite (bind_reading_ok _ _ _ w3 to H4 Hto). fold w4.
  rewrite (bind_reading_ok _ _ _ w4 a H5 Hc). fold w5.
  rewrite (bind_reading_ok _ _ _ w5 x H6 Hx).
  reflexivity.
Qed.

Lemma computeMetrics_exact (o p ti to a x : Z) :
  safe (p + ti) -> safe (p + ti - to) -> safe (o + (p + ti - to)) ->
  netMovement (computeMetrics o p ti to a x) = p + ti - to /\
  closingBalance (computeMetrics o p ti to a x) = o + (p + ti - to).
Proof.
  unfold safe. intros H1 H2 H3.
  unfold computeMetrics, js_add, js_sub. cbn [netMovement closingBalance].
  rewrite (double_exact (p + ti) H1).
  rewrite (double_exact (p + ti - to) H2).
  rewrite (double_exact (o + (p + ti - to)) H3).
  split; reflexivity.
Qed.

Lemma computeMetrics_eta (o p ti to a x : Z) :
  let m := computeMetrics o p ti to a x in
  m = computeMetrics (openingBalance m) (purchases m) (transferIn m)
        (transferOut m) (assigned m) (expended m).
Proof. reflexivity. Qed.

(** [C1], as the code has it.  The dashboard passes its aggregates
    through and computes netMovement and closingBalance from them in
    JavaScript arithmetic, the sum of two Numbers being the double
    nearest to the exact sum.  As long as purchases + transferIn, the net
    movement and the closing balance are integers a double holds exactly
    (2^53 at most, either way), netMovement = purchases + transferIn -
    transferOut and closingBalance = openingBalance + netMovement; with
    665, 50, 100 and 30 that is 120 and 785.  Whatever metrics the
    endpoint answers with, for any request and any store, are computed
    this way from the figures they carry, so they satisfy the two
    equations within that range; and the endpoint does answer with the
    aggregates of the store when the request is let through and the six
    round trips go through. *)
Theorem dashboard_balance_formula :
  forall (o p ti to a x : Z) (req : request) (w : world),
    (let m := computeMetrics o p ti to a x in
     netMovement m = js_sub (js_add p ti) to /\
     closingBalance m = js_add o (netMovement m) /\
     openingBalance m = o /\ purchases m = p /\ transferIn m = ti /\
     transferOut m = to /\ assigned m = a /\ expended m = x)
    /\ (safe (p + ti) -> safe (p + ti - to) -> safe (o + (p + ti - to)) ->
        let m := computeMetrics o p ti to a x in
        netMovement m = p + ti - to /\
        closingBalance m = o + netMovement m /\
        closingBalance m = o + p + ti - to)
    /\ (netMovement (computeMetrics 665 50 100 30 a x) = 120 /\
        closingBalance (computeMetrics 665 50 100 30 a x) = 785)
    /\ match data (fst (app GetDashboardMetrics req w)) with
       | MetricsData m =>
           m = computeMetrics (openingBalance m) (purchases m) (transferIn m)
                 (transferOut m) (assigned m) (expended m) /\
           (safe (purchases m + transferIn m) ->
            safe (purchases m + transferIn m - transferOut m) ->
            safe (openingBalance m
                  + (purchases m + transferIn m - transferOut m)) ->
            netMovement m = purchases m + transferIn m - transferOut m /\
            closingBalance m = openingBalance m + netMovement m)
       | _ => True
       end
    /\ (forall u m,
           admitted req = true ->
           authenticated w req u ->
           no_fault 6 (faults w) = true ->
           aggregates u (field (query req) "base_id") (store w) = Some m ->
           fst (app GetDashboardMetrics req w) = ok (MetricsData m)).
Proof.
  intros o p ti to a x req w. split; [|split; [|split; [|split]]].
  - cbn. repeat split.
  - intros H1 H2 H3. cbv zeta.
    destruct (computeMetrics_exact o p ti to a x H1 H2 H3) as (Hn & Hc).
    rewrite Hn, Hc. repeat split; lia.
  - split; reflexivity.
  - destruct (admitted req) eqn:Hadm;
      [rewrite (app_admitted _ _ _ Hadm) | rewrite (app_refused _ _ _ Hadm)];
      [|exact I].
    destruct (data (fst (routed GetDashboardMetrics req w)))
      as [|m| | | | | | | | | |] eqn:Hd; try exact I.
    assert (Hm : m = computeMetrics (openingBalance m) (purchases m)
                       (transferIn m) (transferOut m) (assigned m)
                       (expended m)).
    { destruct (app_header_cases GetDashboardMetrics req w eq_refl)
        as [Hb | [(token & Hb & Hv) | (u & Hu)]].
      + rewrite (app_no_token GetDashboardMetrics _ _ eq_refl Hb) in Hd.
        discriminate Hd.
      + rewrite (app_bad_token GetDashboardMetrics _ _ _ eq_refl Hb Hv) in Hd.
        discriminate Hd.
      + rewrite (app_authenticated GetDashboardMetrics _ _ _ eq_refl Hu) in Hd.
        cbn [behind] in Hd.
        destruct (dashboard_metrics _ _) as [[|r] w'] eqn:E;
          [discriminate Hd|].
        cbn in Hd.
        destruct (dashboard_metrics_data _ _ _ _ _ E Hd) as (u' & _ & Ha).
        unfold aggregates in Ha.
        repeat match type of Ha with
               | match ?s with Some _ => _ | None => _ end = _ =>
                   destruct s; [|discriminate Ha]
               end.
        inversion Ha; subst. apply computeMetrics_eta. }
    split; [exact Hm|].
    intros H1 H2 H3. rewrite Hm.
    destruct (computeMetrics_exact (openingBalance m) (purchases m)
                (transferIn m) (transferOut m) (assigned m) (expended m)
                H1 H2 H3) as (Hn & Hc).
    rewrite Hn, Hc. cbn [purchases transferIn transferOut openingBalance
                          computeMetrics]. split; reflexivity.
  - intros u m Hadm Hu Hf Ha. rewrite (app_admitted _ _ _ Hadm).
    rewrite (app_authenticated GetDashboardMetrics req w u eq_refl Hu).
    cbn [behind].
    pose proof (dashboard_metrics_ok (set_user u (arriving req)) u
                  (entered w) m eq_refl Hf Ha) as H.
    destruct (dashboard_metrics _ _) as [[|r] w']; cbn in H |- *;
      [discriminate H | inversion H; reflexivity].
Qed.

Lemma routed_dashboard_dates_unread (req req' : request) (w : world) :
  authorization req' = authorization req ->
  same_but_dates (query req) (query req') ->
  routed GetDashboardMetrics req' w = routed GetDashboardMetrics req w.
Proof.
  intros Hh Hq.
  destruct (app_header_cases GetDashboardMetrics req w eq_refl)
    as [Hb | [(token & Hb & Hv) | (u & Hu)]].
  - rewrite (app_no_token GetDashboardMetrics req _ eq_refl Hb).
    apply app_no_token; [reflexivity | rewrite Hh; exact Hb].
  - rewrite (app_bad_token GetDashboardMetrics req _ _ eq_refl Hb Hv).
    apply app_bad_token with token; [reflexivity | rewrite Hh; exact Hb | exact Hv].
  - rewrite (app_authenticated GetDashboardMetrics req _ _ eq_refl Hu).
    rewrite (app_authenticated GetDashboardMetrics req' _ u eq_refl
               (authenticated_same_header _ _ _ _ Hh Hu)).
    cbn [behind].
    rewrite (dashboard_metrics_depends (set_user u (arriving req'))
               (set_user u (arriving req))); [reflexivity | reflexivity |].
    cbn. symmetry. apply Hq; discriminate.
Qed.

(** [C10] The dashboard never reads the date range: two requests with the
    same token whose query strings agree on everything but [date_from]
    and [date_to] get the same answer and leave the same world, for
    every user and every store.  This holds of the route as it is
    mounted, and of the application whenever the CORS filter and the
    body parsers, which do not look at the query string, treat the two
    alike: as they do when the two differ in the query string only. *)
Theorem dashboard_ignores_date_range :
  forall (req req' : request) (w : world),
    authorization req' = authorization req ->
    same_but_dates (query req) (query req') ->
    routed GetDashboardMetrics req' w = routed GetDashboardMetrics req w
    /\ (admitted req' = admitted req ->
        app GetDashboardMetrics req' w = app GetDashboardMetrics req w)
    /\ (origin req' = origin req -> unreadable req' = unreadable req ->
        admitted req' = admitted req).
Proof.
  intros req req' w Hh Hq.
  pose proof (routed_dashboard_dates_unread req req' w Hh Hq) as Hr.
  split; [exact Hr|]. split.
  - intros Ha. destruct (admitted req) eqn:Hadm.
    + rewrite (app_admitted _ _ _ Hadm), (app_admitted _ _ _ Ha). exact Hr.
    + rewrite (app_refused _ _ _ Hadm), (app_refused _ _ _ Ha). reflexivity.
  - intros Ho Hb. unfold admitted. rewrite Ho, Hb. reflexivity.
Qed.


(** ** The commander's scope *)








Lemma listing_rows {R} (table label msg : string)
    (select : option jsval -> db -> option (list R))
    (wrap : list R -> resp_data) (req : request) (u : User)
    (w w' : world) (r : response) :
  user req = Some u ->
  listing table label msg select wrap req w = (Returned r, w') ->
  data r = NoData \/
  exists rows, select (commander_clause u) (store w) = Some rows /\
               data r = wrap rows.
Proof.
  intros Hu H. unfold listing in H. rewrite Hu in H.
  apply try_catch_returned in H. destruct H as [H | (w1 & _ & H)].
  - apply bind_reading_returned in H. destruct H as (rows & Hs & H).
    inversion H; subst. right. exists rows. split; [exact Hs | reflexivity].
  - inversion H; subst. left. reflexivity.
Qed.

(** The data of the answer of a protected endpoint to an authenticated
    request is the data of what the route behind the token check
    returns. *)
Lemma app_data (e : endpoint) (req : request) (w : world) (u : User) :
  protected e = true ->
  authenticated w req u ->
  data (fst (routed e req w)) = NoData \/
  exists r w', behind e (set_user u (arriving req)) (entered w) = (Returned r, w')
               /\ fst (routed e req w) = r.
Proof.
  intros He Hu. rewrite (app_authenticated e req w u He Hu).
  destruct (behind e _ _) as [[|r] w'].
  - left. reflexivity.
  - right. exists r, w'. split; reflexivity.
Qed.









(** [C7] A logistics user on the sample installation: the assets,
    purchases, assignments and expenditures statements carry no clause,
    but the two transfers statements take the [base_id] of the query
    string, so the metrics change with the filter supplied. *)
Theorem logistics_dashboard_follows_base_filter :
  baseFilter logistics_officer (JStr "1") = None /\
  transfersInFilter logistics_officer (JStr "1") = Some (JStr "1") /\
  transfersOutFilter logistics_officer (JStr "1") = Some (JStr "1") /\
  data (fst (app GetDashboardMetrics (request_of "logistics-token" [] [])
               sample_world))
  = MetricsData (mkMetrics 1365 1420 55 55 133 133 2 65) /\
  data (fst (app GetDashboardMetrics
               (request_of "logistics-token" [("base_id", JStr "1")] [])
               sample_world))
  = MetricsData (mkMetrics 1365 1490 125 55 100 30 2 65) /\
  fst (app GetDashboardMetrics
         (request_of "logistics-token" [("base_id", JStr "1")] [])
         sample_world)
  <> fst (app GetDashboardMetrics (request_of "logistics-token" [] [])
            sample_world).
Proof.
  repeat split; try reflexivity.
  vm_compute. intros H. discriminate H.
Qed.

(** ** The create handlers, run *)

Lemma checkRole_allowed (roles : list Role) (req : request) (u : User)
    (w : world) :
  user req = Some u ->
  includes roles (user_role u) = true ->
  checkRole roles req w = (Returned (Next req), w).
Proof. intros Hu Hi. unfold checkRole. rewrite Hu, Hi. reflexivity. Qed.

Lemma checkRole_denied (roles : list Role) (req : request) (u : User)
    (w : world) :
  user req = Some u ->
  includes roles (user_role u) = false ->
  checkRole roles req w =
  (Returned
     (Respond
        (failure 403
           "Access denied. You do not have permission to perform this action.")),
   logged Warn (AccessDenied (Some (user_email u)) roles) w).
Proof. intros Hu Hi. unfold checkRole. rewrite Hu, Hi. reflexivity. Qed.

Lemma behind_create (e : endpoint) :
  is_create e = true ->
  protected e = true /\
  behind e = chain [checkRole (allowed_roles e)] (create_handler e).
Proof. destruct e; intros H; try discriminate H; split; reflexivity. Qed.

Lemma app_create_denied (e : endpoint) (req : request) (w : world) (u : User) :
  is_create e = true ->
  authenticated w req u ->
  includes (allowed_roles e) (user_role u) = false ->
  routed e req w =
  (failure 403
     "Access denied. You do not have permission to perform this action.",
   logged Warn (AccessDenied (Some (user_email u)) (allowed_roles e))
     (entered w)).
Proof.
  intros He Hu Hi. destruct (behind_create e He) as (Hp & Hb).
  rewrite (app_authenticated e req w u Hp Hu), Hb.
  unfold chain, bind.
  rewrite (checkRole_denied _ (set_user u (arriving req)) u _ eq_refl Hi).
  reflexivity.
Qed.

Lemma app_create_allowed (e : endpoint) (req : request) (w : world) (u : User) :
  is_create e = true ->
  authenticated w req u ->
  includes (allowed_roles e) (user_role u) = true ->
  routed e req w =
  error_handler (create_handler e (set_user u (arriving req)) (entered w)).
Proof.
  intros He Hu Hi. destruct (behind_create e He) as (Hp & Hb).
  rewrite (app_authenticated e req w u Hp Hu), Hb.
  unfold chain, bind.
  rewrite (checkRole_allowed _ (set_user u (arriving req)) u _ eq_refl Hi).
  reflexivity.
Qed.

Lemma logAudit_run (userId : Z) (action entityType : string) (entityId : Z)
    (details : jsobject) (w : world) :
  logAudit userId action entityType entityId details w =
  (Returned tt, audited userId action entityType entityId details w).
Proof.
  unfold logAudit, audited, try_catch, bind, pool_query, logger.
  destruct (faults w) as [|[|] fs]; try reflexivity;
    destruct (insert_audit_log _ _ _ _ _ _ _) as [d [[]|]]; reflexivity.
Qed.

Lemma persist_run {R} (table entity what okmsg label msg : string)
    (insert : Z -> db -> db * option R) (id_of : R -> Z)
    (wrap : R -> resp_data) (u : User) (details : jsobject) (w : world) :
  try_catch (persist table entity what okmsg insert id_of wrap u details)
    (rescue label msg) w =
  match faults w with
  | true :: _ =>
      (Returned (failure 500 msg),
       logged Error (HandlerError label) (sent (InsertInto table) w))
  | _ =>
      match insert (clock w) (store w) with
      | (d, None) =>
          (Returned (failure 500 msg),
           logged Error (HandlerError label)
             (set_store d (sent (InsertInto table) w)))
      | (d, Some row) =>
          (Returned (created okmsg (wrap row)),
           logged Info (NewRecord what (id_of row) (user_email u))
             (audited (user_id u) "CREATE" entity (id_of row) details
                (set_store d (sent (InsertInto table) w))))
      end
  end.
Proof.
  unfold persist, try_catch, rescue.
  unfold bind at 1. unfold pool_query.
  destruct (faults w) as [|[|] fs];
    try reflexivity;
    (destruct (insert (clock w) (store w)) as [d [row|]]; [|reflexivity]);
    unfold bind; rewrite logAudit_run; reflexivity.
Qed.

Ltac split_checks :=
  repeat match goal with
         | |- context [truthy ?v] =>
             destruct (truthy v); cbn [negb orb andb]
         end;
  try reflexivity.

Lemma create_purchase_run (req : request) (u : User) (w : world) :
  user req = Some u ->
  create_purchase req w =
  if negb (complete PostPurchases (body req))
  then (Returned
          (failure 400
             "Required fields: base_id, equipment_type_id, quantity, purchase_date"),
        w)
  else if (role_eqb (user_role u) commander
           && outside_base PostPurchases u (body req))%bool
  then (Returned
          (failure 403 "You can only create purchases for your assigned base"),
        w)
  else
    try_catch
      (persist "purchases" "PURCHASE" "purchase"
         "Purchase record created successfully"
         (insert_purchase (field (body req) "base_id")
            (field (body req) "equipment_type_id")
            (field (body req) "quantity") (field (body req) "cost")
            (field (body req) "purchase_date") (field (body req) "supplier")
            (field (body req) "notes") (user_id u))
         p_id PurchaseData u
         [("base_id", field (body req) "base_id");
          ("equipment_type_id", field (body req) "equipment_type_id");
          ("quantity", field (body req) "quantity");
          ("cost", field (body req) "cost")])
      (rescue "Create purchase error:" "Failed to create purchase record") w.
Proof.
  intros Hu. unfold create_purchase, complete, outside_base.
  cbn [required_fields forallb]. rewrite Hu. cbn zeta.
  split_checks.
  destruct (role_eqb (user_role u) commander && _)%bool; reflexivity.
Qed.

Lemma create_transfer_run (req : request) (u : User) (w : world) :
  user req = Some u ->
  create_transfer req w =
  if negb (complete PostTransfers (body req))
  then (Returned
          (failure 400
             "Required fields: from_base_id, to_base_id, equipment_type_id, quantity, transfer_date"),
        w)
  else if same_base (body req)
  then (Returned (failure 400 "Cannot transfer to the same base"), w)
  else if (role_eqb (user_role u) commander
           && outside_base PostTransfers u (body req))%bool
  then (Returned
          (failure 403
             "You can only create transfers involving your assigned base"),
        w)
  else
    try_catch
      (persist "transfers" "TRANSFER" "transfer"
         "Transfer record created successfully"
         (insert_transfer (field (body req) "from_base_id")
            (field (body req) "to_base_id")
            (field (body req) "equipment_type_id")
            (field (body req) "quantity") (field (body req) "transfer_date")
            (field (body req) "notes") (user_id u))
         t_id TransferData u
         [("from_base_id", field (body req) "from_base_id");
          ("to_base_id", field (body req) "to_base_id");
          ("equipment_type_id", field (body req) "equipment_type_id");
          ("quantity", field (body req) "quantity")])
      (rescue "Create transfer error:" "Failed to create transfer record") w.
Proof.
  intros Hu. unfold create_transfer, complete, outside_base, same_base.
  cbn [required_fields forallb]. rewrite Hu. cbn zeta.
  split_checks.
  destruct (strict_eq (field (body req) "from_base_id") _); [reflexivity|].
  destruct (role_eqb (user_role u) commander && _)%bool; reflexivity.
Qed.

Lemma create_assignment_run (req : request) (u : User) (w : world) :
  user req = Some u ->
  create_assignment req w =
  if negb (complete PostAssignments (body req))
  then (Returned
          (failure 400
             "Required fields: base_id, equipment_type_id, personnel_id, assignment_date"),
        w)
  else if (role_eqb (user_role u) commander
           && outside_base PostAssignments u (body req))%bool
  then (Returned
          (failure 403 "You can only create assignments for your assigned base"),
        w)
  else
    try_catch
      (persist "assignments" "ASSIGNMENT" "assignment"
         "Assignment record created successfully"
         (insert_assignment (field (body req) "base_id")
            (field (body req) "equipment_type_id")
            (field (body req) "personnel_id")
            (field (body req) "serial_number")
            (field (body req) "assignment_date") (field (body req) "notes")
            (user_id u))
         a_id AssignmentData u
         [("base_id", field (body req) "base_id");
          ("equipment_type_id", field (body req) "equipment_type_id");
          ("personnel_id", field (body req) "personnel_id");
          ("serial_number", field (body req) "serial_number")])
      (rescue "Create assignment error:" "Failed to create assignment record")
      w.
Proof.
  intros Hu. unfold create_assignment, complete, outside_base.
  cbn [required_fields forallb]. rewrite Hu. cbn zeta.
  split_checks.
  destruct (role_eqb (user_role u) commander && _)%bool; reflexivity.
Qed.

(** ** What a request can do to the store *)

Section Preserves.
Variable P : db -> Prop.

Lemma preserves_ret {A} (a : A) : preserves P (ret a).
Proof. intros w o w' H; inversion H; subst; auto. Qed.

Lemma preserves_throw {A} : preserves P (@throw A).
Proof. intros w o w' H; inversion H; subst; auto. Qed.

Lemma preserves_logger (l : level) (m : log_msg) : preserves P (logger l m).
Proof. intros w o w' H; inversion H; subst; auto. Qed.

Lemma preserves_bind {A B} (m : M A) (k : A -> M B) :
  preserves P m -> (forall a, preserves P (k a)) -> preserves P (bind m k).
Proof.
  intros Hm Hk w o w' H Hw. unfold bind in H.
  destruct (m w) as [[|a] w1] eqn:E.
  - inversion H; subst. exact (Hm _ _ _ E Hw).
  - exact (Hk a _ _ _ H (Hm _ _ _ E Hw)).
Qed.

Lemma preserves_try_catch {A} (body handler : M A) :
  preserves P body -> preserves P handler ->
  preserves P (try_catch body handler).
Proof.
  intros Hb Hh w o w' H Hw. unfold try_catch in H.
  destruct (body w) as [[|a] w1] eqn:E.
  - exact (Hh _ _ _ H (Hb _ _ _ E Hw)).
  - inversion H; subst. exact (Hb _ _ _ E Hw).
Qed.

Lemma preserves_pool_query {A} (s : stmt) (run : Z -> db -> db * option A) :
  (forall now d, P d -> P (fst (run now d))) ->
  preserves P (pool_query s run).
Proof.
  intros Hr w o w' H Hw. unfold pool_query in H.
  specialize (Hr (clock w) (store w) Hw).
  destruct (run (clock w) (store w)) as [d r]. cbn in Hr.
  destruct (faults w) as [|[|] fs]; try destruct r;
    inversion H; subst; cbn; assumption.
Qed.

Lemma preserves_reading {A} (s : stmt) (f : db -> option A) :
  preserves P (pool_query s (reading f)).
Proof. apply preserves_pool_query. intros now d Hd. exact Hd. Qed.

Hypothesis audit_free : forall l n d, P d -> P (set_audit_logs l n d).

Lemma preserves_logAudit (userId : Z) (action entityType : string)
    (entityId : Z) (details : jsobject) :
  preserves P (logAudit userId action entityType entityId details).
Proof.
  apply preserves_try_catch; [apply preserves_bind|].
  - apply preserves_pool_query. intros now d Hd. unfold insert_audit_log.
    destruct (negb _); [exact Hd|].
    destruct (has_account d userId); cbn; apply audit_free, Hd.
  - intros _. apply preserves_logger.
  - apply preserves_logger.
Qed.

Lemma preserves_persist {R} (table entity what okmsg : string)
    (insert : Z -> db -> db * option R) (id_of : R -> Z)
    (wrap : R -> resp_data) (u : User) (details : jsobject) :
  (forall now d, P d -> P (fst (insert now d))) ->
  preserves P (persist table entity what okmsg insert id_of wrap u details).
Proof.
  intros Hi. unfold persist. apply preserves_bind.
  - apply preserves_pool_query, Hi.
  - intros row. apply preserves_bind; [apply preserves_logAudit|].
    intros _. apply preserves_bind; [apply preserves_logger|].
    intros _. apply preserves_ret.
Qed.

Lemma preserves_authenticateToken (req : request) :
  preserves P (authenticateToken req).
Proof.
  intros w o w' H Hw. unfold authenticateToken in H.
  destruct (bearer (authorization req)) as [token|].
  - destruct (jwt_verify w token); inversion H; subst; exact Hw.
  - inversion H; subst; exact Hw.
Qed.

Lemma preserves_checkRole (roles : list Role) (req : request) :
  preserves P (checkRole roles req).
Proof.
  unfold checkRole.
  destruct (match user req with Some u => _ | None => _ end).
  - apply preserves_ret.
  - apply preserves_bind; [apply preserves_logger|].
    intros _. apply preserves_ret.
Qed.

Lemma preserves_chain (ms : list middleware) (h : request -> M response) :
  Forall (fun m => forall req, preserves P (m req)) ms ->
  (forall req, preserves P (h req)) ->
  forall req, preserves P (chain ms h req).
Proof.
  intros Hms Hh. induction Hms as [|m ms Hm _ IH]; intros req; cbn.
  - apply Hh.
  - apply preserves_bind; [apply Hm|].
    intros [r|req']; [apply preserves_ret | apply IH].
Qed.
End Preserves.

Lemma audit_keeps_transfers (l : list audit_row) (n : Z) (d : db) :
  transfers_distinct d -> transfers_distinct (set_audit_logs l n d).
Proof. intros H. exact H. Qed.

(** What an insert statement makes of the store, when it does not yield a
    row: nothing, or a used-up id. *)
Lemma purchase_checked_row (d : db) (b e q c pd s n : jsval) (by_ zb ze zq : Z) :
  purchase_checked d b e q c pd s n by_ = Some (zb, ze, zq) ->
  pg_int4 b = PgInt zb /\ pg_int4 e = PgInt ze /\ pg_int4 q = PgInt zq /\
  0 < zq /\ cost_ok (engine d) c = true /\ is_null pd = false /\
  accepts (engine d) (VARCHAR 255) s = true /\
  has_base d zb = true /\ has_equipment d ze = true /\
  has_account d by_ = true.
Proof.
  unfold purchase_checked.
  destruct (pg_int4 b) as [| |b'], (pg_int4 e) as [| |e'],
           (pg_int4 q) as [| |q']; try discriminate.
  destruct (_ && _)%bool eqn:E; [|discriminate].
  intros H; inversion H; subst.
  rewrite !andb_true_iff in E.
  destruct E as ((((((Hq & Hc) & Hn) & Hs) & Hb) & He) & Hu).
  apply Z.ltb_lt in Hq. apply negb_true_iff in Hn.
  repeat split; assumption.
Qed.

Lemma transfer_checked_row (d : db) (f t e q td n : jsval)
    (by_ zf zt ze zq : Z) :
  transfer_checked d f t e q td n by_ = Some (zf, zt, ze, zq) ->
  pg_int4 f = PgInt zf /\ pg_int4 t = PgInt zt /\ pg_int4 e = PgInt ze /\
  pg_int4 q = PgInt zq /\ 0 < zq /\ zf <> zt /\ is_null td = false /\
  has_base d zf = true /\ has_base d zt = true /\
  has_equipment d ze = true /\ has_account d by_ = true.
Proof.
  unfold transfer_checked.
  destruct (pg_int4 f) as [| |f'], (pg_int4 t) as [| |t'],
           (pg_int4 e) as [| |e'], (pg_int4 q) as [| |q']; try discriminate.
  destruct (_ && _)%bool eqn:E; [|discriminate].
  intros H; inversion H; subst.
  rewrite !andb_true_iff in E.
  destruct E as ((((((Hq & Hne) & Hn) & Hf) & Ht) & He) & Hu).
  apply Z.ltb_lt in Hq. apply negb_true_iff in Hn, Hne.
  apply Z.eqb_neq in Hne.
  repeat split; assumption.
Qed.

Lemma assignment_checked_row (d : db) (b e p sn ad n : jsval)
    (by_ zb ze zp : Z) :
  assignment_checked d b e p sn ad n by_ = Some (zb, ze, zp) ->
  pg_int4 b = PgInt zb /\ pg_int4 e = PgInt ze /\ pg_int4 p = PgInt zp /\
  is_null ad = false /\ accepts (engine d) (VARCHAR 100) sn = true /\
  has_base d zb = true /\ has_equipment d ze = true /\
  has_personnel d zp = true /\ has_account d by_ = true.
Proof.
  unfold assignment_checked.
  destruct (pg_int4 b) as [| |b'], (pg_int4 e) as [| |e'],
           (pg_int4 p) as [| |p']; try discriminate.
  destruct (_ && _)%bool eqn:E; [|discriminate].
  intros H; inversion H; subst.
  rewrite !andb_true_iff in E.
  destruct E as (((((Hn & Hs) & Hb) & He) & Hp) & Hu).
  apply negb_true_iff in Hn.
  repeat split; assumption.
Qed.

(** What each insert statement does: nothing when a parameter is not
    read; the loss of an id when the row fails a check; and otherwise
    the row, appended. *)
Lemma insert_purchase_cases (b e q c pd s n : jsval) (by_ now : Z) (d : db) :
  insert_purchase b e q c pd s n by_ now d = (d, None)
  \/ insert_purchase b e q c pd s n by_ now d
     = (set_purchases (tbl_purchases d) (purchases_id_seq d + 1) d, None)
  \/ exists zb ze zq,
       purchase_params (engine d) b e q c pd s n by_ = true /\
       purchase_checked d b e q c pd s n by_ = Some (zb, ze, zq) /\
       insert_purchase b e q c pd s n by_ now d
       = (let row := mkPurchase (purchases_id_seq d) zb ze zq c pd s n
                       (Some by_) in
          (set_purchases (tbl_purchases d ++ [row])%list
             (purchases_id_seq d + 1) d, Some row)).
Proof.
  unfold insert_purchase.
  destruct (purchase_params _ _ _ _ _ _ _ _ _) eqn:Ep; cbn [negb];
    [|left; reflexivity].
  destruct (purchase_checked _ _ _ _ _ _ _ _ _) as [[[zb ze] zq]|] eqn:Ec.
  - right. right. exists zb, ze, zq. repeat split; reflexivity.
  - right. left. reflexivity.
Qed.

Lemma insert_transfer_cases (f t e q td n : jsval) (by_ now : Z) (d : db) :
  insert_transfer f t e q td n by_ now d = (d, None)
  \/ insert_transfer f t e q td n by_ now d
     = (set_transfers (tbl_transfers d) (transfers_id_seq d + 1) d, None)
  \/ exists zf zt ze zq,
       transfer_params (engine d) f t e q td n by_ = true /\
       transfer_checked d f t e q td n by_ = Some (zf, zt, ze, zq) /\
       insert_transfer f t e q td n by_ now d
       = (let row := mkTransfer (transfers_id_seq d) zf zt ze zq td pending n
                       (Some by_) in
          (set_transfers (tbl_transfers d ++ [row])%list
             (transfers_id_seq d + 1) d, Some row)).
Proof.
  unfold insert_transfer.
  destruct (transfer_params _ _ _ _ _ _ _ _) eqn:Ep; cbn [negb];
    [|left; reflexivity].
  destruct (transfer_checked _ _ _ _ _ _ _ _) as [[[[zf zt] ze] zq]|] eqn:Ec.
  - right. right. exists zf, zt, ze, zq. repeat split; reflexivity.
  - right. left. reflexivity.
Qed.

Lemma insert_assignment_cases (b e p sn ad n : jsval) (by_ now : Z) (d : db) :
  insert_assignment b e p sn ad n by_ now d = (d, None)
  \/ insert_assignment b e p sn ad n by_ now d
     = (set_assignments (tbl_assignments d) (assignments_id_seq d + 1) d, None)
  \/ exists zb ze zp,
       assignment_params (engine d) b e p sn ad n by_ = true /\
       assignment_checked d b e p sn ad n by_ = Some (zb, ze, zp) /\
       insert_assignment b e p sn ad n by_ now d
       = (let row := mkAssignment (assignments_id_seq d) zb ze zp sn ad active
                       n (Some by_) in
          (set_assignments (tbl_assignments d ++ [row])%list
             (assignments_id_seq d + 1) d, Some row)).
Proof.
  unfold insert_assignment.
  destruct (assignment_params _ _ _ _ _ _ _ _) eqn:Ep; cbn [negb];
    [|left; reflexivity].
  destruct (assignment_checked _ _ _ _ _ _ _ _) as [[[zb ze] zp]|] eqn:Ec.
  - right. right. exists zb, ze, zp. repeat split; reflexivity.
  - right. left. reflexivity.
Qed.

Ltac insert_cases I :=
  let zb := fresh "z" in let ze := fresh "z" in let zq := fresh "z" in
  let zt := fresh "z" in
  let Hp := fresh "Hparams" in
  let Hc := fresh "Hchecked" in let E := fresh "Hins" in
  destruct I as [E | [E | E]];
  [ rewrite E
  | rewrite E
  | first [ destruct E as (zb & ze & zq & zt & Hp & Hc & E)
          | destruct E as (zb & ze & zq & Hp & Hc & E) ];
    rewrite E ].



(** What the transfers statement can do: nothing, or append a row that
    joins two different bases (the CHECK of the table), both on record. *)
Lemma insert_transfer_row (f t e q td n : jsval) (by_ now : Z) (d d' : db)
    (row : transfer_row) :
  insert_transfer f t e q td n by_ now d = (d', Some row) ->
  t_from_base_id row <> t_to_base_id row /\
  pg_int4 f = PgInt (t_from_base_id row) /\
  pg_int4 t = PgInt (t_to_base_id row) /\
  t_id row = transfers_id_seq d /\
  t_status row = pending /\
  tbl_transfers d' = (tbl_transfers d ++ [row])%list.
Proof.
  insert_cases (insert_transfer_cases f t e q td n by_ now d);
    try discriminate.
  cbv zeta. intros H; inversion H; subst; cbn.
  destruct (transfer_checked_row _ _ _ _ _ _ _ _ _ _ _ _ Hchecked)
    as (Hf & Ht & _ & _ & _ & Hne & _).
  repeat split; assumption.
Qed.


Ltac keep :=
  repeat first
    [ apply preserves_ret
    | apply preserves_throw
    | apply preserves_logger
    | apply preserves_reading
    | apply preserves_logAudit; [exact audit_keeps_transfers]
    | apply preserves_try_catch
    | apply preserves_bind; [|intros ?]
    | match goal with
      | |- preserves _ (match ?x with _ => _ end) => destruct x
      end ].


(** What the application leaves of the world: what the routes leave, or,
    for a request that is not let through, a line in the log. *)
Lemma app_world (e : endpoint) (req : request) (w : world) :
  snd (app e req w) = snd (routed e req w) \/
  snd (app e req w) = unhandled w.
Proof.
  destruct (admitted req) eqn:Hadm.
  - left. rewrite (app_admitted _ _ _ Hadm). reflexivity.
  - right. rewrite (app_refused _ _ _ Hadm). reflexivity.
Qed.




(** ** The token check *)

Lemma admitted_false (req : request) :
  cors_origin (origin req) = false \/ unreadable req = true ->
  admitted req = false.
Proof.
  unfold admitted. intros [H|H]; rewrite H; [reflexivity|].
  apply andb_false_r.
Qed.

(** [C8], as the code has it.  On every endpoint but the health probe, a
    request that the CORS filter and the body parsers let through meets
    the token check before anything else of its route runs: without a
    token it gets 401 (Unauthorized), with a token that does not verify
    403 with the invalid-token message; in both cases the answer does
    not depend on the query or the body, the only trace of the request
    is its line in the operational log, and no statement is sent to the
    store.  The CORS filter and the body parsers come before the token
    check: a request from an origin that is not allowed, or with a body
    the parsers cannot read, is answered 500 by the global error handler,
    with or without a token, and is not even logged as incoming.  The
    health probe answers 200 without a token. *)
Theorem token_check_comes_first :
  forall (e : endpoint) (req : request) (w : world),
    protected e = true ->
    (admitted req = true ->
     (bearer (authorization req) = None ->
      app e req w =
      (failure 401 "Access token required. Please login to continue.",
       entered w))
     /\ (forall token,
            bearer (authorization req) = Some token ->
            jwt_verify w token = None ->
            app e req w =
            (failure 403 "Invalid or expired token. Please login again.",
             entered w))
     /\ (status (fst (app GetHealth req w)) = 200 /\
         snd (app GetHealth req w) = entered w))
    /\ (cors_origin (origin req) = false \/ unreadable req = true ->
        app e req w =
        (failure 500 "Internal server error. Please try again later.",
         logged Error (HandlerError "Unhandled error:") w))
    /\ store (entered w) = store w
    /\ trace (entered w) = trace w
    /\ faults (entered w) = faults w
    /\ kind (failure 401 "Access token required. Please login to continue.")
       = Some Unauthorized
    /\ kind (failure 403 "Invalid or expired token. Please login again.")
       = Some Forbidden
    /\ kind (failure 500 "Internal server error. Please try again later.")
       = Some StoreFailure.
Proof.
  intros e req w He. split; [|split; [|repeat split]].
  - intros Hadm. rewrite !(app_admitted _ _ _ Hadm). repeat split.
    + intros Hb. apply app_no_token; assumption.
    + intros token Hb Hv. apply app_bad_token with token; assumption.
  - intros H. apply app_refused, admitted_false, H.
Qed.


(** ** The order of the checks of a create *)

Lemma includes_transfers (r : Role) :
  includes (allowed_roles PostTransfers) r = true.
Proof. destruct r; reflexivity. Qed.

Lemma app_create_incomplete (e : endpoint) (req : request) (w : world)
    (u : User) :
  is_create e = true ->
  authenticated w req u ->
  includes (allowed_roles e) (user_role u) = true ->
  complete e (body req) = false ->
  routed e req w = (failure 400 (required_message e), entered w).
Proof.
  intros He Hu Hi Hc. rewrite (app_create_allowed e req w u He Hu Hi).
  assert (Hc' : complete e (body (set_user u (arriving req))) = false)
    by exact Hc.
  destruct e; try discriminate He; cbn [create_handler].
  - rewrite (create_purchase_run (set_user u (arriving req)) u _ eq_refl), Hc'. reflexivity.
  - rewrite (create_transfer_run (set_user u (arriving req)) u _ eq_refl), Hc'. reflexivity.
  - rewrite (create_assignment_run (set_user u (arriving req)) u _ eq_refl), Hc'. reflexivity.
Qed.


(** [C5], as the code has it.  On the three creates the role check of the
    route runs first: a user whose role is not let through gets 403
    (Forbidden) with the access-denied message whatever the payload,
    complete or not.  For a role that is let through, the required-field
    check comes next, before the same-base and own-base checks: a
    payload with a missing field gets 400 (ValidationError) with the
    required-fields message of the operation, which is neither the
    same-base message nor an own-base one, also when its two bases are
    identical or are not the commander's.  Neither case sends a
    statement to the store. *)
Theorem create_checks_in_order :
  forall (e : endpoint) (req : request) (w : world) (u : User),
    is_create e = true ->
    admitted req = true ->
    authenticated w req u ->
    (includes (allowed_roles e) (user_role u) = false ->
     fst (app e req w)
     = failure 403
         "Access denied. You do not have permission to perform this action." /\
     kind (fst (app e req w)) = Some Forbidden /\
     store (snd (app e req w)) = store w /\
     trace (snd (app e req w)) = trace w)
    /\ (includes (allowed_roles e) (user_role u) = true ->
        complete e (body req) = false ->
        fst (app e req w) = failure 400 (required_message e) /\
        kind (fst (app e req w)) = Some ValidationError /\
        store (snd (app e req w)) = store w /\
        trace (snd (app e req w)) = trace w)
    /\ (required_message e <> "Cannot transfer to the same base" /\
        required_message e
        <> "You can only create purchases for your assigned base" /\
        required_message e
        <> "You can only create transfers involving your assigned base" /\
        required_message e
        <> "You can only create assignments for your assigned base").
Proof.
  intros e req w u He Hadm Hu. rewrite !(app_admitted _ _ _ Hadm).
  split; [|split].
  - intros Hi. rewrite (app_create_denied e req w u He Hu Hi).
    repeat split.
  - intros Hi Hc.
    rewrite (app_create_incomplete e req w u He Hu Hi Hc).
    repeat split.
  - destruct e; try discriminate He; repeat split; discriminate.
Qed.


Lemma routed_for_logistics (req : request) (w : world) (u : User) :
  authenticated w req u ->
  user_role u = logistics ->
  routed PostPurchases req w
  = (failure 403
       "Access denied. You do not have permission to perform this action.",
     logged Warn
       (AccessDenied (Some (user_email u)) (allowed_roles PostPurchases))
       (entered w))
  /\ checkRole (allowed_roles PostTransfers) (set_user u (arriving req))
       (entered w)
     = (Returned (Next (set_user u (arriving req))), entered w)
  /\ kind (fst (routed PostTransfers req w)) <> Some Forbidden.
Proof.
  intros Hu Hr. split; [|split].
  - assert (Hi : includes (allowed_roles PostPurchases) (user_role u) = false)
      by (rewrite Hr; reflexivity).
    rewrite (app_create_denied PostPurchases req w u eq_refl Hu Hi).
    reflexivity.
  - apply checkRole_allowed with u; [reflexivity | apply includes_transfers].
  - rewrite (app_create_allowed PostTransfers req w u eq_refl Hu
               (includes_transfers _)).
    cbn [create_handler].
    rewrite (create_transfer_run (set_user u (arriving req)) u _ eq_refl).
    cbn [user_role set_user]. rewrite Hr. cbn [role_eqb andb].
    destruct (negb (complete PostTransfers _)); [cbn; discriminate|].
    destruct (same_base _); [cbn; discriminate|].
    rewrite persist_run.
    destruct (faults (entered w)) as [|[|] fs]; try (cbn; discriminate);
      destruct (insert_transfer _ _ _ _ _ _ _ _ _) as [d [row|]];
      cbn; discriminate.
Qed.

(** [C6] A logistics user who calls create-Purchase gets 403 (Forbidden),
    whatever the payload, valid or not, and nothing reaches the store; on
    create-Transfer the role check lets the same user through and the
    answer is never 403.  This holds of the routes as they are mounted,
    for every request that comes to them, and so of the application for
    every request that the CORS filter and the body parsers, which stand
    before all routes, pass on. *)
Theorem logistics_creates :
  forall (req : request) (w : world) (u : User),
    authenticated w req u ->
    user_role u = logistics ->
    ((kind (fst (routed PostPurchases req w)) = Some Forbidden /\
      error (fst (routed PostPurchases req w)) =
        Some "Access denied. You do not have permission to perform this action." /\
      store (snd (routed PostPurchases req w)) = store w /\
      trace (snd (routed PostPurchases req w)) = trace w)
     /\ checkRole (allowed_roles PostTransfers) (set_user u (arriving req))
          (entered w)
        = (Returned (Next (set_user u (arriving req))), entered w)
     /\ kind (fst (routed PostTransfers req w)) <> Some Forbidden)
    /\ (admitted req = true ->
        (kind (fst (app PostPurchases req w)) = Some Forbidden /\
         error (fst (app PostPurchases req w)) =
           Some "Access denied. You do not have permission to perform this action." /\
         store (snd (app PostPurchases req w)) = store w /\
         trace (snd (app PostPurchases req w)) = trace w)
        /\ kind (fst (app PostTransfers req w)) <> Some Forbidden).
Proof.
  intros req w u Hu Hr.
  destruct (routed_for_logistics req w u Hu Hr) as (Hp & Hc & Ht).
  split; [split; [|split]|].
  - rewrite Hp. repeat split.
  - exact Hc.
  - exact Ht.
  - intros Hadm. rewrite !(app_admitted _ _ _ Hadm). split; [|exact Ht].
    rewrite Hp. repeat split.
Qed.


Lemma insert_purchase_row (b e q c pd s n : jsval) (by_ now : Z) (d d' : db)
    (row : purchase_row) :
  insert_purchase b e q c pd s n by_ now d = (d', Some row) ->
  pg_int4 b = PgInt (p_base_id row) /\
  p_id row = purchases_id_seq d /\
  0 < p_quantity row /\
  tbl_purchases d' = (tbl_purchases d ++ [row])%list.
Proof.
  insert_cases (insert_purchase_cases b e q c pd s n by_ now d);
    try discriminate.
  cbv zeta. intros H; inversion H; subst; cbn.
  destruct (purchase_checked_row _ _ _ _ _ _ _ _ _ _ _ _ Hchecked)
    as (Hb & _ & _ & Hq & _).
  repeat split; assumption.
Qed.

Lemma insert_assignment_row (b e p sn ad n : jsval) (by_ now : Z) (d d' : db)
    (row : assignment_row) :
  insert_assignment b e p sn ad n by_ now d = (d', Some row) ->
  pg_int4 b = PgInt (a_base_id row) /\
  a_id row = assignments_id_seq d /\
  a_status row = active /\
  tbl_assignments d' = (tbl_assignments d ++ [row])%list.
Proof.
  insert_cases (insert_assignment_cases b e p sn ad n by_ now d);
    try discriminate.
  cbv zeta. intros H; inversion H; subst; cbn.
  destruct (assignment_checked_row _ _ _ _ _ _ _ _ _ _ _ Hchecked)
    as (Hb & _).
  repeat split; assumption.
Qed.

Lemma insert_purchase_audit_logs (b e q c pd s n : jsval) (by_ now : Z)
    (d : db) :
  tbl_audit_logs (fst (insert_purchase b e q c pd s n by_ now d))
  = tbl_audit_logs d.
Proof.
  insert_cases (insert_purchase_cases b e q c pd s n by_ now d); reflexivity.
Qed.

Lemma insert_transfer_audit_logs (f t e q td n : jsval) (by_ now : Z)
    (d : db) :
  tbl_audit_logs (fst (insert_transfer f t e q td n by_ now d))
  = tbl_audit_logs d.
Proof.
  insert_cases (insert_transfer_cases f t e q td n by_ now d); reflexivity.
Qed.

Lemma insert_assignment_audit_logs (b e p sn ad n : jsval) (by_ now : Z)
    (d : db) :
  tbl_audit_logs (fst (insert_assignment b e p sn ad n by_ now d))
  = tbl_audit_logs d.
Proof.
  insert_cases (insert_assignment_cases b e p sn ad n by_ now d); reflexivity.
Qed.

Lemma audited_trace (uid : Z) (a t : string) (eid : Z) (det : jsobject)
    (w : world) :
  trace (audited uid a t eid det w)
  = (trace w ++ [InsertInto "audit_logs"])%list.
Proof.
  unfold audited. destruct (faults w) as [|[|] fs]; try reflexivity;
    destruct (insert_audit_log _ _ _ _ _ _ _) as [d [[]|]]; reflexivity.
Qed.
Lemma insert_audit_log_business_rows (uid : Z) (a t : string) (eid : Z)
    (det : jsobject) (now : Z) (d : db) :
  business_rows (fst (insert_audit_log uid a t eid det now d))
  = business_rows d.
Proof.
  unfold insert_audit_log. destruct (negb _); [reflexivity|].
  destruct (has_account d uid); reflexivity.
Qed.

Lemma audited_business_rows (uid : Z) (a t : string) (eid : Z)
    (det : jsobject) (w : world) :
  business_rows (store (audited uid a t eid det w)) = business_rows (store w).
Proof.
  unfold audited.
  pose proof (insert_audit_log_business_rows uid a t eid (stringify det)
                (clock w) (store w)) as H.
  destruct (faults w) as [|[|] fs]; try reflexivity;
    destruct (insert_audit_log _ _ _ _ _ _ _) as [d [[]|]]; exact H.
Qed.

(** The audit statement of a user on record appends its entry. *)
Lemma insert_audit_log_entry (uid : Z) (a t : string) (eid : Z)
    (det : jsobject) (now : Z) (d : db) :
  in_range 32 uid = true ->
  has_account d uid = true ->
  insert_audit_log uid a t eid det now d
  = (set_audit_logs
       (tbl_audit_logs d
        ++ [mkAudit (audit_logs_id_seq d) (Some uid) a t (Some eid) det now])%list
       (audit_logs_id_seq d + 1) d,
     Some tt).
Proof.
  intros Hr Hu. unfold insert_audit_log. rewrite Hr, Hu. reflexivity.
Qed.

Lemma audited_entry (uid : Z) (a t : string) (eid : Z) (det : jsobject)
    (w : world) :
  in_range 32 uid = true ->
  has_account (store w) uid = true ->
  (hd false (faults w) = false /\
   exists row,
     tbl_audit_logs (store (audited uid a t eid det w))
     = (tbl_audit_logs (store w) ++ [row])%list /\
     al_entity_type row = t /\ al_entity_id row = Some eid /\
     al_action row = a /\ al_user_id row = Some uid /\
     al_timestamp row = clock w)
  \/ (hd false (faults w) = true /\
      tbl_audit_logs (store (audited uid a t eid det w))
      = tbl_audit_logs (store w) /\
      In (Error, AuditFailed) (oplog (audited uid a t eid det w))).
Proof.
  intros Hr Hu. unfold audited.
  rewrite (insert_audit_log_entry uid a t eid (stringify det) (clock w)
             (store w) Hr Hu).
  destruct (faults w) as [|[|] fs]; cbn.
  - left. split; [reflexivity|]. eexists. repeat split.
  - right. repeat split. apply in_or_app. right. left. reflexivity.
  - left. split; [reflexivity|]. eexists. repeat split.
Qed.


(** An insert that yields a row: every parameter was read, the row passed
    the checks of its table, and the store is the old one with the row
    appended. *)
Lemma insert_purchase_some (b e q c pd s n : jsval) (by_ now : Z) (d d' : db)
    (row : purchase_row) :
  insert_purchase b e q c pd s n by_ now d = (d', Some row) ->
  purchase_params (engine d) b e q c pd s n by_ = true /\
  purchase_checked d b e q c pd s n by_
  = Some (p_base_id row, p_equipment_type_id row, p_quantity row) /\
  row = mkPurchase (purchases_id_seq d) (p_base_id row)
          (p_equipment_type_id row) (p_quantity row) c pd s n (Some by_) /\
  d' = set_purchases (tbl_purchases d ++ [row])%list
         (purchases_id_seq d + 1) d.
Proof.
  insert_cases (insert_purchase_cases b e q c pd s n by_ now d);
    try discriminate.
  cbv zeta. intros H; inversion H; subst; cbn. repeat split; assumption.
Qed.

Lemma insert_transfer_some (f t e q td n : jsval) (by_ now : Z) (d d' : db)
    (row : transfer_row) :
  insert_transfer f t e q td n by_ now d = (d', Some row) ->
  transfer_params (engine d) f t e q td n by_ = true /\
  transfer_checked d f t e q td n by_
  = Some (t_from_base_id row, t_to_base_id row, t_equipment_type_id row,
          t_quantity row) /\
  row = mkTransfer (transfers_id_seq d) (t_from_base_id row)
          (t_to_base_id row) (t_equipment_type_id row) (t_quantity row) td
          pending n (Some by_) /\
  d' = set_transfers (tbl_transfers d ++ [row])%list
         (transfers_id_seq d + 1) d.
Proof.
  insert_cases (insert_transfer_cases f t e q td n by_ now d);
    try discriminate.
  cbv zeta. intros H; inversion H; subst; cbn. repeat split; assumption.
Qed.

Lemma insert_assignment_some (b e p sn ad n : jsval) (by_ now : Z)
    (d d' : db) (row : assignment_row) :
  insert_assignment b e p sn ad n by_ now d = (d', Some row) ->
  assignment_params (engine d) b e p sn ad n by_ = true /\
  assignment_checked d b e p sn ad n by_
  = Some (a_base_id row, a_equipment_type_id row, a_personnel_id row) /\
  row = mkAssignment (assignments_id_seq d) (a_base_id row)
          (a_equipment_type_id row) (a_personnel_id row) sn ad active n
          (Some by_) /\
  d' = set_assignments (tbl_assignments d ++ [row])%list
         (assignments_id_seq d + 1) d.
Proof.
  insert_cases (insert_assignment_cases b e p sn ad n by_ now d);
    try discriminate.
  cbv zeta. intros H; inversion H; subst; cbn. repeat split; assumption.
Qed.

Lemma purchase_params_creator (t : typein) (b e q c pd s n : jsval) (by_ : Z) :
  purchase_params t b e q c pd s n by_ = true -> in_range 32 by_ = true.
Proof.
  unfold purchase_params. intros H. apply andb_prop in H. apply H.
Qed.

Lemma transfer_params_creator (t : typein) (f t' e q td n : jsval) (by_ : Z) :
  transfer_params t f t' e q td n by_ = true -> in_range 32 by_ = true.
Proof.
  unfold transfer_params. intros H. apply andb_prop in H. apply H.
Qed.

Lemma assignment_params_creator (t : typein) (b e p sn ad n : jsval)
    (by_ : Z) :
  assignment_params t b e p sn ad n by_ = true -> in_range 32 by_ = true.
Proof.
  unfold assignment_params. intros H. apply andb_prop in H. apply H.
Qed.

(** After a create has inserted its record, its user is on record: the
    audit entry will find it. *)
Lemma insert_of_creator (e : endpoint) (u : User) (payload : jsobject)
    (now : Z) (d d' : db) (rd : resp_data) :
  insert_of e u payload now d = (d', Some rd) ->
  in_range 32 (user_id u) = true /\ has_account d' (user_id u) = true.
Proof.
  destruct e; cbn [insert_of]; try discriminate.
  - destruct (insert_purchase _ _ _ _ _ _ _ _ _ _) as [d1 [row|]] eqn:E;
      cbn [option_map]; [|discriminate].
    intros H; inversion H; subst.
    destruct (insert_purchase_some _ _ _ _ _ _ _ _ _ _ _ _ E)
      as (Hp & Hc & _ & ->).
    split; [exact (purchase_params_creator _ _ _ _ _ _ _ _ _ Hp)|].
    apply purchase_checked_row in Hc. apply Hc.
  - destruct (insert_transfer _ _ _ _ _ _ _ _ _) as [d1 [row|]] eqn:E;
      cbn [option_map]; [|discriminate].
    intros H; inversion H; subst.
    destruct (insert_transfer_some _ _ _ _ _ _ _ _ _ _ _ E)
      as (Hp & Hc & _ & ->).
    split; [exact (transfer_params_creator _ _ _ _ _ _ _ _ Hp)|].
    apply transfer_checked_row in Hc. apply Hc.
  - destruct (insert_assignment _ _ _ _ _ _ _ _ _) as [d1 [row|]] eqn:E;
      cbn [option_map]; [|discriminate].
    intros H; inversion H; subst.
    destruct (insert_assignment_some _ _ _ _ _ _ _ _ _ _ _ E)
      as (Hp & Hc & _ & ->).
    split; [exact (assignment_params_creator _ _ _ _ _ _ _ _ Hp)|].
    apply assignment_checked_row in Hc. apply Hc.
Qed.

(** What a create can answer: a failure without data, or the record the
    insert statement returned, after the audit. *)
Lemma app_create_cases (e : endpoint) (req : request) (w : world) :
  is_create e = true ->
  (data (fst (routed e req w)) = NoData /\ status (fst (routed e req w)) <> 201)
  \/ exists u d rd id msg what details,
       authenticated w req u /\
       includes (allowed_roles e) (user_role u) = true /\
       complete e (body req) = true /\
       (role_eqb (user_role u) commander && outside_base e u (body req))%bool
       = false /\
       hd false (faults w) = false /\
       insert_of e u (body req) (clock w) (store w) = (d, Some rd) /\
       created_id rd = Some id /\
       routed e req w =
       (created msg rd,
        logged Info (NewRecord what id (user_email u))
          (audited (user_id u) "CREATE" (entity_of e) id details
             (set_store d (sent (InsertInto (table_of e)) (entered w))))).
Proof.
  intros He.
  destruct (behind_create e He) as (Hp & _).
  destruct (app_header_cases e req w Hp)
    as [Hb | [(token & Hb & Hv) | (u & Hu)]].
  { left. rewrite (app_no_token e _ _ Hp Hb). split; [reflexivity|discriminate]. }
  { left. rewrite (app_bad_token e _ _ _ Hp Hb Hv).
    split; [reflexivity|discriminate]. }
  destruct (includes (allowed_roles e) (user_role u)) eqn:Hi.
  2:{ left. rewrite (app_create_denied e req w u He Hu Hi).
      split; [reflexivity|discriminate]. }
  rewrite (app_create_allowed e req w u He Hu Hi).
  destruct e; try discriminate He; cbn [create_handler].
  - rewrite (create_purchase_run (set_user u (arriving req)) u _ eq_refl).
    change (body (set_user u (arriving req))) with (body req).
    destruct (complete PostPurchases (body req)) eqn:Hc; cbn [negb];
      [|left; split; [reflexivity|discriminate]].
    destruct (_ && _)%bool eqn:Ho;
      [left; split; [reflexivity|discriminate]|].
    rewrite persist_run. change (faults (entered w)) with (faults w).
    change (clock (entered w)) with (clock w).
    change (store (entered w)) with (store w).
    destruct (insert_purchase _ _ _ _ _ _ _ _ _ _) as [d [row|]] eqn:E.
    2:{ left. destruct (faults w) as [|[|] fs];
          (split; [reflexivity|discriminate]). }
    destruct (faults w) as [|[|] fs] eqn:Ef;
      [ | left; split; [reflexivity|discriminate] | ];
      right; exists u, d, (PurchaseData row), (p_id row);
      do 3 eexists; repeat split; try assumption; try reflexivity;
      cbn [insert_of]; rewrite E; reflexivity.
  - rewrite (create_transfer_run (set_user u (arriving req)) u _ eq_refl).
    change (body (set_user u (arriving req))) with (body req).
    destruct (complete PostTransfers (body req)) eqn:Hc; cbn [negb];
      [|left; split; [reflexivity|discriminate]].
    destruct (same_base (body req));
      [left; split; [reflexivity|discriminate]|].
    destruct (_ && _)%bool eqn:Ho;
      [left; split; [reflexivity|discriminate]|].
    rewrite persist_run. change (faults (entered w)) with (faults w).
    change (clock (entered w)) with (clock w).
    change (store (entered w)) with (store w).
    destruct (insert_transfer _ _ _ _ _ _ _ _ _) as [d [row|]] eqn:E.
    2:{ left. destruct (faults w) as [|[|] fs];
          (split; [reflexivity|discriminate]). }
    destruct (faults w) as [|[|] fs] eqn:Ef;
      [ | left; split; [reflexivity|discriminate] | ];
      right; exists u, d, (TransferData row), (t_id row);
      do 3 eexists; repeat split; try assumption; try reflexivity;
      cbn [insert_of]; rewrite E; reflexivity.
  - rewrite (create_assignment_run (set_user u (arriving req)) u _ eq_refl).
    change (body (set_user u (arriving req))) with (body req).
    destruct (complete PostAssignments (body req)) eqn:Hc; cbn [negb];
      [|left; split; [reflexivity|discriminate]].
    destruct (_ && _)%bool eqn:Ho;
      [left; split; [reflexivity|discriminate]|].
    rewrite persist_run. change (faults (entered w)) with (faults w).
    change (clock (entered w)) with (clock w).
    change (store (entered w)) with (store w).
    destruct (insert_assignment _ _ _ _ _ _ _ _ _) as [d [row|]] eqn:E.
    2:{ left. destruct (faults w) as [|[|] fs];
          (split; [reflexivity|discriminate]). }
    destruct (faults w) as [|[|] fs] eqn:Ef;
      [ | left; split; [reflexivity|discriminate] | ];
      right; exists u, d, (AssignmentData row), (a_id row);
      do 3 eexists; repeat split; try assumption; try reflexivity;
      cbn [insert_of]; rewrite E; reflexivity.
Qed.

Lemma insert_of_row (e : endpoint) (u : User) (payload : jsobject) (now : Z)
    (d d' : db) (rd : resp_data) :
  insert_of e u payload now d = (d', Some rd) ->
  persisted rd d' /\
  tbl_audit_logs d' = tbl_audit_logs d /\
  match rd with
  | TransferData row => t_from_base_id row <> t_to_base_id row
  | _ => True
  end.
Proof.
  destruct e; cbn [insert_of]; try discriminate.
  - pose proof (insert_purchase_audit_logs (field payload "base_id")
      (field payload "equipment_type_id") (field payload "quantity")
      (field payload "cost") (field payload "purchase_date")
      (field payload "supplier") (field payload "notes") (user_id u) now d)
      as Ha.
    destruct (insert_purchase _ _ _ _ _ _ _ _ _ _) as [d1 [row|]] eqn:E;
      cbn [option_map]; [|discriminate].
    intros H; inversion H; subst.
    destruct (insert_purchase_row _ _ _ _ _ _ _ _ _ _ _ _ E)
      as (_ & _ & _ & Ht).
    cbn [persisted]. rewrite Ht. repeat split.
    + apply in_or_app. right. left. reflexivity.
    + exact Ha.
  - pose proof (insert_transfer_audit_logs (field payload "from_base_id")
      (field payload "to_base_id") (field payload "equipment_type_id")
      (field payload "quantity") (field payload "transfer_date")
      (field payload "notes") (user_id u) now d) as Ha.
    destruct (insert_transfer _ _ _ _ _ _ _ _ _) as [d1 [row|]] eqn:E;
      cbn [option_map]; [|discriminate].
    intros H; inversion H; subst.
    destruct (insert_transfer_row _ _ _ _ _ _ _ _ _ _ _ E)
      as (Hne & _ & _ & _ & _ & Ht).
    cbn [persisted]. rewrite Ht. repeat split.
    + apply in_or_app. right. left. reflexivity.
    + exact Ha.
    + exact Hne.
  - pose proof (insert_assignment_audit_logs (field payload "base_id")
      (field payload "equipment_type_id") (field payload "personnel_id")
      (field payload "serial_number") (field payload "assignment_date")
      (field payload "notes") (user_id u) now d) as Ha.
    destruct (insert_assignment _ _ _ _ _ _ _ _ _) as [d1 [row|]] eqn:E;
      cbn [option_map]; [|discriminate].
    intros H; inversion H; subst.
    destruct (insert_assignment_row _ _ _ _ _ _ _ _ _ _ _ E)
      as (_ & _ & _ & Ht).
    cbn [persisted]. rewrite Ht. repeat split.
    + apply in_or_app. right. left. reflexivity.
    + exact Ha.
Qed.

Lemma persisted_business_rows (rd : resp_data) (d d' : db) :
  business_rows d' = business_rows d -> persisted rd d -> persisted rd d'.
Proof.
  unfold business_rows. intros H. inversion H as [[Hp Ht Ha]].
  destruct rd; cbn [persisted]; try (intros F; exact F);
    rewrite ?Hp, ?Ht, ?Ha; intros F; exact F.
Qed.

(** ** Transfers join two different bases *)




(** ** The commander writes for the own base only *)





(** ** Every create is audited once *)

Lemma second_fault (fs : list bool) :
  hd false (tl fs) = nth 1 fs false.
Proof. destruct fs as [|f [|g fs]]; reflexivity. Qed.

Lemma authenticated_with_faults (fs : list bool) (w : world) (req : request)
    (u : User) :
  authenticated w req u -> authenticated (with_faults fs w) req u.
Proof. intros H. exact H. Qed.

(** The flag of the audit round trip changes neither the answer of a create
    handler nor what it leaves in the business tables. *)
Lemma create_handler_audit_fault (e : endpoint) (req : request) (u : User)
    (w : world) (f : bool) (fs : list bool) :
  is_create e = true ->
  user req = Some u ->
  fst (create_handler e req (entered (with_faults (f :: true :: fs) w)))
  = fst (create_handler e req (entered (with_faults (f :: false :: fs) w)))
  /\ business_rows
       (store (snd (create_handler e req
                      (entered (with_faults (f :: true :: fs) w)))))
     = business_rows
         (store (snd (create_handler e req
                        (entered (with_faults (f :: false :: fs) w))))).
Proof.
  intros He Hu.
  destruct e; try discriminate He; cbn [create_handler].
  - rewrite !(create_purchase_run req u _ Hu).
    destruct (negb (complete PostPurchases (body req)));
      [split; reflexivity|].
    destruct (_ && _)%bool; [split; reflexivity|].
    rewrite !persist_run. cbn [faults entered logged with_faults].
    cbn [clock store entered logged with_faults].
    destruct f; [split; reflexivity|].
    destruct (insert_purchase _ _ _ _ _ _ _ _ _ _) as [d [row|]];
      [|split; reflexivity].
    split; [reflexivity|].
    cbn [snd store logged]. rewrite !audited_business_rows. reflexivity.
  - rewrite !(create_transfer_run req u _ Hu).
    destruct (negb (complete PostTransfers (body req)));
      [split; reflexivity|].
    destruct (same_base (body req)); [split; reflexivity|].
    destruct (_ && _)%bool; [split; reflexivity|].
    rewrite !persist_run. cbn [faults entered logged with_faults].
    cbn [clock store entered logged with_faults].
    destruct f; [split; reflexivity|].
    destruct (insert_transfer _ _ _ _ _ _ _ _ _) as [d [row|]];
      [|split; reflexivity].
    split; [reflexivity|].
    cbn [snd store logged]. rewrite !audited_business_rows. reflexivity.
  - rewrite !(create_assignment_run req u _ Hu).
    destruct (negb (complete PostAssignments (body req)));
      [split; reflexivity|].
    destruct (_ && _)%bool; [split; reflexivity|].
    rewrite !persist_run. cbn [faults entered logged with_faults].
    cbn [clock store entered logged with_faults].
    destruct f; [split; reflexivity|].
    destruct (insert_assignment _ _ _ _ _ _ _ _ _) as [d [row|]];
      [|split; reflexivity].
    split; [reflexivity|].
    cbn [snd store logged]. rewrite !audited_business_rows. reflexivity.
Qed.

Lemma error_handler_fst (a b : outcome response * world) :
  fst a = fst b -> fst (error_handler a) = fst (error_handler b).
Proof.
  destruct a as [[|ra] wa], b as [[|rb] wb]; cbn; intros H;
    try discriminate H; try reflexivity.
  inversion H; reflexivity.
Qed.

Lemma error_handler_store (a : outcome response * world) :
  store (snd (error_handler a)) = store (snd a).
Proof. destruct a as [[|ra] wa]; reflexivity. Qed.

(** [C9] A create that is answered 201 has sent exactly two statements,
    its insert and one audit insert, before answering; the created record
    is on store; when the audit round trip goes through, the audit log has
    exactly one new entry, of the entity type of the create, with the id
    of the created record, the acting user and the action CREATE; when it
    fails, the failure is logged to the operational log and the audit log
    is as it was.  Whether the audit round trip fails changes neither the
    answer to the caller nor the business tables. *)
Theorem create_is_audited_once :
  forall (e : endpoint) (req : request) (w : world) (f : bool)
         (fs : list bool),
    is_create e = true ->
    (status (fst (app e req w)) = 201 ->
     exists u id,
       authenticated w req u /\
       created_id (data (fst (app e req w))) = Some id /\
       persisted (data (fst (app e req w))) (store (snd (app e req w))) /\
       trace (snd (app e req w))
       = (trace w ++ [InsertInto (table_of e); InsertInto "audit_logs"])%list /\
       ((nth 1 (faults w) false = false /\
         exists a,
           tbl_audit_logs (store (snd (app e req w)))
           = (tbl_audit_logs (store w) ++ [a])%list /\
           al_entity_type a = entity_of e /\
           al_entity_id a = Some id /\
           al_action a = "CREATE" /\
           al_user_id a = Some (user_id u) /\
           al_timestamp a = clock w)
        \/ (nth 1 (faults w) false = true /\
            tbl_audit_logs (store (snd (app e req w)))
            = tbl_audit_logs (store w) /\
            In (Error, AuditFailed) (oplog (snd (app e req w))))))
    /\ (fst (app e req (with_faults (f :: true :: fs) w))
        = fst (app e req (with_faults (f :: false :: fs) w)) /\
        business_rows (store (snd (app e req (with_faults (f :: true :: fs) w))))
        = business_rows
            (store (snd (app e req (with_faults (f :: false :: fs) w))))).
Proof.
  intros e req w f fs He.
  destruct (admitted req) eqn:Hadm.
  2:{ rewrite !(app_refused _ _ _ Hadm). split.
      - intros Hs. discriminate Hs.
      - split; reflexivity. }
  rewrite !(app_admitted _ _ _ Hadm). split.
  - intros Hs.
    destruct (app_create_cases e req w He)
      as [(_ & Hn) | (u & d & rd & id & msg & what & details & Hu & _ & _ & _
                      & Hf & Hi & Hid & Ha)].
    { contradiction. }
    exists u, id. rewrite Ha. cbn [fst snd data created].
    destruct (insert_of_row _ _ _ _ _ _ _ Hi) as (Hp & Hal & _).
    destruct (insert_of_creator _ _ _ _ _ _ _ Hi) as (Hrange & Hacc).
    split; [exact Hu|]. split; [exact Hid|]. split; [|split].
    + apply persisted_business_rows with d; [|exact Hp].
      cbn [store logged]. rewrite audited_business_rows. reflexivity.
    + cbn [trace logged]. rewrite audited_trace. cbn [trace set_store sent entered logged].
      rewrite <- app_assoc. reflexivity.
    + cbn [store oplog logged].
      destruct (audited_entry (user_id u) "CREATE" (entity_of e) id details
                  (set_store d (sent (InsertInto (table_of e)) (entered w)))
                  Hrange Hacc)
        as [(Hh & a & Hl & Ht & Hei & Hac & Hui & Hts)
           | (Hh & Hl & Hin)];
        cbn [faults set_store sent entered logged] in Hh;
        rewrite second_fault in Hh;
        cbn [store set_store] in Hl; rewrite Hal in Hl.
      * left. split; [exact Hh|]. exists a. repeat split; assumption.
      * right. split; [exact Hh|]. split; [exact Hl|].
        apply in_or_app. left. exact Hin.
  - destruct (behind_create e He) as (Hp & _).
    destruct (app_header_cases e req w Hp)
      as [Hb | [(token & Hb & Hv) | (u & Hu)]].
    + rewrite !(app_no_token e _ _ Hp Hb). split; reflexivity.
    + rewrite (app_bad_token e req (with_faults (f :: true :: fs) w) token Hp Hb Hv),
              (app_bad_token e req (with_faults (f :: false :: fs) w) token Hp Hb Hv).
      split; reflexivity.
    + destruct (includes (allowed_roles e) (user_role u)) eqn:Hi.
      * rewrite (app_create_allowed e req _ u He
                   (authenticated_with_faults (f :: true :: fs) w req u Hu) Hi),
                (app_create_allowed e req _ u He
                   (authenticated_with_faults (f :: false :: fs) w req u Hu) Hi).
        destruct (create_handler_audit_fault e (set_user u (arriving req)) u w
                    f fs He eq_refl) as (H1 & H2).
        split; [apply error_handler_fst, H1|].
        rewrite !error_handler_store. exact H2.
      * rewrite (app_create_denied e req _ u He
                   (authenticated_with_faults (f :: true :: fs) w req u Hu) Hi),
                (app_create_denied e req _ u He
                   (authenticated_with_faults (f :: false :: fs) w req u Hu) Hi).
        split; reflexivity.
Qed.

(* ================================================================== *)
(** * The statements on the sample installation *)

(** The scenario of base Alpha: assets 250 + 100 + 300 + 15, purchases 50,
    transfers in 100 and out 30. *)
Example alpha_dashboard :
  fst (app GetDashboardMetrics (request_of "alpha-token" [] []) sample_world)
  = ok (MetricsData (mkMetrics 665 785 120 50 100 30 1 40)).
Proof. vm_compute. reflexivity. Qed.

(** An admin creates a Purchase for base 3, a commander for the own
    base: both are answered 201 and audited.  The store refuses an
    admin's Purchase for a base that is not on record, one with a
    negative cost and one whose date it does not read: 500. *)
Example admin_purchase_any_base :
  let payload b c d := [("base_id", JNum b); ("equipment_type_id", JNum 1);
                        ("quantity", JNum 10); ("cost", c);
                        ("purchase_date", JStr d)] in
  let by_admin b c d :=
    app PostPurchases (request_of "admin-token" [] (payload b c d))
      sample_world in
  let by_commander :=
    app PostPurchases
      (request_of "alpha-token" [] (payload 1 (JNum 900) "2024-03-01"))
      sample_world in
  status (fst (by_admin 3 (JNum 900) "2024-03-01")) = 201 /\
  status (fst by_commander) = 201 /\
  map al_entity_type
    (tbl_audit_logs (store (snd (by_admin 3 (JNum 900) "2024-03-01"))))
  = ["PURCHASE"] /\
  map al_entity_id
    (tbl_audit_logs (store (snd (by_admin 3 (JNum 900) "2024-03-01"))))
  = [Some 3] /\
  status (fst (by_admin 99 (JNum 900) "2024-03-01")) = 500 /\
  status (fst (by_admin 3 (JNum (-1)) "2024-03-01")) = 500 /\
  status (fst (by_admin 3 (JNum 900) "next week")) = 500 /\
  tbl_purchases (store (snd (by_admin 99 (JNum 900) "2024-03-01")))
  = tbl_purchases sample_db.
Proof. vm_compute. repeat split. Qed.

Lemma dashboard_balance_formula_witness :
  safe (50 + 100) /\ safe (50 + 100 - 30) /\ safe (665 + (50 + 100 - 30)) /\
  netMovement (computeMetrics 665 50 100 30 1 40) = 50 + 100 - 30 /\
  closingBalance (computeMetrics 665 50 100 30 1 40) = 665 + 50 + 100 - 30.
Proof.
  assert (H1 : safe (50 + 100)) by (vm_compute; discriminate).
  assert (H2 : safe (50 + 100 - 30)) by (vm_compute; discriminate).
  assert (H3 : safe (665 + (50 + 100 - 30))) by (vm_compute; discriminate).
  split; [exact H1|]. split; [exact H2|]. split; [exact H3|].
  destruct (proj1 (proj2 (dashboard_balance_formula 665 50 100 30 1 40
                            (request_of "alpha-token" [] []) sample_world))
              H1 H2 H3) as (Hn & _ & Hc).
  split; [exact Hn | exact Hc].
Defined.




Lemma create_checks_in_order_witness :
  let req := request_of "alpha-token" []
               [("from_base_id", JNum 2); ("to_base_id", JNum 2)] in
  is_create PostTransfers = true /\
  admitted req = true /\
  authenticated sample_world req alpha_commander /\
  includes (allowed_roles PostTransfers) (user_role alpha_commander) = true /\
  complete PostTransfers (body req) = false /\
  same_base (body req) = true /\
  fst (app PostTransfers req sample_world)
  = failure 400 (required_message PostTransfers).
Proof.
  intros req.
  assert (Ha : authenticated sample_world req alpha_commander)
    by (exists "alpha-token"; split; reflexivity).
  split; [reflexivity|]. split; [reflexivity|]. split; [exact Ha|].
  split; [reflexivity|]. split; [reflexivity|]. split; [reflexivity|].
  exact (proj1 (proj1 (proj2 (create_checks_in_order PostTransfers req
                                sample_world alpha_commander eq_refl eq_refl
                                Ha))
                  eq_refl eq_refl)).
Defined.

Lemma logistics_creates_witness :
  let req := request_of "logistics-token" []
               [("base_id", JNum 4); ("equipment_type_id", JNum 1);
                ("quantity", JNum 10); ("purchase_date", JStr "2024-03-01")] in
  admitted req = true /\
  authenticated sample_world req logistics_officer /\
  user_role logistics_officer = logistics /\
  kind (fst (app PostPurchases req sample_world)) = Some Forbidden /\
  kind (fst (app PostTransfers req sample_world)) <> Some Forbidden.
Proof.
  intros req.
  assert (Ha : authenticated sample_world req logistics_officer)
    by (exists "logistics-token"; split; reflexivity).
  split; [reflexivity|]. split; [exact Ha|]. split; [reflexivity|].
  destruct (logistics_creates req sample_world logistics_officer Ha eq_refl)
    as (_ & Happ).
  destruct (Happ eq_refl) as ((Hk & _) & Ht).
  split; [exact Hk | exact Ht].
Defined.


Lemma token_check_comes_first_witness :
  let req := mkRequest None None [] false [] None in
  let req' := mkRequest (Some "https://example.org")
                (Some "Bearer admin-token") [] false [] None in
  protected GetPurchases = true /\
  admitted req = true /\
  bearer (authorization req) = None /\
  app GetPurchases req sample_world
  = (failure 401 "Access token required. Please login to continue.",
     entered sample_world) /\
  cors_origin (origin req') = false /\
  status (fst (app GetPurchases req' sample_world)) = 500.
Proof.
  intros req req'.
  split; [reflexivity|]. split; [reflexivity|]. split; [reflexivity|].
  destruct (token_check_comes_first GetPurchases req sample_world eq_refl)
    as (H1 & _).
  destruct (token_check_comes_first GetPurchases req' sample_world eq_refl)
    as (_ & H2 & _).
  split; [exact (proj1 (H1 eq_refl) eq_refl)|].
  split; [reflexivity|].
  rewrite (H2 (or_introl eq_refl)). reflexivity.
Defined.

Lemma create_is_audited_once_witness :
  let req := request_of "logistics-token" []
               [("from_base_id", JNum 1); ("to_base_id", JNum 2);
                ("equipment_type_id", JNum 1); ("quantity", JNum 5);
                ("transfer_date", JStr "2024-03-01")] in
  let w := with_faults [false; true] sample_world in
  is_create PostTransfers = true /\
  status (fst (app PostTransfers req w)) = 201 /\
  tbl_audit_logs (store (snd (app PostTransfers req w))) = [] /\
  (exists u id,
      authenticated w req u /\
      created_id (data (fst (app PostTransfers req w))) = Some id /\
      persisted (data (fst (app PostTransfers req w)))
        (store (snd (app PostTransfers req w)))) /\
  fst (app PostTransfers req (with_faults [false; true] sample_world))
  = fst (app PostTransfers req (with_faults [false; false] sample_world)).
Proof.
  intros req w.
  split; [reflexivity|].
  assert (Hs : status (fst (app PostTransfers req w)) = 201)
    by (vm_compute; reflexivity).
  split; [exact Hs|]. split; [vm_compute; reflexivity|].
  destruct (create_is_audited_once PostTransfers req w false [] eq_refl)
    as (H1 & _).
  destruct (create_is_audited_once PostTransfers req sample_world false []
              eq_refl) as (_ & H2 & _).
  split; [|exact H2].
  destruct (H1 Hs) as (u & id & Hu & Hid & Hp & _).
  exists u, id. repeat split; assumption.
Defined.

Lemma dashboard_ignores_date_range_witness :
  let req := request_of "admin-token"
               [("base_id", JStr "1"); ("date_from", JStr "2024-01-01")] [] in
  let req' := request_of "admin-token"
                [("date_to", JStr "2024-12-31"); ("base_id", JStr "1")] [] in
  authorization req' = authorization req /\
  same_but_dates (query req) (query req') /\
  app GetDashboardMetrics req' sample_world
  = app GetDashboardMetrics req sample_world.
Proof.
  intros req req'.
  assert (Hq : same_but_dates (query req) (query req')).
  { intros k H1 H2. subst req req'. cbn [request_of query field].
    destruct (String.eqb_spec "base_id" k) as [E1|N1];
      destruct (String.eqb_spec "date_from" k) as [E2|N2];
      destruct (String.eqb_spec "date_to" k) as [E3|N3];
      try reflexivity; try congruence. }
  split; [reflexivity|]. split; [exact Hq|].
  exact (proj1 (proj2 (dashboard_ignores_date_range req req' sample_world
                         eq_refl Hq)) eq_refl).
Defined.


(* ------------------------------------------------------------------ *)
(** ** What the code does not do *)

(** The two equations do not hold for all non-negative integer
    aggregates: where the sums pass 2^53 they are rounded.  With
    purchases 9007201398030336 and transfers in 3 the net movement is
    9007201398030340. *)
Lemma large_aggregates_are_rounded :
  ~ (forall (o p ti to a x : Z),
        0 <= o -> 0 <= p -> 0 <= ti -> 0 <= to ->
        netMovement (computeMetrics o p ti to a x) = p + ti - to /\
        closingBalance (computeMetrics o p ti to a x)
        = o + netMovement (computeMetrics o p ti to a x)).
Proof.
  intros H.
  assert (Hn : netMovement (computeMetrics 0 9007201398030336 3 0 0 0)
               = 9007201398030340) by (vm_compute; reflexivity).
  destruct (H 0 9007201398030336 3 0 0 0) as (H1 & _); [lia | lia | lia | lia |].
  rewrite Hn in H1. discriminate H1.
Qed.


(** Not every request the token check rejects is answered 401
    (Unauthorized): a token that does not verify is answered 403. *)
Lemma invalid_token_is_answered_403 :
  ~ (forall (e : endpoint) (req : request) (w : world),
        protected e = true ->
        admitted req = true ->
        (bearer (authorization req) = None \/
         exists token, bearer (authorization req) = Some token /\
                       jwt_verify w token = None) ->
        kind (fst (app e req w)) = Some Unauthorized).
Proof.
  intros H.
  specialize (H GetPurchases (request_of "forged" [] []) sample_world eq_refl
                eq_refl).
  assert (Hk : kind (fst (app GetPurchases (request_of "forged" [] [])
                            sample_world)) = Some Forbidden)
    by (vm_compute; reflexivity).
  rewrite Hk in H.
  assert (Hc : Some Forbidden = Some Unauthorized).
  { apply H. right. exists "forged". split; reflexivity. }
  discriminate Hc.
Qed.

(** A missing required field is not answered 400 (ValidationError)
    whatever the role: a logistics user who creates a Purchase with an
    empty payload is answered 403. *)
Lemma role_check_precedes_required_fields :
  ~ (forall (e : endpoint) (req : request) (w : world) (u : User),
        is_create e = true ->
        admitted req = true ->
        authenticated w req u ->
        complete e (body req) = false ->
        kind (fst (app e req w)) = Some ValidationError).
Proof.
  intros H.
  specialize (H PostPurchases (request_of "logistics-token" [] [])
                sample_world logistics_officer eq_refl eq_refl).
  assert (Hk : kind (fst (app PostPurchases
                            (request_of "logistics-token" [] [])
                            sample_world)) = Some Forbidden)
    by (vm_compute; reflexivity).
  rewrite Hk in H.
  assert (Hc : Some Forbidden = Some ValidationError).
  { apply H; [|reflexivity]. exists "logistics-token". split; reflexivity. }
  discriminate Hc.
Qed.


(* ================================================================== *)
(** * Further properties of the application *)

(** ** The audit-log endpoint *)

Lemma app_audit_logs_allowed (req : request) (w : world) (u : User) :
  authenticated w req u ->
  user_role u = admin ->
  routed GetAuditLogs req w =
  error_handler (get_audit_logs (set_user u (arriving req)) (entered w)).
Proof.
  intros Hu Hr. rewrite (app_authenticated GetAuditLogs req w u eq_refl Hu).
  cbn [behind]. unfold chain, bind.
  rewrite (checkRole_allowed [admin] (set_user u (arriving req)) u _ eq_refl)
    by (rewrite Hr; reflexivity).
  reflexivity.
Qed.

Lemma audit_logs_are_for_admins_aux (req : request) (w : world) (u : User) :
  authenticated w req u ->
  user_role u <> admin ->
  routed GetAuditLogs req w =
  (failure 403
     "Access denied. You do not have permission to perform this action.",
   logged Warn (AccessDenied (Some (user_email u)) [admin]) (entered w)).
Proof.
  intros Hu Hr.
  rewrite (app_authenticated GetAuditLogs req w u eq_refl Hu).
  cbn [behind]. unfold chain, bind.
  rewrite (checkRole_denied [admin] (set_user u (arriving req)) u _ eq_refl).
  - reflexivity.
  - destruct (user_role u); [contradiction Hr; reflexivity | |]; reflexivity.
Qed.

(** Only an admin reads the audit log: any other user is answered 403,
    the denial is logged, and neither the store nor the statements sent
    change. *)
Theorem audit_logs_are_for_admins :
  forall (req : request) (w : world) (u : User),
    admitted req = true ->
    authenticated w req u ->
    user_role u <> admin ->
    fst (app GetAuditLogs req w)
    = failure 403
        "Access denied. You do not have permission to perform this action." /\
    store (snd (app GetAuditLogs req w)) = store w /\
    trace (snd (app GetAuditLogs req w)) = trace w /\
    In (Warn, AccessDenied (Some (user_email u)) [admin])
       (oplog (snd (app GetAuditLogs req w))).
Proof.
  intros req w u Hadm Hu Hr.
  rewrite (app_admitted _ _ _ Hadm).
  rewrite (audit_logs_are_for_admins_aux req w u Hu Hr).
  repeat split. cbn. apply in_or_app. right. left. reflexivity.
Qed.


Lemma insert_desc_In (a x : audit_row) (l : list audit_row) :
  In x (insert_desc a l) <-> x = a \/ In x l.
Proof.
  induction l as [|b l IH]; cbn.
  - intuition congruence.
  - destruct (al_timestamp b <=? al_timestamp a)%Z; cbn.
    + intuition congruence.
    + rewrite IH. intuition congruence.
Qed.

Lemma order_by_timestamp_desc_In (x : audit_row) (l : list audit_row) :
  In x (order_by_timestamp_desc l) <-> In x l.
Proof.
  unfold order_by_timestamp_desc. induction l as [|a l IH]; cbn.
  - reflexivity.
  - rewrite insert_desc_In, IH. intuition congruence.
Qed.

Lemma insert_desc_newest_first (a : audit_row) (l : list audit_row) :
  newest_first l -> newest_first (insert_desc a l).
Proof.
  induction l as [|b l IH]; cbn [insert_desc newest_first].
  - intros _. split; constructor.
  - intros (Hb & Hl).
    destruct (Z.leb_spec (al_timestamp b) (al_timestamp a)) as [Hle|Hgt].
    + cbn [newest_first]. split; [|split; assumption].
      constructor; [exact Hle|].
      apply Forall_forall. intros x Hx.
      rewrite Forall_forall in Hb. specialize (Hb x Hx). lia.
    + cbn [newest_first]. split; [|apply IH, Hl].
      apply Forall_forall. intros x Hx. apply insert_desc_In in Hx.
      destruct Hx as [->|Hx]; [lia|].
      rewrite Forall_forall in Hb. apply Hb, Hx.
Qed.

Lemma order_by_timestamp_desc_newest_first (l : list audit_row) :
  newest_first (order_by_timestamp_desc l).
Proof.
  unfold order_by_timestamp_desc. induction l as [|a l IH]; cbn.
  - exact I.
  - apply insert_desc_newest_first, IH.
Qed.

Lemma newest_first_skipn (n : nat) (l : list audit_row) :
  newest_first l -> newest_first (skipn n l).
Proof.
  revert l. induction n as [|n IH]; intros [|a l]; cbn; auto.
  intros (_ & Hl). apply IH, Hl.
Qed.

Lemma newest_first_firstn (n : nat) (l : list audit_row) :
  newest_first l -> newest_first (firstn n l).
Proof.
  revert l. induction n as [|n IH]; intros [|a l]; cbn; auto.
  intros (Ha & Hl). split; [|apply IH, Hl].
  apply Forall_forall. intros x Hx.
  rewrite Forall_forall in Ha. apply Ha.
  apply (In_nth_error) in Hx. destruct Hx as (i & Hi).
  assert (Hin : In x (firstn n l)) by (eapply nth_error_In; exact Hi).
  clear - Hin. revert l Hin. induction n as [|n IH]; intros [|b l]; cbn;
    try contradiction.
  intros [->|H]; [left; reflexivity | right; apply IH, H].
Qed.

Lemma In_firstn {A} (n : nat) (l : list A) (x : A) :
  In x (firstn n l) -> In x l.
Proof.
  revert l. induction n as [|n IH]; intros [|b l]; cbn; try contradiction.
  intros [->|H]; [left; reflexivity | right; apply IH, H].
Qed.

Lemma In_skipn {A} (n : nat) (l : list A) (x : A) :
  In x (skipn n l) -> In x l.
Proof.
  revert l. induction n as [|n IH]; intros [|b l]; cbn; auto.
Qed.

(** What the audit statement selects. *)
Lemma select_audit_logs_rows (limit offset : jsval) (d : db)
    (rows : list audit_row) :
  select_audit_logs limit offset d = Some rows ->
  newest_first rows /\
  (forall a, In a rows -> In a (tbl_audit_logs d) /\ has_user d a = true) /\
  (forall n, pg_int8 limit = PgInt n ->
             0 <= n /\ (List.length rows <= Z.to_nat n)%nat) /\
  pg_int8 limit <> PgErr /\ pg_int8 offset <> PgErr /\
  (forall n, pg_int8 offset = PgInt n -> 0 <= n).
Proof.
  unfold select_audit_logs.
  set (all := order_by_timestamp_desc (filter (has_user d) (tbl_audit_logs d))).
  assert (Hs : newest_first all)
    by apply order_by_timestamp_desc_newest_first.
  assert (Hin : forall a, In a all ->
                          In a (tbl_audit_logs d) /\ has_user d a = true).
  { intros a Ha. unfold all in Ha.
    apply (proj1 (order_by_timestamp_desc_In _ _)) in Ha.
    apply filter_In in Ha. exact Ha. }
  intros H.
  assert (Hcut : exists skipped,
             rows = match pg_int8 limit with
                    | PgInt n => firstn (Z.to_nat n) skipped
                    | _ => skipped
                    end /\
             newest_first skipped /\ (forall a, In a skipped -> In a all) /\
             pg_int8 limit <> PgErr /\ pg_int8 offset <> PgErr /\
             (forall n, pg_int8 limit = PgInt n -> 0 <= n) /\
             (forall n, pg_int8 offset = PgInt n -> 0 <= n)).
  { destruct (pg_int8 limit) as [| |l] eqn:El; [discriminate H| |];
      (destruct (pg_int8 offset) as [| |o] eqn:Eo; [discriminate H| |]).
    - exists all. inversion H; subst. repeat split; auto; discriminate.
    - destruct (Z.ltb_spec o 0); [discriminate H|].
      exists (skipn (Z.to_nat o) all). inversion H; subst.
      repeat split; auto; try discriminate.
      + apply newest_first_skipn, Hs.
      + intros a. apply In_skipn.
      + intros n Hn; inversion Hn; subst; assumption.
    - destruct (Z.ltb_spec l 0); [discriminate H|].
      exists all. inversion H; subst.
      repeat split; auto; try discriminate.
      intros n Hn; inversion Hn; subst; assumption.
    - destruct (Z.ltb_spec o 0); [discriminate H|].
      destruct (Z.ltb_spec l 0); [discriminate H|].
      exists (skipn (Z.to_nat o) all). inversion H; subst.
      repeat split; auto; try discriminate.
      + apply newest_first_skipn, Hs.
      + intros a. apply In_skipn.
      + intros n Hn; inversion Hn; subst; assumption.
      + intros n Hn; inversion Hn; subst; assumption. }
  destruct Hcut as (skipped & Hr & Hss & Hsi & Hl & Ho & Hln & Hon).
  split; [|split; [|split; [|split; [|split]]]]; auto.
  - rewrite Hr. destruct (pg_int8 limit); auto. apply newest_first_firstn, Hss.
  - intros a Ha. apply Hin, Hsi. rewrite Hr in Ha.
    destruct (pg_int8 limit); auto. eapply In_firstn; exact Ha.
  - intros n Hn. split; [apply Hln, Hn|].
    rewrite Hr, Hn. apply firstn_le_length.
Qed.

Lemma default_given (v d : jsval) :
  pg_int8 v <> PgNull -> default v d = v.
Proof. destruct v; cbn; intros H; try reflexivity. contradiction H; reflexivity. Qed.

Lemma get_audit_logs_rows (req : request) (w w' : world) (r : response)
    (rows : list audit_row) :
  get_audit_logs req w = (Returned r, w') ->
  data r = AuditRows rows ->
  select_audit_logs (default (field (query req) "limit") (JNum 100))
    (default (field (query req) "offset") (JNum 0)) (store w) = Some rows.
Proof.
  unfold get_audit_logs. cbn zeta. intros H Hd.
  apply try_catch_returned in H. destruct H as [H | (w1 & _ & H)].
  - apply bind_reading_returned in H. destruct H as (rows' & Hs & H).
    inversion H; subst. cbn in Hd. inversion Hd; subst. exact Hs.
  - inversion H; subst. discriminate Hd.
Qed.

(** A page of the audit log comes only to an admin; it holds the entries
    of the audit table whose user still exists, from the newest to the
    oldest, and never more than the [limit] asked for, 100 when none is
    given. *)
Theorem audit_logs_page :
  forall (req : request) (w : world) (rows : list audit_row),
    data (fst (app GetAuditLogs req w)) = AuditRows rows ->
    (exists u, authenticated w req u /\ user_role u = admin) /\
    newest_first rows /\
    (forall a, In a rows ->
               In a (tbl_audit_logs (store w)) /\ has_user (store w) a = true) /\
    (field (query req) "limit" = JUndefined -> (List.length rows <= 100)%nat) /\
    (forall n, pg_int8 (field (query req) "limit") = PgInt n ->
               (List.length rows <= Z.to_nat n)%nat).
Proof.
  intros req w rows Hd.
  destruct (admitted req) eqn:Hadm;
    [rewrite (app_admitted _ _ _ Hadm) in Hd
    | rewrite (app_refused _ _ _ Hadm) in Hd; discriminate Hd].
  destruct (app_header_cases GetAuditLogs req w eq_refl)
    as [Hb | [(token & Hb & Hv) | (u & Hu)]].
  { rewrite (app_no_token GetAuditLogs _ _ eq_refl Hb) in Hd. discriminate Hd. }
  { rewrite (app_bad_token GetAuditLogs _ _ _ eq_refl Hb Hv) in Hd.
    discriminate Hd. }
  assert (Hr : user_role u = admin).
  { destruct (user_role u) eqn:E; [reflexivity | |];
      rewrite (audit_logs_are_for_admins_aux req w u Hu) in Hd
        by (rewrite E; discriminate);
      discriminate Hd. }
  rewrite (app_audit_logs_allowed req w u Hu Hr) in Hd.
  destruct (get_audit_logs _ _) as [[|r] w'] eqn:E; [discriminate Hd|].
  cbn in Hd. pose proof (get_audit_logs_rows _ _ _ _ _ E Hd) as Hs.
  cbn [store entered logged query set_user arriving] in Hs.
  destruct (select_audit_logs_rows _ _ _ _ Hs) as (Hn & Hin & Hlim & _).
  split; [exists u; split; assumption|].
  split; [exact Hn|]. split; [exact Hin|]. split.
  - intros Hl. rewrite Hl in Hlim. cbn [default is_undefined] in Hlim.
    destruct (Hlim 100 eq_refl) as (_ & H). exact H.
  - intros n Hl.
    rewrite default_given in Hlim by (rewrite Hl; discriminate).
    destruct (Hlim n Hl) as (_ & H). exact H.
Qed.



(** ** Every route catches its own failures *)

Lemma returns_ret {A} (a : A) : returns (ret a).
Proof. intros w. exists a, w. reflexivity. Qed.

Lemma returns_logger (l : level) (m : log_msg) : returns (logger l m).
Proof. intros w. eexists _, _. reflexivity. Qed.

Lemma returns_bind {A B} (m : M A) (k : A -> M B) :
  returns m -> (forall a, returns (k a)) -> returns (bind m k).
Proof.
  intros Hm Hk w. destruct (Hm w) as (a & w1 & E).
  destruct (Hk a w1) as (b & w2 & E2).
  exists b, w2. unfold bind. rewrite E. exact E2.
Qed.

Lemma returns_try_catch {A} (body handler : M A) :
  returns handler -> returns (try_catch body handler).
Proof.
  intros Hh w. unfold try_catch. destruct (body w) as [[|a] w1].
  - apply Hh.
  - exists a, w1. reflexivity.
Qed.

Lemma returns_rescue {A} (l : level) (m : log_msg) (r : A) :
  returns (logger l m ;; ret r).
Proof. apply returns_bind; [apply returns_logger | intros _; apply returns_ret]. Qed.

Lemma returns_authenticateToken (req : request) :
  returns (authenticateToken req).
Proof.
  intros w. unfold authenticateToken.
  destruct (bearer (authorization req)) as [token|].
  - destruct (jwt_verify w token); eexists _, _; reflexivity.
  - eexists _, _; reflexivity.
Qed.

Lemma returns_checkRole (roles : list Role) (req : request) :
  returns (checkRole roles req).
Proof.
  unfold checkRole.
  destruct (match user req with Some u => _ | None => _ end).
  - apply returns_ret.
  - apply returns_rescue.
Qed.

Lemma returns_chain (ms : list middleware) (h : request -> M response) :
  Forall (fun m => forall req, returns (m req)) ms ->
  (forall req, returns (h req)) ->
  forall req, returns (chain ms h req).
Proof.
  intros Hms Hh. induction Hms as [|m ms Hm _ IH]; intros req; cbn.
  - apply Hh.
  - apply returns_bind; [apply Hm|].
    intros [r|req']; [apply returns_ret | apply IH].
Qed.

Lemma returns_route (e : endpoint) (req : request) : returns (route e req).
Proof.
  assert (Ha : forall r, returns (authenticateToken r))
    by apply returns_authenticateToken.
  assert (Hc : forall roles r, returns (checkRole roles r))
    by (intros; apply returns_checkRole).
  destruct e; cbn [route];
    try (apply returns_chain;
         [repeat constructor; auto | clear req; intros req];
         apply returns_try_catch, returns_rescue).
  intros w. eexists _, _. reflexivity.
Qed.

(** The global error handler answers only what the CORS filter or the
    body parsers refuse: for a request they let through, whatever it is
    and however the store fails, the route itself returns the answer. *)
Theorem routes_catch_their_failures :
  forall (e : endpoint) (req : request) (w : world),
    admitted req = true ->
    exists r,
      route e (arriving req) (entered w) = (Returned r, snd (app e req w)) /\
      fst (app e req w) = r.
Proof.
  intros e req w Hadm. rewrite !(app_admitted _ _ _ Hadm).
  destruct (returns_route e (arriving req) (entered w)) as (r & w' & E).
  exists r. unfold routed, bind, logger. fold (entered w). rewrite E.
  split; reflexivity.
Qed.


(** ** What requests keep of the store *)

Section RoutePreserves.
Variable P : db -> Prop.
Hypothesis audit_keeps : forall l n d, P d -> P (set_audit_logs l n d).
Hypothesis purchase_keeps :
  forall b e q c pd s n by_ now d,
    P d -> P (fst (insert_purchase b e q c pd s n by_ now d)).
Hypothesis transfer_keeps :
  forall f t e q td n by_ now d,
    P d -> P (fst (insert_transfer f t e q td n by_ now d)).
Hypothesis assignment_keeps :
  forall b e p sn ad n by_ now d,
    P d -> P (fst (insert_assignment b e p sn ad n by_ now d)).

Ltac keeping :=
  repeat first
    [ apply preserves_ret
    | apply preserves_throw
    | apply preserves_logger
    | apply preserves_reading
    | apply preserves_logAudit; [exact audit_keeps]
    | apply preserves_try_catch
    | apply preserves_bind; [|intros ?]
    | match goal with
      | |- preserves _ (match ?x with _ => _ end) => destruct x
      end ].

Lemma route_preserves (e : endpoint) (req : request) :
  preserves P (route e req).
Proof.
  assert (Ha : forall r, preserves P (authenticateToken r))
    by (intros r; apply preserves_authenticateToken).
  assert (Hc : forall roles r, preserves P (checkRole roles r))
    by (intros roles r; apply preserves_checkRole).
  destruct e; cbn [route];
    try (apply preserves_chain;
         [repeat constructor; auto | clear req; intros req]).
  - unfold dashboard_metrics; cbn zeta; keeping.
  - unfold get_purchases, listing; keeping.
  - unfold create_purchase; cbn zeta; keeping.
    apply preserves_pool_query. intros now d. apply purchase_keeps.
  - unfold get_transfers, listing; keeping.
  - unfold create_transfer; cbn zeta; keeping.
    apply preserves_pool_query. intros now d. apply transfer_keeps.
  - unfold get_assignments, listing; keeping.
  - unfold create_assignment; cbn zeta; keeping.
    apply preserves_pool_query. intros now d. apply assignment_keeps.
  - unfold get_bases; keeping.
  - unfold get_equipment_types; keeping.
  - unfold get_audit_logs; cbn zeta; keeping.
  - intros w o w' H Hw. inversion H; subst; exact Hw.
Qed.

Lemma routed_preserves (e : endpoint) (req : request) (w : world) :
  P (store w) -> P (store (snd (routed e req w))).
Proof.
  intros Hw. unfold routed, bind, logger.
  destruct (route e (arriving req) (logged Info IncomingRequest w))
    as [[|r] w'] eqn:E;
    apply (route_preserves _ _ _ _ _ E Hw).
Qed.

Lemma app_preserves (e : endpoint) (req : request) (w : world) :
  P (store w) -> P (store (snd (app e req w))).
Proof.
  intros Hw. destruct (app_world e req w) as [E | E]; rewrite E.
  - apply routed_preserves, Hw.
  - exact Hw.
Qed.

Lemma serve_preserves (rs : list (endpoint * request)) (w : world) :
  P (store w) -> P (store (serve rs w)).
Proof.
  revert w. induction rs as [|[e req] rs IH]; intros w Hw; cbn.
  - exact Hw.
  - apply IH, app_preserves, Hw.
Qed.
End RoutePreserves.

Ltac reading_only :=
  repeat first
    [ apply preserves_ret
    | apply preserves_throw
    | apply preserves_logger
    | apply preserves_reading
    | apply preserves_try_catch
    | apply preserves_bind; [|intros ?]
    | match goal with
      | |- preserves _ (match ?x with _ => _ end) => destruct x
      end ].

Lemma read_route_preserves (P : db -> Prop) (e : endpoint) (req : request) :
  is_read e = true -> preserves P (route e req).
Proof.
  intros He.
  assert (Ha : forall r, preserves P (authenticateToken r))
    by (intros r; apply preserves_authenticateToken).
  assert (Hc : forall roles r, preserves P (checkRole roles r))
    by (intros roles r; apply preserves_checkRole).
  destruct e; try discriminate He; cbn [route];
    try (apply preserves_chain;
         [repeat constructor; auto | clear req; intros req]).
  - unfold dashboard_metrics; cbn zeta; reading_only.
  - unfold get_purchases, listing; reading_only.
  - unfold get_transfers, listing; reading_only.
  - unfold get_assignments, listing; reading_only.
  - unfold get_bases; reading_only.
  - unfold get_equipment_types; reading_only.
  - unfold get_audit_logs; cbn zeta; reading_only.
  - intros w o w' H Hw. inversion H; subst; exact Hw.
Qed.

Lemma routed_read_store (e : endpoint) (req : request) (w : world) :
  is_read e = true -> store (snd (routed e req w)) = store w.
Proof.
  intros He. unfold routed, bind, logger.
  destruct (route e (arriving req) (logged Info IncomingRequest w))
    as [[|r] w'] eqn:E;
    apply (read_route_preserves (fun d => d = store w) e _ He _ _ _ E
             eq_refl).
Qed.

Lemma app_read_store (e : endpoint) (req : request) (w : world) :
  is_read e = true -> store (snd (app e req w)) = store w.
Proof.
  intros He. destruct (app_world e req w) as [E | E]; rewrite E.
  - apply routed_read_store, He.
  - reflexivity.
Qed.

(** The endpoints that read leave the store as it is, whoever asks,
    whatever the query, and however the round trips go. *)
Theorem reads_leave_the_store :
  forall (e : endpoint) (req : request) (w : world),
    is_read e = true ->
    store (snd (app e req w)) = store w.
Proof. intros e req w He. apply app_read_store, He. Qed.


Lemma insert_purchase_reference (b e q c pd s n : jsval) (by_ now : Z)
    (d : db) :
  reference_tables (fst (insert_purchase b e q c pd s n by_ now d))
  = reference_tables d.
Proof.
  insert_cases (insert_purchase_cases b e q c pd s n by_ now d); reflexivity.
Qed.


Lemma insert_transfer_reference (f t e q td n : jsval) (by_ now : Z)
    (d : db) :
  reference_tables (fst (insert_transfer f t e q td n by_ now d))
  = reference_tables d.
Proof.
  insert_cases (insert_transfer_cases f t e q td n by_ now d); reflexivity.
Qed.


Lemma insert_assignment_reference (b e p sn ad n : jsval) (by_ now : Z)
    (d : db) :
  reference_tables (fst (insert_assignment b e p sn ad n by_ now d))
  = reference_tables d.
Proof.
  insert_cases (insert_assignment_cases b e p sn ad n by_ now d); reflexivity.
Qed.


(** No request writes the assets, expenditures, bases, users, equipment
    or personnel tables: after any sequence of requests they are as
    before, and so are the opening balance and the expended figure of
    every base, whatever was purchased or transferred in between. *)
Theorem reference_tables_are_never_written :
  forall (rs : list (endpoint * request)) (w : world) (b : option Z),
    reference_tables (store (serve rs w)) = reference_tables (store w) /\
    openingBalance (metrics_of_base b (store (serve rs w)))
    = openingBalance (metrics_of_base b (store w)) /\
    expended (metrics_of_base b (store (serve rs w)))
    = expended (metrics_of_base b (store w)).
Proof.
  intros rs w b.
  assert (H : reference_tables (store (serve rs w))
              = reference_tables (store w)).
  { apply (serve_preserves
             (fun d => reference_tables d = reference_tables (store w)));
      try reflexivity.
    - intros l n d Hd. exact Hd.
    - intros. rewrite insert_purchase_reference. assumption.
    - intros. rewrite insert_transfer_reference. assumption.
    - intros. rewrite insert_assignment_reference. assumption. }
  split; [exact H|].
  unfold reference_tables in H.
  assert (Has : tbl_assets (store (serve rs w)) = tbl_assets (store w))
    by congruence.
  assert (Hx : tbl_expenditures (store (serve rs w))
               = tbl_expenditures (store w))
    by congruence.
  unfold metrics_of_base. cbn. rewrite Has, Hx. split; reflexivity.
Qed.

Lemma insert_purchase_keeps_quantities (b e q c pd s n : jsval) (by_ now : Z)
    (d : db) :
  quantities_positive d ->
  quantities_positive (fst (insert_purchase b e q c pd s n by_ now d)).
Proof.
  intros (Hp & Ht).
  insert_cases (insert_purchase_cases b e q c pd s n by_ now d);
    try (split; assumption).
  destruct (purchase_checked_row _ _ _ _ _ _ _ _ _ _ _ _ Hchecked)
    as (_ & _ & _ & Hq & _).
  split; [|exact Ht]. cbn. apply Forall_app. split; [exact Hp|].
  constructor; [exact Hq | constructor].
Qed.


Lemma insert_transfer_keeps_quantities (f t e q td n : jsval) (by_ now : Z)
    (d : db) :
  quantities_positive d ->
  quantities_positive (fst (insert_transfer f t e q td n by_ now d)).
Proof.
  intros (Hp & Ht).
  insert_cases (insert_transfer_cases f t e q td n by_ now d);
    try (split; assumption).
  destruct (transfer_checked_row _ _ _ _ _ _ _ _ _ _ _ _ Hchecked)
    as (_ & _ & _ & _ & Hq & _).
  split; [exact Hp|]. cbn. apply Forall_app. split; [exact Ht|].
  constructor; [exact Hq | constructor].
Qed.


Lemma insert_assignment_keeps_quantities (b e p sn ad n : jsval)
    (by_ now : Z) (d : db) :
  quantities_positive d ->
  quantities_positive (fst (insert_assignment b e p sn ad n by_ now d)).
Proof.
  intros H.
  insert_cases (insert_assignment_cases b e p sn ad n by_ now d); exact H.
Qed.


(** Quantities on record stay positive: when every purchase and transfer
    in the store has a positive quantity, so it is after any sequence of
    requests, whatever quantities the payloads carry. *)
Theorem quantities_stay_positive :
  forall (rs : list (endpoint * request)) (w : world),
    quantities_positive (store w) ->
    quantities_positive (store (serve rs w)).
Proof.
  intros rs w. apply serve_preserves.
  - intros l n d Hd. exact Hd.
  - intros. apply insert_purchase_keeps_quantities. assumption.
  - intros. apply insert_transfer_keeps_quantities. assumption.
  - intros. apply insert_assignment_keeps_quantities. assumption.
Qed.

(** A quantity of zero counts as a missing field: for a user whose role
    may create the record, a Purchase or Transfer whose [quantity] is the
    number 0 is answered 400 with the required-fields message, and
    nothing is sent to the store. *)
Theorem zero_quantity_is_a_missing_field :
  forall (e : endpoint) (req : request) (w : world) (u : User),
    e = PostPurchases \/ e = PostTransfers ->
    admitted req = true ->
    authenticated w req u ->
    includes (allowed_roles e) (user_role u) = true ->
    field (body req) "quantity" = JNum 0 ->
    app e req w = (failure 400 (required_message e), entered w).
Proof.
  intros e req w u He Hadm Hu Hi Hq. rewrite (app_admitted _ _ _ Hadm).
  assert (Hc : complete e (body req) = false).
  { unfold complete.
    destruct He as [-> | ->]; cbn [required_fields forallb]; rewrite Hq;
      cbn [truthy Z.eqb negb andb];
      repeat (rewrite ?andb_false_r, ?andb_false_l); reflexivity. }
  assert (Hcr : is_create e = true) by (destruct He as [-> | ->]; reflexivity).
  apply (app_create_incomplete e req w u Hcr Hu Hi Hc).
Qed.


(** ** What an answer says about the store *)

Lemma answers_ret {A} (Q : A -> Prop) (a : A) : Q a -> answers Q (ret a).
Proof. intros Ha w x w' H. inversion H; subst. exact Ha. Qed.

Lemma answers_throw {A} (Q : A -> Prop) : answers Q (@throw A).
Proof. intros w x w' H. discriminate H. Qed.

Lemma answers_bind {A B} (Q : B -> Prop) (m : M A) (k : A -> M B) :
  (forall a, answers Q (k a)) -> answers Q (bind m k).
Proof.
  intros Hk w x w' H. unfold bind in H.
  destruct (m w) as [[|a] w1]; [discriminate H|]. exact (Hk a _ _ _ H).
Qed.

Lemma answers_try_catch {A} (Q : A -> Prop) (body handler : M A) :
  answers Q body -> answers Q handler -> answers Q (try_catch body handler).
Proof.
  intros Hb Hh w x w' H. unfold try_catch in H.
  destruct (body w) as [[|a] w1] eqn:E.
  - exact (Hh _ _ _ H).
  - inversion H; subst. exact (Hb _ _ _ E).
Qed.




Lemma insert_purchase_none (b e q c pd s n : jsval) (by_ now : Z)
    (d d' : db) :
  insert_purchase b e q c pd s n by_ now d = (d', None) ->
  tables d' = tables d.
Proof.
  insert_cases (insert_purchase_cases b e q c pd s n by_ now d);
    cbv zeta; intros H; inversion H; subst; reflexivity.
Qed.


Lemma insert_transfer_none (f t e q td n : jsval) (by_ now : Z) (d d' : db) :
  insert_transfer f t e q td n by_ now d = (d', None) ->
  tables d' = tables d.
Proof.
  insert_cases (insert_transfer_cases f t e q td n by_ now d);
    cbv zeta; intros H; inversion H; subst; reflexivity.
Qed.


Lemma insert_assignment_none (b e p sn ad n : jsval) (by_ now : Z)
    (d d' : db) :
  insert_assignment b e p sn ad n by_ now d = (d', None) ->
  tables d' = tables d.
Proof.
  insert_cases (insert_assignment_cases b e p sn ad n by_ now d);
    cbv zeta; intros H; inversion H; subst; reflexivity.
Qed.


(** The run of [persist], by what it answers. *)
Lemma persist_outcome {R} (table entity what okmsg label msg : string)
    (insert : Z -> db -> db * option R) (id_of : R -> Z)
    (wrap : R -> resp_data) (u : User) (details : jsobject) (w : world) :
  (forall d', insert (clock w) (store w) = (d', None) ->
              tables d' = tables (store w)) ->
  let res := try_catch (persist table entity what okmsg insert id_of wrap u
                          details) (rescue label msg) w in
  (exists r w', res = (Returned r, w') /\
                ((status r = 500 /\ tables (store w') = tables (store w))
                 \/ status r = 201)).
Proof.
  intros Hnone res. subst res. rewrite persist_run.
  destruct (insert (clock w) (store w)) as [d [row|]] eqn:E.
  - destruct (faults w) as [|[|] fs]; eexists _, _; split;
      try reflexivity; cbn; auto.
  - specialize (Hnone d eq_refl).
    destruct (faults w) as [|[|] fs]; eexists _, _; split;
      try reflexivity; cbn; auto.
Qed.

Lemma app_create_outcome (e : endpoint) (req : request) (w : world) :
  is_create e = true ->
  ((status (fst (routed e req w)) = 400 \/ status (fst (routed e req w)) = 401 \/
    status (fst (routed e req w)) = 403) /\
   store (snd (routed e req w)) = store w /\
   trace (snd (routed e req w)) = trace w)
  \/ (status (fst (routed e req w)) = 500 /\
      tables (store (snd (routed e req w))) = tables (store w))
  \/ status (fst (routed e req w)) = 201.
Proof.
  intros He.
  destruct (behind_create e He) as (Hp & _).
  destruct (app_header_cases e req w Hp)
    as [Hb | [(token & Hb & Hv) | (u & Hu)]].
  { left. rewrite (app_no_token e _ _ Hp Hb). cbn. auto. }
  { left. rewrite (app_bad_token e _ _ _ Hp Hb Hv). cbn. auto. }
  destruct (includes (allowed_roles e) (user_role u)) eqn:Hi.
  2:{ left. rewrite (app_create_denied e req w u He Hu Hi). cbn. auto. }
  rewrite (app_create_allowed e req w u He Hu Hi).
  destruct e; try discriminate He; cbn [create_handler].
  - rewrite (create_purchase_run (set_user u (arriving req)) u _ eq_refl).
    destruct (negb _); [left; cbn; auto|].
    destruct (_ && _)%bool; [left; cbn; auto|].
    right.
    match goal with
    | |- context [try_catch (persist ?t ?en ?wh ?ok ?ins ?id ?wr ?us ?de)
                    (rescue ?l ?m) ?w0] =>
        destruct (persist_outcome t en wh ok l m ins id wr us de w0)
          as (r & w' & E & H);
          [intros d'; apply insert_purchase_none | rewrite E]
    end.
    cbn [error_handler fst snd]. exact H.
  - rewrite (create_transfer_run (set_user u (arriving req)) u _ eq_refl).
    destruct (negb _); [left; cbn; auto|].
    destruct (same_base _); [left; cbn; auto|].
    destruct (_ && _)%bool; [left; cbn; auto|].
    right.
    match goal with
    | |- context [try_catch (persist ?t ?en ?wh ?ok ?ins ?id ?wr ?us ?de)
                    (rescue ?l ?m) ?w0] =>
        destruct (persist_outcome t en wh ok l m ins id wr us de w0)
          as (r & w' & E & H);
          [intros d'; apply insert_transfer_none | rewrite E]
    end.
    cbn [error_handler fst snd]. exact H.
  - rewrite (create_assignment_run (set_user u (arriving req)) u _ eq_refl).
    destruct (negb _); [left; cbn; auto|].
    destruct (_ && _)%bool; [left; cbn; auto|].
    right.
    match goal with
    | |- context [try_catch (persist ?t ?en ?wh ?ok ?ins ?id ?wr ?us ?de)
                    (rescue ?l ?m) ?w0] =>
        destruct (persist_outcome t en wh ok l m ins id wr us de w0)
          as (r & w' & E & H);
          [intros d'; apply insert_assignment_none | rewrite E]
    end.
    cbn [error_handler fst snd]. exact H.
Qed.





(** A request that is answered 500 has left every table as it was: a
    request that is not let through, a failed round trip or a row the
    engine rejects never leaves part of a record, nor an audit entry,
    behind. *)
Theorem failures_persist_nothing :
  forall (e : endpoint) (req : request) (w : world),
    status (fst (app e req w)) = 500 ->
    tables (store (snd (app e req w))) = tables (store w).
Proof.
  intros e req w Hs.
  destruct (admitted req) eqn:Hadm.
  2:{ rewrite (app_refused _ _ _ Hadm). reflexivity. }
  rewrite (app_admitted _ _ _ Hadm) in Hs |- *.
  destruct (is_create e) eqn:He.
  - destruct (app_create_outcome e req w He)
      as [(H4 & _) | [(_ & Ht) | H2]].
    + rewrite Hs in H4. destruct H4 as [H|[H|H]]; discriminate H.
    + exact Ht.
    + rewrite H2 in Hs. discriminate Hs.
  - assert (Hr : is_read e = true) by (unfold is_read; rewrite He; reflexivity).
    rewrite (routed_read_store e req w Hr). reflexivity.
Qed.


(** ** More on the dashboard *)

Lemma bind_reading_went_through {A B} (s : stmt) (f : db -> option A)
    (k : A -> M B) (w w' : world) (b : B) :
  bind (pool_query s (reading f)) k w = (Returned b, w') ->
  hd false (faults w) = false /\
  exists a, f (store w) = Some a /\ k a (sent s w) = (Returned b, w').
Proof.
  rewrite bind_reading. intros H.
  destruct (faults w) as [|[|] fs]; [| discriminate H |];
    (split; [reflexivity|]);
    (destruct (f (store w)) as [a|]; [|discriminate H]);
    exists a; split; [reflexivity | exact H | reflexivity | exact H].
Qed.

Lemma no_fault_cons (n : nat) (fs : list bool) :
  hd false fs = false -> no_fault n (tl fs) = true ->
  no_fault (S n) fs = true.
Proof.
  unfold no_fault. destruct fs as [|[|] fs]; cbn; intros H1 H2;
    try discriminate H1; try exact H2. reflexivity.
Qed.

Lemma dashboard_metrics_went_through (req : request) (w w' : world)
    (r : response) (m : metrics) :
  dashboard_metrics req w = (Returned r, w') ->
  data r = MetricsData m ->
  no_fault 6 (faults w) = true.
Proof.
  unfold dashboard_metrics. intros H Hd.
  apply try_catch_returned in H.
  destruct H as [H | (w1 & _ & H)].
  2:{ inversion H; subst. discriminate Hd. }
  destruct (user req) as [u|]; [|discriminate H]. cbn zeta in H.
  apply bind_reading_went_through in H; destruct H as (F1 & o & _ & H).
  apply bind_reading_went_through in H; destruct H as (F2 & p & _ & H).
  apply bind_reading_went_through in H; destruct H as (F3 & ti & _ & H).
  apply bind_reading_went_through in H; destruct H as (F4 & to & _ & H).
  apply bind_reading_went_through in H; destruct H as (F5 & a & _ & H).
  apply bind_reading_went_through in H; destruct H as (F6 & x & _ & H).
  cbn [faults sent] in *.
  repeat (apply no_fault_cons; [assumption|]).
  reflexivity.
Qed.

Lemma dashboard_metrics_answers (req : request) :
  answers (fun r => r = failure 500 "Failed to fetch dashboard metrics" \/
                    exists m, r = ok (MetricsData m))
    (dashboard_metrics req).
Proof.
  unfold dashboard_metrics; cbn zeta.
  apply answers_try_catch.
  - destruct (user req); [|apply answers_throw].
    repeat (apply answers_bind; intros ?).
    apply answers_ret. right. eexists. reflexivity.
  - apply answers_bind; intros _. apply answers_ret. left. reflexivity.
Qed.

Lemma returns_try_catch_dashboard (req : request) :
  returns (dashboard_metrics req).
Proof. apply returns_try_catch, returns_rescue. Qed.

(** When one of the six round trips of the dashboard fails, the answer is
    500 with the dashboard's own message: no partial figures go out. *)
Theorem dashboard_needs_all_six_round_trips :
  forall (req : request) (w : world) (u : User),
    admitted req = true ->
    authenticated w req u ->
    no_fault 6 (faults w) = false ->
    fst (app GetDashboardMetrics req w)
    = failure 500 "Failed to fetch dashboard metrics".
Proof.
  intros req w u Hadm Hu Hf. rewrite (app_admitted _ _ _ Hadm).
  rewrite (app_authenticated GetDashboardMetrics req w u eq_refl Hu).
  cbn [behind].
  destruct (returns_try_catch_dashboard (set_user u (arriving req)) (entered w))
    as (r & w' & E).
  rewrite E. cbn [error_handler fst].
  destruct (dashboard_metrics_answers _ _ _ _ E) as [-> | (m & ->)];
    [reflexivity|].
  pose proof (dashboard_metrics_went_through _ _ _ _ m E eq_refl) as Hn.
  cbn [faults entered logged] in Hn. congruence.
Qed.


Lemma where_eq_int {R} (col : R -> Z) (v : jsval) (b : Z) :
  pg_int4 v = PgInt b ->
  where_eq col (Some v) = Some (fun r => (col r =? b)%Z).
Proof. intros H. unfold where_eq. rewrite H. reflexivity. Qed.

Lemma filter_all {A} (l : list A) : filter (fun _ => true) l = l.
Proof. induction l as [|a l IH]; cbn; [reflexivity | rewrite IH; reflexivity]. Qed.

Lemma select_sum_keep {R} (qty col : R -> Z) (clause : option jsval)
    (rows : list R) (keep : R -> bool) (v : Z) :
  where_eq col clause = Some keep ->
  select_sum qty col clause rows = Some v ->
  v = parseInt (sum_of qty (filter keep rows)).
Proof.
  unfold select_sum. intros ->.
  destruct (in_range 64 _); intros H; inversion H. reflexivity.
Qed.

Lemma select_count_keep (clause : option jsval) (rows : list assignment_row)
    (keep : assignment_row -> bool) (v : Z) :
  where_eq a_base_id clause = Some keep ->
  select_count_active clause rows = Some v ->
  v = parseInt
        (Z.of_nat
           (List.length (filter (fun a => keep a && is_active a)%bool rows))).
Proof.
  unfold select_count_active. intros ->. cbn.
  intros H; inversion H. reflexivity.
Qed.

(** The metrics the dashboard answers with, for a request that got
    them. *)
Lemma app_metrics (req : request) (w : world) (m : metrics) :
  data (fst (app GetDashboardMetrics req w)) = MetricsData m ->
  exists u,
    authenticated w req u /\
    aggregates u (field (query req) "base_id") (store w) = Some m.
Proof.
  intros Hd.
  destruct (admitted req) eqn:Hadm;
    [rewrite (app_admitted _ _ _ Hadm) in Hd
    | rewrite (app_refused _ _ _ Hadm) in Hd; discriminate Hd].
  destruct (app_header_cases GetDashboardMetrics req w eq_refl)
    as [Hb | [(token & Hb & Hv) | (u & Hu)]].
  { rewrite (app_no_token GetDashboardMetrics _ _ eq_refl Hb) in Hd.
    discriminate Hd. }
  { rewrite (app_bad_token GetDashboardMetrics _ _ _ eq_refl Hb Hv) in Hd.
    discriminate Hd. }
  exists u. split; [exact Hu|].
  destruct (app_data GetDashboardMetrics req w u eq_refl Hu)
    as [Hn | (r & w' & E & Hf)]; [congruence|].
  rewrite Hf in Hd. cbn [behind] in E.
  destruct (dashboard_metrics_data _ _ _ _ _ E Hd) as (u' & Hu' & Ha).
  cbn in Hu'. inversion Hu'; subst u'. exact Ha.
Qed.

Lemma authenticated_unique (w : world) (req : request) (u u' : User) :
  authenticated w req u -> authenticated w req u' -> u = u'.
Proof. intros (t & Hb & Hv) (t' & Hb' & Hv'). congruence. Qed.

(** An admin who names a base sees the metrics of that base, the very
    figures its commander sees. *)
Theorem admin_filter_is_the_base_view :
  forall (req : request) (w : world) (u : User) (b : Z) (m : metrics),
    authenticated w req u ->
    user_role u = admin ->
    truthy (field (query req) "base_id") = true ->
    pg_int4 (field (query req) "base_id") = PgInt b ->
    data (fst (app GetDashboardMetrics req w)) = MetricsData m ->
    m = metrics_of_base (Some b) (store w).
Proof.
  intros req w u b m Hu Hr Ht Hb Hd.
  destruct (app_metrics req w m Hd) as (u' & Hu' & Ha).
  rewrite <- (authenticated_unique _ _ _ _ Hu Hu') in Ha. clear u' Hu'.
  unfold aggregates, baseFilter, transfersInFilter, transfersOutFilter in Ha.
  rewrite Hr, Ht in Ha. cbn [role_eqb andb] in Ha.
  destruct (select_sum as_quantity _ _ _) as [o|] eqn:Ho; [|discriminate].
  destruct (select_sum p_quantity _ _ _) as [p|] eqn:Hp; [|discriminate].
  destruct (select_sum t_quantity t_to_base_id _ _) as [ti|] eqn:Hti;
    [|discriminate].
  destruct (select_sum t_quantity t_from_base_id _ _) as [to|] eqn:Hto;
    [|discriminate].
  destruct (select_count_active _ _) as [a|] eqn:Hc; [|discriminate].
  destruct (select_sum x_quantity _ _ _) as [x|] eqn:Hx; [|discriminate].
  inversion Ha. unfold metrics_of_base.
  rewrite (select_sum_keep _ _ _ _ _ _ (where_eq_int _ _ b Hb) Ho),
    (select_sum_keep _ _ _ _ _ _ (where_eq_int _ _ b Hb) Hp),
    (select_sum_keep _ _ _ _ _ _ (where_eq_int _ _ b Hb) Hti),
    (select_sum_keep _ _ _ _ _ _ (where_eq_int _ _ b Hb) Hto),
    (select_count_keep _ _ _ _ (where_eq_int _ _ b Hb) Hc),
    (select_sum_keep _ _ _ _ _ _ (where_eq_int _ _ b Hb) Hx).
  reflexivity.
Qed.


(** Without a base in the query, an admin or a logistics user sees the
    metrics over the whole store. *)
Theorem unfiltered_dashboard_is_global :
  forall (req : request) (w : world) (u : User) (m : metrics),
    authenticated w req u ->
    user_role u <> commander ->
    truthy (field (query req) "base_id") = false ->
    data (fst (app GetDashboardMetrics req w)) = MetricsData m ->
    m = metrics_of_all (store w).
Proof.
  intros req w u m Hu Hr Ht Hd.
  destruct (app_metrics req w m Hd) as (u' & Hu' & Ha).
  rewrite <- (authenticated_unique _ _ _ _ Hu Hu') in Ha. clear u' Hu'.
  unfold aggregates, baseFilter, transfersInFilter, transfersOutFilter in Ha.
  assert (Hc : role_eqb (user_role u) commander = false)
    by (destruct (user_role u); [reflexivity | contradiction Hr; reflexivity
                                | reflexivity]).
  rewrite Hc, Ht in Ha. cbn [andb] in Ha.
  destruct (select_sum as_quantity _ _ _) as [o|] eqn:Ho; [|discriminate].
  destruct (select_sum p_quantity _ _ _) as [p|] eqn:Hp; [|discriminate].
  destruct (select_sum t_quantity t_to_base_id _ _) as [ti|] eqn:Hti;
    [|discriminate].
  destruct (select_sum t_quantity t_from_base_id _ _) as [to|] eqn:Hto;
    [|discriminate].
  destruct (select_count_active _ _) as [a|] eqn:Hcn; [|discriminate].
  destruct (select_sum x_quantity _ _ _) as [x|] eqn:Hx; [|discriminate].
  inversion Ha. unfold metrics_of_all.
  rewrite (select_sum_keep _ _ None _ (fun _ => true) _ eq_refl Ho),
    (select_sum_keep _ _ None _ (fun _ => true) _ eq_refl Hp),
    (select_sum_keep _ _ None _ (fun _ => true) _ eq_refl Hti),
    (select_sum_keep _ _ None _ (fun _ => true) _ eq_refl Hto),
    (select_count_keep None _ (fun _ => true) _ eq_refl Hcn),
    (select_sum_keep _ _ None _ (fun _ => true) _ eq_refl Hx).
  rewrite !filter_all. reflexivity.
Qed.


Lemma insert_purchase_exact (b e q c pd s n : jsval) (by_ now : Z) (d d' : db)
    (row : purchase_row) :
  insert_purchase b e q c pd s n by_ now d = (d', Some row) ->
  exists zb ze zq,
    pg_int4 b = PgInt zb /\ pg_int4 e = PgInt ze /\ pg_int4 q = PgInt zq /\
    0 < zq /\
    row = mkPurchase (purchases_id_seq d) zb ze zq c pd s n (Some by_) /\
    d' = set_purchases (tbl_purchases d ++ [row])%list
           (purchases_id_seq d + 1) d.
Proof.
  intros H.
  destruct (insert_purchase_some _ _ _ _ _ _ _ _ _ _ _ _ H)
    as (_ & Hc & Hrow & Hd).
  destruct (purchase_checked_row _ _ _ _ _ _ _ _ _ _ _ _ Hc)
    as (Hb & He & Hq & Hpos & _).
  exists (p_base_id row), (p_equipment_type_id row), (p_quantity row).
  repeat split; assumption.
Qed.


Lemma insert_transfer_exact (f t e q td n : jsval) (by_ now : Z) (d d' : db)
    (row : transfer_row) :
  insert_transfer f t e q td n by_ now d = (d', Some row) ->
  exists zf zt ze zq,
    pg_int4 f = PgInt zf /\ pg_int4 t = PgInt zt /\ pg_int4 e = PgInt ze /\
    pg_int4 q = PgInt zq /\ 0 < zq /\ zf <> zt /\
    row = mkTransfer (transfers_id_seq d) zf zt ze zq td pending n (Some by_) /\
    d' = set_transfers (tbl_transfers d ++ [row])%list
           (transfers_id_seq d + 1) d.
Proof.
  intros H.
  destruct (insert_transfer_some _ _ _ _ _ _ _ _ _ _ _ H)
    as (_ & Hc & Hrow & Hd).
  destruct (transfer_checked_row _ _ _ _ _ _ _ _ _ _ _ _ Hc)
    as (Hf & Ht & He & Hq & Hpos & Hne & _).
  exists (t_from_base_id row), (t_to_base_id row), (t_equipment_type_id row),
         (t_quantity row).
  repeat split; assumption.
Qed.


Lemma insert_assignment_exact (b e p sn ad n : jsval) (by_ now : Z)
    (d d' : db) (row : assignment_row) :
  insert_assignment b e p sn ad n by_ now d = (d', Some row) ->
  exists zb ze zp,
    pg_int4 b = PgInt zb /\ pg_int4 e = PgInt ze /\ pg_int4 p = PgInt zp /\
    row = mkAssignment (assignments_id_seq d) zb ze zp sn ad active n
            (Some by_) /\
    d' = set_assignments (tbl_assignments d ++ [row])%list
           (assignments_id_seq d + 1) d.
Proof.
  intros H.
  destruct (insert_assignment_some _ _ _ _ _ _ _ _ _ _ _ H)
    as (_ & Hc & Hrow & Hd).
  destruct (assignment_checked_row _ _ _ _ _ _ _ _ _ _ _ Hc)
    as (Hb & He & Hp & _).
  exists (a_base_id row), (a_equipment_type_id row), (a_personnel_id row).
  repeat split; assumption.
Qed.


Lemma audited_reference (uid : Z) (a t : string) (eid : Z) (det : jsobject)
    (w : world) :
  reference_tables (store (audited uid a t eid det w))
  = reference_tables (store w).
Proof.
  unfold audited.
  assert (H : reference_tables
                (fst (insert_audit_log uid a t eid (stringify det) (clock w)
                        (store w)))
              = reference_tables (store w)).
  { unfold insert_audit_log. destruct (negb _); [reflexivity|].
    destruct (has_account _ _); reflexivity. }
  destruct (faults w) as [|[|] fs]; try reflexivity;
    destruct (insert_audit_log _ _ _ _ _ _ _) as [d [[]|]]; exact H.
Qed.


Lemma audited_env (uid : Z) (a t : string) (eid : Z) (det : jsobject)
    (w : world) :
  jwt_verify (audited uid a t eid det w) = jwt_verify w /\
  faults (audited uid a t eid det w) = tl (faults w).
Proof.
  unfold audited.
  destruct (faults w) as [|[|] fs] eqn:E; cbn; rewrite ?E;
    try (split; reflexivity);
    destruct (insert_audit_log _ _ _ _ _ _ _) as [d [[]|]]; cbn; rewrite ?E;
    split; reflexivity.
Qed.


Lemma strict_eq_js_of_base (v : jsval) (ob : option Z) :
  strict_eq v (js_of_base ob) = true -> v = js_of_base ob.
Proof.
  destruct ob as [n|], v; cbn; try discriminate; try reflexivity.
  intros H. apply Z.eqb_eq in H. subst. reflexivity.
Qed.

Lemma own_base_bound (v : jsval) (ob : option Z) (z : Z) :
  strict_eq v (js_of_base ob) = true ->
  pg_int4 v = PgInt z ->
  ob = Some z.
Proof.
  intros Hs Hp. apply strict_eq_js_of_base in Hs. subst v.
  destruct ob as [n|]; cbn in Hp; [|discriminate Hp].
  unfold pg_int4, pg_bind in Hp. destruct (in_range 32 n); inversion Hp.
  reflexivity.
Qed.

(** The store and the environment after a create that answered with a
    record. *)
Lemma app_created (e : endpoint) (req : request) (w : world) :
  is_create e = true ->
  created_id (data (fst (app e req w))) <> None ->
  exists u d,
    authenticated w req u /\
    complete e (body req) = true /\
    (role_eqb (user_role u) commander && outside_base e u (body req))%bool
    = false /\
    insert_of e u (body req) (clock w) (store w)
    = (d, Some (data (fst (app e req w)))) /\
    status (fst (app e req w)) = 201 /\
    reference_tables (store (snd (app e req w))) = reference_tables d /\
    business_rows (store (snd (app e req w))) = business_rows d /\
    jwt_verify (snd (app e req w)) = jwt_verify w /\
    faults (snd (app e req w)) = tl (tl (faults w)).
Proof.
  intros He Hid.
  destruct (admitted req) eqn:Hadm;
    [rewrite !(app_admitted _ _ _ Hadm) in *
    | rewrite (app_refused _ _ _ Hadm) in Hid; contradiction Hid; reflexivity].
  destruct (app_create_cases e req w He)
    as [(Hn & _) | (u & d & rd & id & msg & what & details & Hu & _ & Hc & Ho
                    & _ & Hi & _ & Ha)].
  { rewrite Hn in Hid. contradiction Hid. reflexivity. }
  exists u, d. rewrite Ha. cbn [fst snd data created status].
  cbn [store logged jwt_verify faults].
  destruct (audited_env (user_id u) "CREATE" (entity_of e) id details
              (set_store d (sent (InsertInto (table_of e)) (entered w))))
    as (Hj & Hf).
  rewrite audited_reference, audited_business_rows, Hj, Hf.
  repeat split; auto.
Qed.

(** What the application creates bears its mark: a created Purchase,
    Transfer or Assignment names the acting user as its creator; a
    Transfer starts as pending and an Assignment as active; quantities
    are positive; and what a commander creates is for the commander's own
    base (for a Transfer, as its from-base or its to-base). *)
Theorem created_records_bear_their_mark :
  forall (e : endpoint) (req : request) (w : world),
    is_create e = true ->
    status (fst (app e req w)) = 201 ->
    exists u,
      authenticated w req u /\
      match data (fst (app e req w)) with
      | PurchaseData row =>
          e = PostPurchases /\
          p_created_by row = Some (user_id u) /\
          0 < p_quantity row /\
          (user_role u = commander -> user_base_id u = Some (p_base_id row))
      | TransferData row =>
          e = PostTransfers /\
          t_created_by row = Some (user_id u) /\
          t_status row = pending /\
          0 < t_quantity row /\
          (user_role u = commander ->
           user_base_id u = Some (t_from_base_id row) \/
           user_base_id u = Some (t_to_base_id row))
      | AssignmentData row =>
          e = PostAssignments /\
          a_created_by row = Some (user_id u) /\
          a_status row = active /\
          (user_role u = commander -> user_base_id u = Some (a_base_id row))
      | _ => False
      end.
Proof.
  intros e req w He Hs.
  destruct (admitted req) eqn:Hadm;
    [rewrite !(app_admitted _ _ _ Hadm) in *
    | rewrite (app_refused _ _ _ Hadm) in Hs; discriminate Hs].
  destruct (app_create_cases e req w He)
    as [(_ & Hn) | (u & d & rd & id & msg & what & details & Hu & _ & Hc & Ho
                    & _ & Hi & _ & Ha)].
  { contradiction. }
  exists u. split; [exact Hu|]. rewrite Ha. cbn [fst data created].
  assert (Hcm : user_role u = commander ->
                outside_base e u (body req) = false).
  { intros Hr. rewrite Hr in Ho. exact Ho. }
  destruct e; try discriminate He; cbn [insert_of] in Hi.
  - destruct (insert_purchase _ _ _ _ _ _ _ _ _ _) as [d1 [row|]] eqn:E;
      cbn [option_map] in Hi; [|discriminate Hi].
    inversion Hi; subst d1 rd.
    destruct (insert_purchase_exact _ _ _ _ _ _ _ _ _ _ _ _ E)
      as (zb & ze & zq & Hb & _ & _ & Hq & -> & _).
    cbn. repeat split; auto.
    intros Hr. specialize (Hcm Hr). cbn [outside_base] in Hcm.
    apply negb_false_iff in Hcm. exact (own_base_bound _ _ _ Hcm Hb).
  - destruct (insert_transfer _ _ _ _ _ _ _ _ _) as [d1 [row|]] eqn:E;
      cbn [option_map] in Hi; [|discriminate Hi].
    inversion Hi; subst d1 rd.
    destruct (insert_transfer_exact _ _ _ _ _ _ _ _ _ _ _ E)
      as (zf & zt & ze & zq & Hf & Ht & _ & _ & Hq & _ & -> & _).
    cbn. repeat split; auto.
    intros Hr. specialize (Hcm Hr). cbn [outside_base] in Hcm.
    apply andb_false_iff in Hcm.
    destruct Hcm as [H|H]; apply negb_false_iff in H.
    + left. exact (own_base_bound _ _ _ H Hf).
    + right. exact (own_base_bound _ _ _ H Ht).
  - destruct (insert_assignment _ _ _ _ _ _ _ _ _) as [d1 [row|]] eqn:E;
      cbn [option_map] in Hi; [|discriminate Hi].
    inversion Hi; subst d1 rd.
    destruct (insert_assignment_exact _ _ _ _ _ _ _ _ _ _ _ E)
      as (zb & ze & zp & Hb & _ & _ & -> & _).
    cbn. repeat split; auto.
    intros Hr. specialize (Hcm Hr). cbn [outside_base] in Hcm.
    apply negb_false_iff in Hcm. exact (own_base_bound _ _ _ Hcm Hb).
Qed.

(** ** A create, then the dashboard and the listing *)

Lemma sum_of_app {R} (qty : R -> Z) (l l' : list R) :
  sum_of qty (l ++ l') = sum_of qty l + sum_of qty l'.
Proof.
  unfold sum_of. induction l as [|a l IH]; cbn; [reflexivity|].
  rewrite IH. lia.
Qed.

Lemma sum_of_filter_snoc {R} (qty : R -> Z) (keep : R -> bool) (l : list R)
    (row : R) :
  sum_of qty (filter keep (l ++ [row]))
  = sum_of qty (filter keep l) + (if keep row then qty row else 0).
Proof.
  rewrite filter_app, sum_of_app. cbn [filter].
  destruct (keep row); cbn; lia.
Qed.

Lemma table_parts (d d' : db) :
  reference_tables d' = reference_tables d ->
  business_rows d' = business_rows d ->
  tbl_bases d' = tbl_bases d /\
  tbl_equipment_types d' = tbl_equipment_types d /\
  tbl_personnel d' = tbl_personnel d /\
  tbl_assets d' = tbl_assets d /\
  tbl_expenditures d' = tbl_expenditures d /\
  tbl_purchases d' = tbl_purchases d /\
  tbl_transfers d' = tbl_transfers d /\
  tbl_assignments d' = tbl_assignments d.
Proof.
  unfold reference_tables, business_rows. intros H1 H2.
  repeat split; congruence.
Qed.



(** After a Transfer is created, the transfers into its to-base and the
    transfers out of its from-base are higher by its quantity, and the
    dashboards show them as the Numbers they are read as; nothing else
    moves. *)
Theorem transfer_moves_the_dashboard :
  forall (req : request) (w : world) (row : transfer_row) (b : option Z),
    data (fst (app PostTransfers req w)) = TransferData row ->
    let q_in := if own b (t_to_base_id row) then t_quantity row else 0 in
    let q_out := if own b (t_from_base_id row) then t_quantity row else 0 in
    let m := metrics_of_base b (store w) in
    moved_in b (store (snd (app PostTransfers req w)))
    = moved_in b (store w) + q_in /\
    moved_out b (store (snd (app PostTransfers req w)))
    = moved_out b (store w) + q_out /\
    metrics_of_base b (store (snd (app PostTransfers req w)))
    = computeMetrics (openingBalance m) (purchases m)
        (parseInt (moved_in b (store w) + q_in))
        (parseInt (moved_out b (store w) + q_out)) (assigned m) (expended m).
Proof.
  intros req w row b Hd.
  destruct (app_created PostTransfers req w eq_refl)
    as (u & d & _ & _ & _ & Hi & _ & Hr & Hb & _).
  { rewrite Hd. discriminate. }
  rewrite Hd in Hi. cbn [insert_of] in Hi.
  destruct (insert_transfer _ _ _ _ _ _ _ _ _) as [d1 [row'|]] eqn:E;
    cbn [option_map] in Hi; [|discriminate Hi].
  inversion Hi; subst d1 row'.
  destruct (insert_transfer_exact _ _ _ _ _ _ _ _ _ _ _ E)
    as (zf & zt & ze & zq & _ & _ & _ & _ & _ & _ & _ & Hd').
  destruct (table_parts _ _ Hr Hb)
    as (_ & _ & _ & Has & Hx & Hp & Ht & Ha).
  cbv zeta. unfold metrics_of_base, moved_in, moved_out.
  rewrite Has, Hx, Hp, Ht, Ha. rewrite Hd'.
  cbn [tbl_assets tbl_expenditures tbl_purchases tbl_transfers
       tbl_assignments set_transfers].
  rewrite (sum_of_filter_snoc t_quantity (fun r => own b (t_to_base_id r))).
  rewrite (sum_of_filter_snoc t_quantity (fun r => own b (t_from_base_id r))).
  repeat split; reflexivity.
Qed.


(** After an Assignment is created, one more asset is on assignment at
    its base, and the dashboard of the base counts it; nothing else
    moves. *)
Theorem assignment_moves_the_dashboard :
  forall (req : request) (w : world) (row : assignment_row) (b : option Z),
    data (fst (app PostAssignments req w)) = AssignmentData row ->
    let n := if own b (a_base_id row) then 1 else 0 in
    let m := metrics_of_base b (store w) in
    on_assignment b (store (snd (app PostAssignments req w)))
    = on_assignment b (store w) + n /\
    metrics_of_base b (store (snd (app PostAssignments req w)))
    = computeMetrics (openingBalance m) (purchases m) (transferIn m)
        (transferOut m) (parseInt (on_assignment b (store w) + n))
        (expended m).
Proof.
  intros req w row b Hd.
  destruct (app_created PostAssignments req w eq_refl)
    as (u & d & _ & _ & _ & Hi & _ & Hr & Hb & _).
  { rewrite Hd. discriminate. }
  rewrite Hd in Hi. cbn [insert_of] in Hi.
  destruct (insert_assignment _ _ _ _ _ _ _ _ _) as [d1 [row'|]] eqn:E;
    cbn [option_map] in Hi; [|discriminate Hi].
  inversion Hi; subst d1 row'.
  destruct (insert_assignment_exact _ _ _ _ _ _ _ _ _ _ _ E)
    as (zb & ze & zp & _ & _ & _ & Hrow & Hd').
  destruct (table_parts _ _ Hr Hb)
    as (_ & _ & _ & Has & Hx & Hp & Ht & Ha).
  assert (Hcount :
            on_assignment b (store (snd (app PostAssignments req w)))
            = on_assignment b (store w)
              + (if own b (a_base_id row) then 1 else 0)).
  { unfold on_assignment. rewrite Ha, Hd'.
    cbn [tbl_assignments set_assignments].
    rewrite filter_app, length_app. cbn [filter].
    assert (Hact : is_active row = true) by (rewrite Hrow; reflexivity).
    rewrite Hact, andb_true_r.
    destruct (own b (a_base_id row)); cbn [List.length]; lia. }
  cbv zeta. split; [exact Hcount|].
  rewrite <- Hcount. unfold metrics_of_base, on_assignment.
  rewrite Has, Hx, Hp, Ht. rewrite Hd' at 1 2 3 4 5.
  reflexivity.
Qed.


Lemma third_fault (fs : list bool) :
  hd false (tl (tl fs)) = nth 2 fs false.
Proof. destruct fs as [|f [|g [|h fs]]]; reflexivity. Qed.

(** A Purchase that was just created is in the listing its creator asks
    for next, when the round trip of the listing goes through: its base
    and its equipment type are on record, as the foreign keys ask, and
    for a commander it is for the own base. *)
Theorem created_purchase_is_listed :
  forall (req : request) (w : world) (row : purchase_row),
    data (fst (app PostPurchases req w)) = PurchaseData row ->
    nth 2 (faults w) false = false ->
    exists rows,
      data (fst (app GetPurchases req (snd (app PostPurchases req w))))
      = PurchaseRows rows /\
      In row rows.
Proof.
  intros req w row Hd Hf.
  assert (Hadm : admitted req = true).
  { destruct (admitted req) eqn:Hadm; [reflexivity|].
    rewrite (app_refused _ _ _ Hadm) in Hd. discriminate Hd. }
  destruct (app_created PostPurchases req w eq_refl)
    as (u & d & Hu & Hc & Ho & Hi & _ & Hr & Hb & Hj & Hfs).
  { rewrite Hd. discriminate. }
  set (w1 := snd (app PostPurchases req w)) in *.
  rewrite Hd in Hi. cbn [insert_of] in Hi.
  destruct (insert_purchase _ _ _ _ _ _ _ _ _ _) as [d1 [row'|]] eqn:E;
    cbn [option_map] in Hi; [|discriminate Hi].
  inversion Hi; subst d1 row'.
  destruct (insert_purchase_some _ _ _ _ _ _ _ _ _ _ _ _ E)
    as (_ & Hck & Hrow & Hd').
  destruct (purchase_checked_row _ _ _ _ _ _ _ _ _ _ _ _ Hck)
    as (Hzb & _ & _ & _ & _ & _ & _ & Hhb & Hhe & _).
  destruct (table_parts _ _ Hr Hb)
    as (Hbs & Heq & _ & _ & _ & Hp & _ & _).
  assert (Hu1 : authenticated w1 req u).
  { destruct Hu as (token & Hb1 & Hv). exists token. rewrite Hj.
    split; assumption. }
  assert (Hkeep : exists keep,
             where_eq p_base_id (commander_clause u) = Some keep /\
             keep row = true).
  { unfold commander_clause.
    destruct (role_eqb (user_role u) commander) eqn:Hrole.
    - cbn [andb] in Ho. cbn [outside_base] in Ho.
      apply negb_false_iff in Ho.
      pose proof (strict_eq_js_of_base _ _ Ho) as Hv. rewrite Hv in Hzb.
      rewrite (where_eq_int p_base_id _ _ Hzb).
      eexists. split; [reflexivity|]. cbn. apply Z.eqb_refl.
    - eexists. split; [reflexivity|]. reflexivity. }
  destruct Hkeep as (keep & Hw & Hk).
  rewrite (app_admitted _ _ _ Hadm).
  rewrite (app_authenticated GetPurchases req w1 u eq_refl Hu1).
  cbn [behind]. unfold get_purchases, listing, try_catch.
  cbn [user set_user arriving].
  assert (Hsel : select_purchases (commander_clause u) (store (entered w1))
                 = Some (filter
                           (fun p => keep p && has_base (store w1) (p_base_id p)
                                     && has_equipment (store w1)
                                          (p_equipment_type_id p))%bool
                           (tbl_purchases (store w1)))).
  { unfold select_purchases. rewrite Hw. reflexivity. }
  assert (Hgo : hd false (faults (entered w1)) = false)
    by (cbn [faults entered logged]; rewrite Hfs, third_fault; exact Hf).
  rewrite (bind_reading_ok _ _ _ (entered w1) _ Hgo Hsel).
  cbn [error_handler fst data ok ret].
  eexists. split; [reflexivity|].
  apply filter_In. split.
  - rewrite Hp, Hd'. cbn [tbl_purchases set_purchases].
    apply in_or_app. right. left. reflexivity.
  - rewrite Hk. unfold has_base, has_equipment. rewrite Hbs, Heq, Hd'.
    cbn [tbl_bases tbl_equipment_types set_purchases].
    unfold has_base in Hhb. unfold has_equipment in Hhe.
    rewrite Hhb, Hhe. reflexivity.
Qed.


Lemma other_roles_have_no_clause (u : User) :
  user_role u <> commander -> commander_clause u = None.
Proof.
  intros Hr. unfold commander_clause.
  destruct (user_role u); [reflexivity | contradiction Hr; reflexivity
                          | reflexivity].
Qed.

Lemma app_rows (e : endpoint) (req : request) (w : world) (u : User) :
  protected e = true ->
  authenticated w req u ->
  data (fst (app e req w)) <> NoData ->
  exists r w', behind e (set_user u (arriving req)) (entered w)
               = (Returned r, w') /\
               fst (app e req w) = r.
Proof.
  intros Hp Hu Hd.
  destruct (admitted req) eqn:Hadm;
    [rewrite (app_admitted _ _ _ Hadm) in *
    | rewrite (app_refused _ _ _ Hadm) in Hd; contradiction Hd; reflexivity].
  destruct (app_data e req w u Hp Hu) as [Hn | H]; [contradiction|exact H].
Qed.

(** An admin and a logistics user are listed every purchase, transfer
    and assignment whose parent rows exist, of every base (in the order
    the statement puts them). *)
Theorem listings_are_whole_for_other_roles :
  forall (req : request) (w : world) (u : User),
    authenticated w req u ->
    user_role u <> commander ->
    (forall rows,
        data (fst (app GetPurchases req w)) = PurchaseRows rows ->
        Permutation rows
          (filter (fun p => has_base (store w) (p_base_id p)
                            && has_equipment (store w)
                                 (p_equipment_type_id p))%bool
             (tbl_purchases (store w))))
    /\ (forall rows,
           data (fst (app GetTransfers req w)) = TransferRows rows ->
           Permutation rows
             (filter (fun t => has_base (store w) (t_from_base_id t)
                               && has_base (store w) (t_to_base_id t)
                               && has_equipment (store w)
                                    (t_equipment_type_id t))%bool
                (tbl_transfers (store w))))
    /\ (forall rows,
           data (fst (app GetAssignments req w)) = AssignmentRows rows ->
           Permutation rows
             (filter (fun a => has_equipment (store w)
                                 (a_equipment_type_id a)
                               && has_base (store w) (a_base_id a)
                               && has_personnel (store w)
                                    (a_personnel_id a))%bool
                (tbl_assignments (store w)))).
Proof.
  intros req w u Hu Hr.
  pose proof (other_roles_have_no_clause u Hr) as Hc.
  split; [|split]; intros rows Hd.
  - destruct (app_rows GetPurchases req w u eq_refl Hu)
      as (r & w' & Hb & Hf); [rewrite Hd; discriminate|].
    rewrite Hf in Hd. cbn [behind] in Hb. unfold get_purchases in Hb.
    destruct (listing_rows _ _ _ _ _ (set_user u (arriving req)) u _ _ _
                eq_refl Hb)
      as [Hn | (rows' & Hs & Hw)]; [congruence|].
    rewrite Hw in Hd. inversion Hd; subst rows'.
    rewrite Hc in Hs. cbn [store entered logged] in Hs.
    unfold select_purchases, where_eq in Hs. cbn [option_map] in Hs.
    inversion Hs. apply Permutation_refl.
  - destruct (app_rows GetTransfers req w u eq_refl Hu)
      as (r & w' & Hb & Hf); [rewrite Hd; discriminate|].
    rewrite Hf in Hd. cbn [behind] in Hb. unfold get_transfers in Hb.
    destruct (listing_rows _ _ _ _ _ (set_user u (arriving req)) u _ _ _
                eq_refl Hb)
      as [Hn | (rows' & Hs & Hw)]; [congruence|].
    rewrite Hw in Hd. inversion Hd; subst rows'.
    rewrite Hc in Hs. cbn [store entered logged] in Hs.
    unfold select_transfers, where_eq in Hs.
    inversion Hs. apply Permutation_refl.
  - destruct (app_rows GetAssignments req w u eq_refl Hu)
      as (r & w' & Hb & Hf); [rewrite Hd; discriminate|].
    rewrite Hf in Hd. cbn [behind] in Hb. unfold get_assignments in Hb.
    destruct (listing_rows _ _ _ _ _ (set_user u (arriving req)) u _ _ _
                eq_refl Hb)
      as [Hn | (rows' & Hs & Hw)]; [congruence|].
    rewrite Hw in Hd. inversion Hd; subst rows'.
    rewrite Hc in Hs. cbn [store entered logged] in Hs.
    unfold select_assignments, where_eq in Hs. cbn [option_map] in Hs.
    inversion Hs. apply Permutation_refl.
Qed.


(** ** The Authorization header *)

Lemma split_no_blank (s : string) :
  no_blank s = true -> split " " s = [s].
Proof.
  induction s as [|c s IH]; cbn; [reflexivity|].
  destruct (Ascii.eqb c " "); cbn; [discriminate|].
  intros H. rewrite (IH H). reflexivity.
Qed.

Lemma split_first_word (s t : string) :
  no_blank s = true ->
  split " " (s ++ String " " t) = s :: split " " t.
Proof.
  induction s as [|c s IH]; cbn.
  - reflexivity.
  - destruct (Ascii.eqb c " "); cbn; [discriminate|].
    intros H. rewrite (IH H). reflexivity.
Qed.

(** The token is the second blank-separated word of the header, and the
    first word is not looked at: any scheme word carries the token; a
    header of one word, or one with two blanks after the scheme, carries
    none. *)
Theorem bearer_is_the_second_word :
  forall (scheme token : string),
    no_blank scheme = true ->
    no_blank token = true ->
    (token <> "" -> bearer (Some (scheme ++ " " ++ token)) = Some token) /\
    bearer (Some scheme) = None /\
    bearer (Some (scheme ++ "  " ++ token)) = None.
Proof.
  intros scheme token Hs Ht. unfold bearer. split; [|split].
  - intros Hne.
    change (scheme ++ " " ++ token) with (scheme ++ String " " token).
    rewrite (split_first_word _ _ Hs), (split_no_blank _ Ht). cbn.
    destruct token; [contradiction Hne; reflexivity | reflexivity].
  - rewrite (split_no_blank _ Hs). reflexivity.
  - change (scheme ++ "  " ++ token)
      with (scheme ++ String " " (String " " token)).
    rewrite (split_first_word _ _ Hs). cbn. reflexivity.
Qed.

(** ** The client *)

Lemma app_dashboard_depends (req req' : request) (w : world) :
  authorization req' = authorization req ->
  field (query req') "base_id" = field (query req) "base_id" ->
  routed GetDashboardMetrics req' w = routed GetDashboardMetrics req w.
Proof.
  intros Hh Hq.
  destruct (app_header_cases GetDashboardMetrics req w eq_refl)
    as [Hb | [(token & Hb & Hv) | (u & Hu)]].
  - rewrite (app_no_token GetDashboardMetrics req _ eq_refl Hb).
    apply app_no_token; [reflexivity | rewrite Hh; exact Hb].
  - rewrite (app_bad_token GetDashboardMetrics req _ _ eq_refl Hb Hv).
    apply app_bad_token with token;
      [reflexivity | rewrite Hh; exact Hb | exact Hv].
  - rewrite (app_authenticated GetDashboardMetrics req _ _ eq_refl Hu).
    rewrite (app_authenticated GetDashboardMetrics req' _ u eq_refl
               (authenticated_same_header _ _ _ _ Hh Hu)).
    cbn [behind].
    rewrite (dashboard_metrics_depends (set_user u (arriving req'))
               (set_user u (arriving req))); [reflexivity | reflexivity |].
    exact Hq.
Qed.

Lemma filterParams_has_no_base_id (f : filters) :
  field (filterParams f) "base_id" = JUndefined.
Proof.
  unfold filterParams, param.
  destruct (startDate f =? "")%string, (endDate f =? "")%string,
           (baseId f =? "")%string, (equipmentTypeId f =? "")%string;
    reflexivity.
Qed.

(** The filters of the dashboard page never reach the server's filter:
    the page sends them as [startDate], [endDate], [baseId] and
    [equipmentTypeId], the handler reads [base_id], so whatever the
    filters, [loadMetrics] shows what it shows without any. *)
Theorem dashboard_page_filters_change_nothing :
  forall (f : filters) (c : ApiService) (w : world),
    loadMetrics f c w = loadMetrics (mkFilters "" "" "" "") c w.
Proof.
  intros f c w. unfold loadMetrics, getDashboardMetrics, api_request.
  set (req := mkRequest (api_origin c) (authorization_of c) (filterParams f)
                false [] None).
  set (req' := mkRequest (api_origin c) (authorization_of c)
                 (filterParams (mkFilters "" "" "" "")) false [] None).
  assert (H : app GetDashboardMetrics req' w = app GetDashboardMetrics req w).
  { destruct (admitted req) eqn:Hadm.
    - rewrite (app_admitted _ req w Hadm), (app_admitted _ req' w Hadm).
      apply app_dashboard_depends; [reflexivity|].
      unfold req, req'. cbn [query].
      rewrite !filterParams_has_no_base_id. reflexivity.
    - rewrite (app_refused _ req w Hadm), (app_refused _ req' w Hadm).
      reflexivity. }
  rewrite H. reflexivity.
Qed.


Lemma authorization_of_token (c : ApiService) (t : string) :
  api_token c = Some t -> t <> "" -> no_blank t = true ->
  bearer (authorization_of c) = Some t.
Proof.
  intros Hc Hne Ht. unfold authorization_of. rewrite Hc.
  destruct (String.eqb_spec t "") as [->|_]; [contradiction Hne; reflexivity|].
  unfold bearer.
  change ("Bearer " ++ t) with ("Bearer" ++ String " " t).
  rewrite (split_first_word "Bearer" t eq_refl), (split_no_blank _ Ht). cbn.
  destruct t; [contradiction Hne; reflexivity | reflexivity].
Qed.

(** A permission denial ends the session of the client: when a logistics
    user with a valid token calls [createPurchase] from an origin the
    server lets in, the promise is rejected with the access-denied
    message and the service has dropped its token, as it does on every
    401 and 403; the store is untouched. *)
Theorem denied_create_drops_the_token :
  forall (payload : jsobject) (c : ApiService) (w : world) (t : string)
         (u : User),
    cors_origin (api_origin c) = true ->
    api_token c = Some t ->
    t <> "" ->
    no_blank t = true ->
    jwt_verify w t = Some u ->
    user_role u = logistics ->
    exists w',
      createPurchase payload c w =
      (Rejected
         "Access denied. You do not have permission to perform this action.",
       mkApi (api_origin c) None, w') /\
      store w' = store w.
Proof.
  intros payload c w t u Ho Hc Hne Ht Hv Hr.
  set (req := mkRequest (api_origin c) (authorization_of c) [] false payload
                None).
  assert (Hadm : admitted req = true)
    by (unfold admitted, req; cbn [origin unreadable]; rewrite Ho; reflexivity).
  assert (Hu : authenticated w req u).
  { exists t. split; [apply authorization_of_token; assumption | exact Hv]. }
  assert (Hi : includes (allowed_roles PostPurchases) (user_role u) = false)
    by (rewrite Hr; reflexivity).
  unfold createPurchase, api_request. fold req.
  rewrite (app_admitted _ _ _ Hadm).
  rewrite (app_create_denied PostPurchases _ w u eq_refl Hu Hi).
  eexists. split; reflexivity.
Qed.


(** ** The CORS origin function *)

Lemma endsWith_spec (s suffix : string) :
  endsWith s suffix = true <-> exists p, s = p ++ suffix.
Proof.
  induction s as [|c s IH]; cbn [endsWith].
  - rewrite orb_false_r. split.
    + intros H. apply String.eqb_eq in H. exists "". exact H.
    + intros (p & H). apply String.eqb_eq.
      destruct p; cbn in H; [exact H | discriminate H].
  - rewrite orb_true_iff, IH. split.
    + intros [H | (p & H)].
      * apply String.eqb_eq in H. exists "". exact H.
      * exists (String c p). cbn. rewrite H. reflexivity.
    + intros (p & H). destruct p as [|c' p]; cbn in H.
      * left. apply String.eqb_eq. exact H.
      * right. inversion H. exists p. reflexivity.
Qed.

(** Which origins the CORS filter lets in: a request without an Origin
    header (or with an empty one), the local development origin, and
    every origin that ends in [.vercel.app], whatever comes before; the
    production origin of the allow-list is one of the latter. *)
Theorem cors_origin_spec :
  forall (origin : option string),
    cors_origin origin = true <->
    (origin = None \/ origin = Some "" \/
     origin = Some "http://localhost:3000" \/
     exists p, origin = Some (p ++ ".vercel.app")).
Proof.
  intros [o|]; cbn [cors_origin]; [|split; auto].
  unfold allowedOrigins. cbn [existsb].
  rewrite orb_false_r.
  rewrite !orb_true_iff, endsWith_spec, !String.eqb_eq.
  split.
  - intros [[H | [H | H]] | (p & H)]; subst; auto.
    + right. right. right. exists "https://military-database". reflexivity.
    + right. right. right. exists p. reflexivity.
  - intros [H | [H | [H | (p & H)]]]; try discriminate H; inversion H; subst;
      auto.
    right. exists p. reflexivity.
Qed.

(* ================================================================== *)
(** * The further properties on the sample installation *)

Lemma audit_logs_are_for_admins_witness :
  let req := request_of "alpha-token" [] [] in
  admitted req = true /\
  authenticated sample_world req alpha_commander /\
  user_role alpha_commander <> admin /\
  status (fst (app GetAuditLogs req sample_world)) = 403 /\
  trace (snd (app GetAuditLogs req sample_world)) = trace sample_world.
Proof.
  intros req.
  assert (Ha : authenticated sample_world req alpha_commander)
    by (exists "alpha-token"; split; reflexivity).
  assert (Hr : user_role alpha_commander <> admin) by discriminate.
  split; [reflexivity|]. split; [exact Ha|]. split; [exact Hr|].
  destruct (audit_logs_are_for_admins req sample_world alpha_commander
              eq_refl Ha Hr) as (Hk & _ & Ht & _).
  split; [rewrite Hk; reflexivity | exact Ht].
Defined.

Lemma audit_logs_page_witness :
  let w1 :=
    snd (app PostPurchases
           (request_of "admin-token" []
              [("base_id", JNum 3); ("equipment_type_id", JNum 1);
               ("quantity", JNum 10); ("purchase_date", JStr "2024-03-01")])
           sample_world) in
  let req := request_of "admin-token" [("limit", JStr "5")] [] in
  exists rows,
    data (fst (app GetAuditLogs req w1)) = AuditRows rows /\
    map al_entity_type rows = ["PURCHASE"] /\
    newest_first rows /\
    (List.length rows <= 5)%nat.
Proof.
  intros w1 req.
  assert (H : { rows | data (fst (app GetAuditLogs req w1)) = AuditRows rows /\
                       map al_entity_type rows = ["PURCHASE"] }).
  { eexists. split; reflexivity. }
  destruct H as (rows & Hd & Hm).
  exists rows.
  destruct (audit_logs_page req w1 rows Hd) as (_ & Hn & _ & _ & Hl).
  split; [exact Hd|]. split; [exact Hm|]. split; [exact Hn|].
  apply (Hl 5). reflexivity.
Defined.


Lemma routes_catch_their_failures_witness :
  let req := request_of "admin-token" []
               [("base_id", JNum 99); ("equipment_type_id", JNum 1);
                ("quantity", JNum 10); ("purchase_date", JStr "2024-03-01")] in
  admitted req = true /\
  exists r,
    route PostPurchases (arriving req) (entered sample_world)
    = (Returned r, snd (app PostPurchases req sample_world)) /\
    fst (app PostPurchases req sample_world) = r /\
    status r = 500.
Proof.
  intros req. split; [reflexivity|].
  destruct (routes_catch_their_failures PostPurchases req sample_world
              eq_refl) as (r & Hr & Hf).
  exists r. split; [exact Hr|]. split; [exact Hf|].
  rewrite <- Hf. reflexivity.
Defined.

Lemma reads_leave_the_store_witness :
  is_read GetTransfers = true /\
  store (snd (app GetTransfers (request_of "logistics-token" [] [])
                sample_world))
  = sample_db.
Proof.
  split; [reflexivity|].
  exact (reads_leave_the_store GetTransfers
           (request_of "logistics-token" [] []) sample_world eq_refl).
Defined.

Lemma quantities_stay_positive_witness :
  let rs :=
    [(PostPurchases,
      request_of "admin-token" []
        [("base_id", JNum 3); ("equipment_type_id", JNum 1);
         ("quantity", JNum (-4)); ("purchase_date", JStr "2024-03-01")]);
     (PostTransfers,
      request_of "logistics-token" []
        [("from_base_id", JNum 1); ("to_base_id", JNum 2);
         ("equipment_type_id", JNum 1); ("quantity", JNum 5);
         ("transfer_date", JStr "2024-03-01")])] in
  quantities_positive (store sample_world) /\
  quantities_positive (store (serve rs sample_world)).
Proof.
  intros rs.
  assert (H : quantities_positive (store sample_world))
    by (split; repeat constructor).
  split; [exact H|].
  exact (quantities_stay_positive rs sample_world H).
Defined.

Lemma zero_quantity_is_a_missing_field_witness :
  let req := request_of "admin-token" []
               [("base_id", JNum 3); ("equipment_type_id", JNum 1);
                ("quantity", JNum 0); ("purchase_date", JStr "2024-03-01")] in
  admitted req = true /\
  authenticated sample_world req admin_user /\
  field (body req) "quantity" = JNum 0 /\
  fst (app PostPurchases req sample_world)
  = failure 400 (required_message PostPurchases).
Proof.
  intros req.
  assert (Ha : authenticated sample_world req admin_user)
    by (exists "admin-token"; split; reflexivity).
  split; [reflexivity|]. split; [exact Ha|]. split; [reflexivity|].
  rewrite (zero_quantity_is_a_missing_field PostPurchases req
             sample_world admin_user (or_introl eq_refl) eq_refl Ha eq_refl
             eq_refl).
  reflexivity.
Defined.


Lemma failures_persist_nothing_witness :
  let req := request_of "admin-token" []
               [("base_id", JNum 3); ("equipment_type_id", JNum 1);
                ("quantity", JNum (-4)); ("purchase_date", JStr "2024-03-01")] in
  status (fst (app PostPurchases req sample_world)) = 500 /\
  tables (store (snd (app PostPurchases req sample_world)))
  = tables sample_db /\
  purchases_id_seq (store (snd (app PostPurchases req sample_world)))
  = purchases_id_seq sample_db + 1.
Proof.
  intros req.
  assert (Hs : status (fst (app PostPurchases req sample_world)) = 500)
    by reflexivity.
  split; [exact Hs|]. split; [|reflexivity].
  exact (failures_persist_nothing PostPurchases req sample_world Hs).
Defined.

Lemma dashboard_needs_all_six_round_trips_witness :
  let req := request_of "admin-token" [] [] in
  let w := with_faults [false; false; false; false; false; true]
             sample_world in
  admitted req = true /\
  authenticated w req admin_user /\
  no_fault 6 (faults w) = false /\
  fst (app GetDashboardMetrics req w)
  = failure 500 "Failed to fetch dashboard metrics".
Proof.
  intros req w.
  assert (Ha : authenticated w req admin_user)
    by (exists "admin-token"; split; reflexivity).
  split; [reflexivity|]. split; [exact Ha|]. split; [reflexivity|].
  exact (dashboard_needs_all_six_round_trips req w admin_user eq_refl Ha
           eq_refl).
Defined.

Lemma admin_filter_is_the_base_view_witness :
  let req := request_of "admin-token" [("base_id", JStr "1")] [] in
  authenticated sample_world req admin_user /\
  pg_int4 (field (query req) "base_id") = PgInt 1 /\
  data (fst (app GetDashboardMetrics req sample_world))
  = MetricsData (mkMetrics 665 785 120 50 100 30 1 40) /\
  mkMetrics 665 785 120 50 100 30 1 40 = metrics_of_base (Some 1) sample_db.
Proof.
  intros req.
  assert (Ha : authenticated sample_world req admin_user)
    by (exists "admin-token"; split; reflexivity).
  assert (Hd : data (fst (app GetDashboardMetrics req sample_world))
               = MetricsData (mkMetrics 665 785 120 50 100 30 1 40))
    by reflexivity.
  split; [exact Ha|]. split; [reflexivity|]. split; [exact Hd|].
  exact (admin_filter_is_the_base_view req sample_world admin_user 1 _ Ha
           eq_refl eq_refl eq_refl Hd).
Defined.

Lemma unfiltered_dashboard_is_global_witness :
  let req := request_of "logistics-token" [] [] in
  authenticated sample_world req logistics_officer /\
  user_role logistics_officer <> commander /\
  data (fst (app GetDashboardMetrics req sample_world))
  = MetricsData (mkMetrics 1365 1420 55 55 133 133 2 65) /\
  mkMetrics 1365 1420 55 55 133 133 2 65 = metrics_of_all sample_db.
Proof.
  intros req.
  assert (Ha : authenticated sample_world req logistics_officer)
    by (exists "logistics-token"; split; reflexivity).
  assert (Hr : user_role logistics_officer <> commander) by discriminate.
  assert (Hd : data (fst (app GetDashboardMetrics req sample_world))
               = MetricsData (mkMetrics 1365 1420 55 55 133 133 2 65))
    by reflexivity.
  split; [exact Ha|]. split; [exact Hr|]. split; [exact Hd|].
  exact (unfiltered_dashboard_is_global req sample_world logistics_officer _
           Ha Hr eq_refl Hd).
Defined.

Lemma created_records_bear_their_mark_witness :
  let req := request_of "alpha-token" []
               [("from_base_id", JNum 1); ("to_base_id", JNum 3);
                ("equipment_type_id", JNum 1); ("quantity", JNum 5);
                ("transfer_date", JStr "2024-03-01")] in
  is_create PostTransfers = true /\
  status (fst (app PostTransfers req sample_world)) = 201 /\
  exists u row,
    authenticated sample_world req u /\
    data (fst (app PostTransfers req sample_world)) = TransferData row /\
    t_created_by row = Some (user_id u) /\
    t_status row = pending.
Proof.
  intros req.
  assert (Hs : status (fst (app PostTransfers req sample_world)) = 201)
    by reflexivity.
  split; [reflexivity|]. split; [exact Hs|].
  destruct (created_records_bear_their_mark PostTransfers req sample_world
              eq_refl Hs) as (u & Ha & Hm).
  exists u.
  destruct (data (fst (app PostTransfers req sample_world))) eqn:Hd;
    try (destruct Hm as (He & _); discriminate He);
    try (exfalso; exact Hm).
  destruct Hm as (_ & Hc & Hp & _).
  eexists. split; [exact Ha|]. split; [reflexivity|].
  split; [exact Hc | exact Hp].
Defined.


Lemma transfer_moves_the_dashboard_witness :
  let req := request_of "logistics-token" []
               [("from_base_id", JNum 1); ("to_base_id", JNum 2);
                ("equipment_type_id", JNum 1); ("quantity", JNum 5);
                ("transfer_date", JStr "2024-03-01")] in
  let row := mkTransfer 4 1 2 1 5 (JStr "2024-03-01") pending JUndefined
               (Some 4) in
  let d' := store (snd (app PostTransfers req sample_world)) in
  data (fst (app PostTransfers req sample_world)) = TransferData row /\
  moved_out (Some 1) d' = moved_out (Some 1) sample_db + 5 /\
  moved_in (Some 2) d' = moved_in (Some 2) sample_db + 5 /\
  metrics_of_base (Some 3) d' = metrics_of_base (Some 3) sample_db.
Proof.
  intros req row d'.
  assert (Hd : data (fst (app PostTransfers req sample_world))
               = TransferData row) by reflexivity.
  split; [exact Hd|].
  unfold d'. split; [|split].
  - exact (proj1 (proj2 (transfer_moves_the_dashboard req sample_world row
                           (Some 1) Hd))).
  - exact (proj1 (transfer_moves_the_dashboard req sample_world row (Some 2)
                    Hd)).
  - rewrite (proj2 (proj2 (transfer_moves_the_dashboard req sample_world row
                             (Some 3) Hd))).
    reflexivity.
Defined.

Lemma assignment_moves_the_dashboard_witness :
  let req := request_of "alpha-token" []
               [("asset_id", JNum 1); ("personnel_id", JNum 1);
                ("base_id", JNum 1); ("equipment_type_id", JNum 1);
                ("assignment_date", JStr "2024-03-01")] in
  let row := mkAssignment 3 1 1 1 JUndefined (JStr "2024-03-01") active
               JUndefined (Some 2) in
  let d' := store (snd (app PostAssignments req sample_world)) in
  data (fst (app PostAssignments req sample_world)) = AssignmentData row /\
  on_assignment (Some 1) d' = on_assignment (Some 1) sample_db + 1 /\
  metrics_of_base (Some 2) d' = metrics_of_base (Some 2) sample_db.
Proof.
  intros req row d'.
  assert (Hd : data (fst (app PostAssignments req sample_world))
               = AssignmentData row) by reflexivity.
  split; [exact Hd|].
  unfold d'. split.
  - exact (proj1 (assignment_moves_the_dashboard req sample_world row
                    (Some 1) Hd)).
  - rewrite (proj2 (assignment_moves_the_dashboard req sample_world row
                      (Some 2) Hd)).
    reflexivity.
Defined.

Lemma created_purchase_is_listed_witness :
  let req := request_of "alpha-token" []
               [("base_id", JNum 1); ("equipment_type_id", JNum 3);
                ("quantity", JNum 20); ("purchase_date", JStr "2024-03-01")] in
  let row := mkPurchase 3 1 3 20 JUndefined (JStr "2024-03-01") JUndefined
               JUndefined (Some 2) in
  data (fst (app PostPurchases req sample_world)) = PurchaseData row /\
  exists rows,
    data (fst (app GetPurchases req
                 (snd (app PostPurchases req sample_world))))
    = PurchaseRows rows /\
    In row rows.
Proof.
  intros req row.
  assert (Hd : data (fst (app PostPurchases req sample_world))
               = PurchaseData row) by reflexivity.
  split; [exact Hd|].
  exact (created_purchase_is_listed req sample_world row Hd eq_refl).
Defined.

Lemma listings_are_whole_for_other_roles_witness :
  let req := request_of "logistics-token" [] [] in
  authenticated sample_world req logistics_officer /\
  user_role logistics_officer <> commander /\
  exists rows,
    data (fst (app GetTransfers req sample_world)) = TransferRows rows /\
    Permutation rows (tbl_transfers sample_db).
Proof.
  intros req.
  assert (Ha : authenticated sample_world req logistics_officer)
    by (exists "logistics-token"; split; reflexivity).
  assert (Hr : user_role logistics_officer <> commander) by discriminate.
  split; [exact Ha|]. split; [exact Hr|].
  destruct (listings_are_whole_for_other_roles req sample_world
              logistics_officer Ha Hr) as (_ & Ht & _).
  assert (H : { rows | data (fst (app GetTransfers req sample_world))
                       = TransferRows rows }).
  { eexists. reflexivity. }
  destruct H as (rows & Hd).
  exists rows. split; [exact Hd|].
  exact (Ht rows Hd).
Defined.

Lemma bearer_is_the_second_word_witness :
  no_blank "Token" = true /\
  no_blank "alpha-token" = true /\
  bearer (Some "Token alpha-token") = Some "alpha-token" /\
  bearer (Some "Token") = None /\
  bearer (Some "Token  alpha-token") = None.
Proof.
  split; [reflexivity|]. split; [reflexivity|].
  destruct (bearer_is_the_second_word "Token" "alpha-token" eq_refl eq_refl)
    as (H1 & H2 & H3).
  split; [apply H1; discriminate|]. split; [exact H2 | exact H3].
Defined.

Lemma denied_create_drops_the_token_witness :
  let payload := [("base_id", JNum 3); ("equipment_type_id", JNum 1);
                  ("quantity", JNum 10);
                  ("purchase_date", JStr "2024-03-01")] in
  let c := mkApi (Some "http://localhost:3000") (Some "logistics-token") in
  cors_origin (api_origin c) = true /\
  api_token c = Some "logistics-token" /\
  no_blank "logistics-token" = true /\
  jwt_verify sample_world "logistics-token" = Some logistics_officer /\
  user_role logistics_officer = logistics /\
  exists w',
    createPurchase payload c sample_world =
    (Rejected
       "Access denied. You do not have permission to perform this action.",
     mkApi (Some "http://localhost:3000") None, w') /\
    store w' = sample_db.
Proof.
  intros payload c.
  split; [reflexivity|].
  split; [reflexivity|]. split; [reflexivity|]. split; [reflexivity|].
  split; [reflexivity|].
  refine (denied_create_drops_the_token payload c sample_world
            "logistics-token" logistics_officer eq_refl eq_refl _ eq_refl
            eq_refl eq_refl).
  discriminate.
Defined.
